(** * GitStory 2025: scoring, aggregation and archetype classification

    A shallow embedding of [src/services/scoringAlgorithms.ts] and of the
    aggregation, selection and classification code of
    [src/services/githubService.ts], with the properties of the
    specification stated and settled against it.

    Conventions of the embedding.
    - Counts read from the GitHub API (stars, forks, commits, ...) are
      integers: [Z].
    - Timestamps ([new Date(s)] compared with [>=], [getTime()]) are the
      millisecond count since the epoch: [Z].  [new Date('2025-01-01')] is
      UTC midnight, [year2025Start] below.
    - Repository scores go through [Math.log10]; JavaScript numbers are
      modelled there by the real numbers of the Standard Library, without
      rounding.  Where rounding decides a property, both scorers are
      repeated on binary64 floats ([ScoringAlgorithmsDouble],
      [GithubServiceDouble]).
    - Ratios of counts compared with a decimal threshold, and language
      weights (multiples of one half), are exact rationals: [Q].
    - A value that may be [null]/[undefined] is an [option]; a string is
      truthy when it is not empty.  Strings are sequences of 8-bit
      characters: [trim] and [length] are JavaScript's on ASCII text.
    - The two source files each carry their own [calculateArchetype] and
      [calculateRepoScore]; they are kept apart in the modules
      [ScoringAlgorithms] and [GithubService]. *)

From Stdlib Require Import ZArith QArith Reals Lra Lia List Bool.
From Stdlib Require Import Sorted Permutation.
From Stdlib Require Import Ascii String DecimalString Qround.
From Stdlib Require Import Floats.
Import ListNotations.

Open Scope Z_scope.

(** ** JavaScript helpers shared by both files *)

Module Js.

(** Truthiness of a possibly-null string: [null], [undefined] and the empty
    string are falsy. *)
Definition truthy (s : option string) : bool :=
  match s with
  | Some EmptyString => false
  | Some _ => true
  | None => false
  end.

(** White space removed by [String.prototype.trim], on ASCII code units. *)
Definition isSpace (c : ascii) : bool :=
  let n := nat_of_ascii c in
  ((9 <=? n) && (n <=? 13))%nat || (n =? 32)%nat.

Fixpoint trimStart (s : string) : string :=
  match s with
  | String c s' => if isSpace c then trimStart s' else s
  | EmptyString => EmptyString
  end.

(** [trimEnd] drops the trailing white space: a character is kept when it is
    not a space or when something is kept after it. *)
Fixpoint trimEnd (s : string) : string :=
  match s with
  | String c s' =>
      match trimEnd s' with
      | EmptyString => if isSpace c then EmptyString else String c EmptyString
      | t => String c t
      end
  | EmptyString => EmptyString
  end.

Definition trim (s : string) : string := trimEnd (trimStart s).

(** [arr[i]]: [None] stands for [undefined] out of range. *)
Definition index {A} (arr : list A) (i : nat) : option A := nth_error arr i.

(** [Math.max(...arr)]: [None] stands for [-Infinity] on the empty array. *)
Definition Math_max (arr : list Z) : option Z :=
  match arr with
  | [] => None
  | x :: xs => Some (fold_left Z.max xs x)
  end.

(** [arr.indexOf(v)]: first index holding [v], [-1] when there is none. *)
Fixpoint indexOf (arr : list Z) (v : Z) : Z :=
  match arr with
  | [] => -1
  | x :: xs =>
      if x =? v then 0
      else let i := indexOf xs v in if i <? 0 then -1 else i + 1
  end.

(** [arr.reduce((a, b) => a + b, 0)]. *)
Definition sum (arr : list Z) : Z := fold_left Z.add arr 0.

(** Strict comparison of rationals as a boolean. *)
Definition Qgtb (x y : Q) : bool := negb (Qle_bool x y).

(** [arr.sort(cmp)], a stable sort; the comparator is given by [le a b],
    which stands for [cmp(a, b) <= 0]. *)
Fixpoint insertSorted {A} (le : A -> A -> bool) (x : A) (sorted : list A)
  : list A :=
  match sorted with
  | [] => [x]
  | y :: rest => if le x y then x :: sorted else y :: insertSorted le x rest
  end.

Fixpoint sort {A} (le : A -> A -> bool) (arr : list A) : list A :=
  match arr with
  | [] => []
  | x :: rest => insertSorted le x (sort le rest)
  end.

(** [arr.slice(0, n)]: a negative [n] counts from the end. *)
Definition slice0 {A} (arr : list A) (n : Z) : list A :=
  if n <? 0 then firstn (Z.to_nat (Z.of_nat (List.length arr) + n)) arr
  else firstn (Z.to_nat n) arr.

(** [Math.round]: the nearest integer, halves going up. *)
Definition Math_round (x : Q) : Z := Qfloor (x + (1 # 2)).

(** [String(n)] for a length. *)
Definition String_of_nat (n : nat) : string :=
  NilZero.string_of_uint (Nat.to_uint n).

End Js.

(** ** Data shared by both files *)

(** A repository object as returned by the REST API; only the fields the
    code reads. *)
Record Repo := mkRepo {
  name : string;
  description : option string;
  stargazers_count : Z;
  forks_count : Z;
  watchers_count : Z;
  size : Z;
  open_issues_count : Z;
  language : option string;
  topics : option (list string);
  fork : bool;
  archived : bool;
  created_at : Z;
  pushed_at : Z;
  html_url : string
}.

(** The same record with another [archived] flag. *)
Definition with_archived (b : bool) (r : Repo) : Repo :=
  mkRepo (name r) (description r) (stargazers_count r) (forks_count r)
         (watchers_count r) (size r) (open_issues_count r) (language r)
         (topics r) (fork r) b (created_at r) (pushed_at r) (html_url r).

(** [new Date('2025-01-01').getTime()]. *)
Definition year2025Start : Z := 1735689600000.

(** [Math.log10] on the reals. *)
Definition log10 (x : R) : R := (ln x / ln 10)%R.

(** [repo.description && repo.description.trim().length > 10]. *)
Definition hasLongDescription (r : Repo) : bool :=
  match description r with
  | Some d => Js.truthy (Some d) && (10 <? String.length (Js.trim d))%nat
  | None => false
  end.

(** [repo.topics && repo.topics.length > 0]. *)
Definition hasTopicList (r : Repo) : bool :=
  match topics r with
  | Some (_ :: _) => true
  | _ => false
  end.

(** types.ts: [ContributionBreakdown] and [CommunityStats]. *)
Record ContributionBreakdown := mkBreakdown {
  commits : Z;
  prs : Z;
  issues : Z;
  reviews : Z
}.

Record CommunityStats := mkCommunity {
  followers : Z;
  following : Z;
  publicRepos : Z;
  totalStars : Z
}.

(** types.ts: [ProductivityData]; [calculateProductivity] returns the same
    shape. *)
Record ProductivityData := mkProductivity {
  timeOfDay : string;
  peakHour : Z
}.

(** ** src/services/scoringAlgorithms.ts *)

Module ScoringAlgorithms.

(** [SCORING_CONFIG.language]. *)
Record LanguageConfig := mkLanguageConfig {
  baseWeight : Q;
  recentActivityBonus : Q;
  diversityThreshold : Z;
  diversityBonus : Q
}.

(** [SCORING_CONFIG.repo], with [stars.maxPoints] and the like flattened. *)
Record RepoConfig := mkRepoConfig {
  stars_maxPoints : R;
  stars_logMultiplier : R;
  forks_maxPoints : R;
  forks_logMultiplier : R;
  recency_maxPoints : R;
  originalWork : R;
  hasDescription : R;
  hasTopics : R;
  hasLanguage : R;
  watchersMultiplier : R;
  watchersMax : R;
  archivedPenalty : R;
  sizeLogMultiplier : R;
  sizeMaxPoints : R;
  openIssuesLogMultiplier : R;
  openIssuesMaxPoints : R;
  createdIn2025Bonus : R
}.

Definition SCORING_CONFIG_language : LanguageConfig :=
  mkLanguageConfig 1 1 3 (1 # 2).

Definition SCORING_CONFIG_repo : RepoConfig :=
  mkRepoConfig 35 12 20 6 0 20 2 2 3 (1 / 2) 5 (-20) 3 15 4 8 10.

(** *** calculateLanguageScores *)

Record LanguageScore := mkLanguageScore {
  lang_name : string;
  weight : Q;
  repoCount : Z;
  recentCount : Z
}.

(** The [Map<string, LanguageScore>], as its entries in insertion order. *)
Definition LangMap := list (string * LanguageScore).

Fixpoint get (m : LangMap) (k : string) : option LanguageScore :=
  match m with
  | [] => None
  | (k', v) :: m' => if String.eqb k' k then Some v else get m' k
  end.

Definition has (m : LangMap) (k : string) : bool :=
  match get m k with Some _ => true | None => false end.

(** [Map.prototype.set]: an existing key keeps its place, a new one goes
    last. *)
Fixpoint set (m : LangMap) (k : string) (v : LanguageScore) : LangMap :=
  match m with
  | [] => [(k, v)]
  | (k', v') :: m' =>
      if String.eqb k' k then (k', v) :: m' else (k', v') :: set m' k v
  end.

(** The body of the first [forEach]: what one repository does to the map. *)
Definition visitRepo (cfg : LanguageConfig) (langMap : LangMap) (repo : Repo)
  : LangMap :=
  if fork repo then langMap
  else if negb (Js.truthy (language repo)) then langMap
  else
    match language repo with
    | None => langMap
    | Some lang =>
        let isActiveIn2025 := year2025Start <=? pushed_at repo in
        let langMap :=
          if negb (has langMap lang)
          then set langMap lang (mkLanguageScore lang 0 0 0)
          else langMap in
        match get langMap lang with
        | None => langMap
        | Some score =>
            let repoCount' := repoCount score + 1 in
            let recentCount' :=
              if isActiveIn2025 then recentCount score + 1
              else recentCount score in
            let weight' :=
              (weight score +
               (baseWeight cfg +
                (if isActiveIn2025 then recentActivityBonus cfg else 0)))%Q in
            set langMap lang
                (mkLanguageScore (lang_name score) weight' repoCount'
                                 recentCount')
        end
    end.

(** The map after the first [forEach]. *)
Definition accumulate (cfg : LanguageConfig) (repos : list Repo) : LangMap :=
  fold_left (visitRepo cfg) repos [].

(** The body of the second [forEach]: the diversity bonus of one entry. *)
Definition addDiversity (cfg : LanguageConfig) (score : LanguageScore)
  : LanguageScore :=
  if diversityThreshold cfg <=? repoCount score then
    let extraRepos := repoCount score - diversityThreshold cfg in
    mkLanguageScore (lang_name score)
                    (weight score + inject_Z extraRepos * diversityBonus cfg)%Q
                    (repoCount score) (recentCount score)
  else score.

Definition calculateLanguageScoresWith (cfg : LanguageConfig)
  (repos : list Repo) : LangMap :=
  map (fun kv => (fst kv, addDiversity cfg (snd kv))) (accumulate cfg repos).

Definition calculateLanguageScores (repos : list Repo) : LangMap :=
  calculateLanguageScoresWith SCORING_CONFIG_language repos.

(** *** calculateRepoScore

    [config] is [SCORING_CONFIG.repo] and [now] the reading of
    [new Date()] taken at the start of the call. *)

(** The first two summands: the capped logarithms of stars and forks. *)
Definition starsScore (config : RepoConfig) (repo : Repo) : R :=
  Rmin (log10 (IZR (stargazers_count repo + 1)) * stars_logMultiplier config)
       (stars_maxPoints config).

Definition forksScore (config : RepoConfig) (repo : Repo) : R :=
  Rmin (log10 (IZR (forks_count repo + 1)) * forks_logMultiplier config)
       (forks_maxPoints config).

Definition calculateRepoScore (config : RepoConfig) (now : Z) (repo : Repo)
  : R :=
  let score := 0%R in
  let score := (score + starsScore config repo)%R in
  let score := (score + forksScore config repo)%R in
  let score :=
    if (year2025Start <=? pushed_at repo)
    then (if Rlt_dec 0 (recency_maxPoints config)
          then score + recency_maxPoints config else score)%R
    else score in
  let score :=
    if negb (fork repo) then (score + originalWork config)%R else score in
  let score :=
    if hasLongDescription repo then (score + hasDescription config)%R
    else score in
  let score :=
    if hasTopicList repo then (score + hasTopics config)%R else score in
  let score :=
    if Js.truthy (language repo) then (score + hasLanguage config)%R
    else score in
  let score :=
    (score + Rmin (IZR (watchers_count repo) * watchersMultiplier config)
                  (watchersMax config))%R in
  let score :=
    if archived repo then (score + archivedPenalty config)%R else score in
  let score :=
    if 0 <? size repo
    then (score + Rmin (log10 (IZR (size repo)) * sizeLogMultiplier config)
                       (sizeMaxPoints config))%R
    else score in
  let score :=
    if 0 <? open_issues_count repo
    then (score + Rmin (log10 (IZR (open_issues_count repo + 1))
                        * openIssuesLogMultiplier config)
                       (openIssuesMaxPoints config))%R
    else score in
  let score :=
    if year2025Start <=? created_at repo
    then (score + createdIn2025Bonus config)%R else score in
  score.

(** *** calculateArchetype

    The parameter [productivity: { peakHour: number }] is given by its only
    field, [peakHour]. *)

(** [totalActivity > 0 ? (part / totalActivity) * 100 : 0]. *)
Definition percentage (part totalActivity : Z) : Q :=
  if 0 <? totalActivity
  then (inject_Z part / inject_Z totalActivity * 100)%Q
  else 0%Q.

(** [weekdayStats[0] + weekdayStats[6]]; [None] is the [NaN] of a missing
    slot. *)
Definition weekendCommits (weekdayStats : list Z) : option Z :=
  match Js.index weekdayStats 0, Js.index weekdayStats 6 with
  | Some a, Some b => Some (a + b)
  | _, _ => None
  end.

Definition weekendPercentage (weekdayStats : list Z) : option Q :=
  let totalWeekCommits := Js.sum weekdayStats in
  if 0 <? totalWeekCommits
  then match weekendCommits weekdayStats with
       | Some w => Some (inject_Z w / inject_Z totalWeekCommits * 100)%Q
       | None => None
       end
  else Some 0%Q.

(** [x > c] where [x] may be [NaN]: false on [NaN]. *)
Definition gtNaN (x : option Q) (c : Q) : bool :=
  match x with Some q => Js.Qgtb q c | None => false end.

Definition calculateArchetype (breakdown : ContributionBreakdown)
  (community : CommunityStats) (totalCommits : Z) (peakHour : Z)
  (weekdayStats : list Z) : string :=
  let totalActivity :=
    commits breakdown + prs breakdown + issues breakdown + reviews breakdown in
  let prPercentage := percentage (prs breakdown) totalActivity in
  let reviewPercentage := percentage (reviews breakdown) totalActivity in
  let issuePercentage := percentage (issues breakdown) totalActivity in
  if Js.Qgtb prPercentage 20 then "The Pull Request Pro"
  else if Js.Qgtb reviewPercentage 10 then "The Reviewer"
  else if (22 <=? peakHour) || (peakHour <=? 4) then "The Night Owl"
  else if (5 <=? peakHour) && (peakHour <=? 11) then "The Early Bird"
  else if gtNaN (weekendPercentage weekdayStats) 35 then "The Weekend Warrior"
  else if 1200 <=? totalCommits then "The Grid Painter"
  else if 400 <=? totalCommits then "The Consistent"
  else if Js.Qgtb issuePercentage 15 then "The Planner"
  else if (500 <=? followers community) || (1000 <=? totalStars community)
       then "The Community Star"
  else "The Tinkerer".

(** *** calculateProductivity

    [hourCounts] is given by its [Object.entries]: (hour, count) pairs in
    the order the loop visits them. *)

(** The [if] chain that sets [timeOfDay]. *)
Definition bucketOf (peakHour : Z) : string :=
  if (5 <=? peakHour) && (peakHour <? 12) then "Morning"
  else if (12 <=? peakHour) && (peakHour <? 17) then "Afternoon"
  else if (17 <=? peakHour) && (peakHour <? 21) then "Evening"
  else "Late Night".

Definition calculateProductivity (hourCounts : list (Z * Z))
  : ProductivityData :=
  let '(peakHour, maxCount) :=
    fold_left
      (fun (st : Z * Z) (e : Z * Z) =>
         let '(peakHour, maxCount) := st in
         let '(hour, count) := e in
         if maxCount <? count then (hour, count) else (peakHour, maxCount))
      hourCounts (14, 0) in
  mkProductivity (bucketOf peakHour) peakHour.

(** *** getTopLanguages

    [topN] is the second argument; the default is 3. *)

Definition byWeightDesc (a b : LanguageScore) : bool :=
  Qle_bool (weight b) (weight a).

Definition getTopLanguages (langMap : LangMap) (topN : Z)
  : list LanguageScore :=
  Js.slice0 (Js.sort byWeightDesc (map snd langMap)) topN.

Definition getTopLanguagesDefault (langMap : LangMap) : list LanguageScore :=
  getTopLanguages langMap 3.

End ScoringAlgorithms.

(** ** src/services/githubService.ts *)

Module GithubService.

(** *** getProductivityTime *)

Definition getProductivityTime (hour : Z) : string :=
  if (5 <=? hour) && (hour <? 12) then "Morning"
  else if (12 <=? hour) && (hour <? 17) then "Afternoon"
  else if (17 <=? hour) && (hour <? 22) then "Evening"
  else "Late Night".

(** *** calculateArchetype *)

(** [totalActivity > 0 ? part / totalActivity : 0]. *)
Definition ratio (part totalActivity : Z) : Q :=
  if 0 <? totalActivity then (inject_Z part / inject_Z totalActivity)%Q
  else 0%Q.

(** [weekdayStats[0] + weekdayStats[6]]; [None] is the [NaN] of a missing
    slot. *)
Definition weekendCommits (weekdayStats : list Z) : option Z :=
  match Js.index weekdayStats 0, Js.index weekdayStats 6 with
  | Some a, Some b => Some (a + b)
  | _, _ => None
  end.

Definition weekendRatio (weekdayStats : list Z) (totalCommits : Z)
  : option Q :=
  if 0 <? totalCommits
  then match weekendCommits weekdayStats with
       | Some w => Some (inject_Z w / inject_Z totalCommits)%Q
       | None => None
       end
  else Some 0%Q.

(** [x > c] where [x] may be [NaN]: false on [NaN]. *)
Definition gtNaN (x : option Q) (c : Q) : bool :=
  match x with Some q => Js.Qgtb q c | None => false end.

Definition calculateArchetype (stats : ContributionBreakdown)
  (community : CommunityStats) (totalCommits : Z)
  (productivity : ProductivityData) (weekdayStats : list Z) : string :=
  let totalActivity :=
    commits stats + prs stats + issues stats + reviews stats in
  let prRatio := ratio (prs stats) totalActivity in
  let reviewRatio := ratio (reviews stats) totalActivity in
  let issueRatio := ratio (issues stats) totalActivity in
  let weekendRatio := weekendRatio weekdayStats totalCommits in
  if Js.Qgtb prRatio (20 # 100) && (20 <? prs stats)
  then "The Pull Request Pro"
  else if Js.Qgtb reviewRatio (10 # 100) && (10 <? reviews stats)
  then "The Reviewer"
  else if gtNaN weekendRatio (35 # 100) && (50 <? totalCommits)
  then "The Weekend Warrior"
  else if String.eqb (timeOfDay productivity) "Late Night"
          && (50 <? totalCommits)
  then "The Night Owl"
  else if String.eqb (timeOfDay productivity) "Morning"
          && (50 <? totalCommits)
  then "The Early Bird"
  else if 1200 <? totalCommits then "The Grid Painter"
  else if 400 <? totalCommits then "The Consistent"
  else if Js.Qgtb issueRatio (15 # 100) then "The Planner"
  else if (500 <? followers community) || (1000 <? totalStars community)
  then "The Community Star"
  else "The Tinkerer".

(** *** fetchUserStory, part A: velocity, commits, streak, weekdays *)

(** One entry of [contribData.contributions]: the timestamp of its date and
    its count, the number [day.count || 0]. *)
Record Day := mkDay {
  date : Z;
  count : Z
}.

(** [yearData.sort((a, b) => a.date - b.date)]: ascending by date, days of
    equal date keeping their order. *)
Fixpoint insertDay (d : Day) (sorted : list Day) : list Day :=
  match sorted with
  | [] => [d]
  | e :: rest =>
      if date d <=? date e then d :: sorted else e :: insertDay d rest
  end.

Fixpoint sortByDate (yearData : list Day) : list Day :=
  match yearData with
  | [] => []
  | d :: rest => insertDay d (sortByDate rest)
  end.

(** [dateObj.getDay()] in a zone [tz] milliseconds east of UTC; the epoch
    was a Thursday. *)
Definition getDay (tz : Z) (t : Z) : nat :=
  Z.to_nat (((t + tz) / 86400000 + 4) mod 7).

(** [arr[i] += c]. *)
Fixpoint addAt (arr : list Z) (i : nat) (c : Z) : list Z :=
  match arr, i with
  | [], _ => []
  | x :: xs, O => (x + c) :: xs
  | x :: xs, S i' => x :: addAt xs i' c
  end.

(** The variables the loop over [yearData] updates; a velocity entry keeps
    the day's timestamp where the code formats a label. *)
Record Aggregate := mkAggregate {
  velocityData : list (Z * Z);
  totalCommits : Z;
  currentStreak : Z;
  maxStreak : Z;
  weekdayStats : list Z
}.

Definition initialAggregate : Aggregate :=
  mkAggregate [] 0 0 0 [0; 0; 0; 0; 0; 0; 0].

(** The loop body. *)
Definition aggregateDay (tz : Z) (st : Aggregate) (day : Day) : Aggregate :=
  let count := count day in
  let totalCommits := totalCommits st + count in
  let velocityData := velocityData st ++ [(date day, count)] in
  let weekdayStats :=
    if 0 <? count then addAt (weekdayStats st) (getDay tz (date day)) count
    else weekdayStats st in
  if 0 <? count then
    let currentStreak := currentStreak st + 1 in
    let maxStreak :=
      if maxStreak st <? currentStreak then currentStreak else maxStreak st in
    mkAggregate velocityData totalCommits currentStreak maxStreak weekdayStats
  else
    mkAggregate velocityData totalCommits 0 (maxStreak st) weekdayStats.

Definition aggregate (tz : Z) (yearData : list Day) : Aggregate :=
  fold_left (aggregateDay tz) (sortByDate yearData) initialAggregate.

(** [weekdayStats.indexOf(Math.max(...weekdayStats))]. *)
Definition maxDayIndex (weekdayStats : list Z) : Z :=
  match Js.Math_max weekdayStats with
  | Some m => Js.indexOf weekdayStats m
  | None => -1
  end.

Definition days : list string :=
  (["Sundays"; "Mondays"; "Tuesdays"; "Wednesdays"; "Thursdays"; "Fridays";
    "Saturdays"])%string.

(** [days[maxDayIndex]]; [None] is [undefined]. *)
Definition busiestDay (weekdayStats : list Z) : option string :=
  let i := maxDayIndex weekdayStats in
  if i <? 0 then None else Js.index days (Z.to_nat i).

(** *** fetchUserStory, part C: the local calculateRepoScore

    [now] is the reading of [new Date()] taken by the call. *)

Definition recencyScore (now : Z) (repo : Repo) : R :=
  let daysSincePush :=
    Rmax 0 (IZR (now - pushed_at repo) / (1000 * 60 * 60 * 24)) in
  Rmax 0 (25 - daysSincePush / 15).

Definition calculateRepoScore (now : Z) (repo : Repo) : R :=
  let score := 0%R in
  let score :=
    (score + Rmin (log10 (IZR (stargazers_count repo + 1)) * 10) 30)%R in
  let score :=
    (score + Rmin (log10 (IZR (forks_count repo + 1)) * 5) 15)%R in
  let score :=
    if year2025Start <=? pushed_at repo
    then (score + recencyScore now repo)%R else score in
  let score := if negb (fork repo) then (score + 15)%R else score in
  let score := if hasLongDescription repo then (score + 5)%R else score in
  let score := if hasTopicList repo then (score + 5)%R else score in
  let score := if Js.truthy (language repo) then (score + 3)%R else score in
  let score :=
    (score + Rmin (IZR (watchers_count repo) * (1 / 2)) 5)%R in
  let score := if archived repo then (score - 20)%R else score in
  score.

(** *** fetchUserStory, part C: the loop over [repos]

    Each repository comes with the clock reading of its scoring call. *)

(** [langMap[k] = (langMap[k] || 0) + 1] on the entries of the object. *)
Fixpoint tally (langMap : list (string * Z)) (k : string)
  : list (string * Z) :=
  match langMap with
  | [] => [(k, 1)]
  | (k', n) :: rest =>
      if String.eqb k' k then (k', n + 1) :: rest
      else (k', n) :: tally rest k
  end.

Record Selection := mkSelection {
  bestRepo : option Repo;
  bestScore : R;
  totalStarsSoFar : Z;
  langMap : list (string * Z)
}.

Definition initialSelection : Selection := mkSelection None (-1) 0 [].

(** The body of [repos.forEach]. *)
Definition visitRepo (st : Selection) (call : Z * Repo) : Selection :=
  let '(now, repo) := call in
  let totalStars := totalStarsSoFar st + stargazers_count repo in
  let langMap :=
    match language repo with
    | Some l => if Js.truthy (Some l) then tally (langMap st) l else langMap st
    | None => langMap st
    end in
  let repoScore := calculateRepoScore now repo in
  if Rlt_dec (bestScore st) repoScore
  then mkSelection (Some repo) repoScore totalStars langMap
  else mkSelection (bestRepo st) (bestScore st) totalStars langMap.

Definition selectRepos (calls : list (Z * Repo)) : Selection :=
  fold_left visitRepo calls initialSelection.

(** types.ts: [Repository], the shape of [topRepo]. *)
Record Repository := mkRepository {
  repo_name : string;
  repo_description : string;
  repo_stars : Z;
  repo_language : string;
  repo_topics : list string;
  repo_url : string
}.

Definition orElse (s : option string) (d : string) : string :=
  if Js.truthy s then match s with Some v => v | None => d end else d.

(** [const topRepo = bestRepo ? {...} : {...}]. *)
Definition topRepo (best : option Repo) : Repository :=
  match best with
  | Some r =>
      mkRepository (name r)
                   (orElse (description r) "No description provided.")
                   (stargazers_count r)
                   (orElse (language r) "Unknown")
                   (match topics r with Some t => t | None => [] end)
                   (html_url r)
  | None =>
      mkRepository "No Public Repos" "Start coding to write history." 0
                   "N/A" [] EmptyString
  end.

(** *** fetchUserStory, part B: the hour histogram

    An event is given by [date.getHours()], an hour from 0 to 23.  The
    object [hourCounts] is kept as its [Object.entries], which list integer
    keys in ascending order. *)

(** [hourCounts[h] = (hourCounts[h] || 0) + 1]. *)
Fixpoint countHour (hourCounts : list (Z * Z)) (h : Z) : list (Z * Z) :=
  match hourCounts with
  | [] => [(h, 1)]
  | (h', n) :: rest =>
      if h' =? h then (h', n + 1) :: rest
      else if h <? h' then (h, 1) :: hourCounts
      else (h', n) :: countHour rest h
  end.

Definition hourCountsOf (eventHours : list Z) : list (Z * Z) :=
  fold_left countHour eventHours [].

(** *** fetchUserStory, part D: productivity *)

(** The comparator [([, a], [, b]) => b - a]. *)
Definition byCountDesc {K} (x y : K * Z) : bool := snd y <=? snd x.

Definition sortedHours (hourCounts : list (Z * Z)) : list (Z * Z) :=
  Js.sort byCountDesc hourCounts.

Definition peakHourOf (hourCounts : list (Z * Z)) : Z :=
  match sortedHours hourCounts with
  | [] => 14
  | (h, _) :: _ => h
  end.

Definition productivityOf (hourCounts : list (Z * Z)) : ProductivityData :=
  let peakHour := peakHourOf hourCounts in
  mkProductivity (getProductivityTime peakHour) peakHour.

(** *** fetchUserStory, part C: top languages

    [langMap] is kept as its entries in insertion order, the order of
    [Object.entries] for keys that are not integers, as language names
    are. *)

(** types.ts: [Language]. *)
Record Language := mkLanguage {
  l_name : string;
  l_count : Z;
  l_percentage : Z;
  l_color : string
}.

Definition langColors : list (string * string) :=
  ([("TypeScript", "#3178C6"); ("JavaScript", "#F7DF1E");
    ("Python", "#3572A5"); ("Java", "#b07219"); ("Go", "#00ADD8");
    ("Rust", "#dea584"); ("HTML", "#e34c26"); ("CSS", "#563d7c");
    ("C++", "#f34b7d"); ("C#", "#178600"); ("Vue", "#41b883");
    ("React", "#61dafb"); ("Swift", "#F05138"); ("Kotlin", "#A97BFF");
    ("Jupyter Notebook", "#DA5B0B")])%string.

Fixpoint lookupColor (table : list (string * string)) (k : string)
  : option string :=
  match table with
  | [] => None
  | (k', c) :: rest => if String.eqb k' k then Some c else lookupColor rest k
  end.

(** [repos.length > 0 ? Math.round((count / repos.length) * 100) : 0]. *)
Definition percentageOf (count : Z) (reposLength : nat) : Z :=
  if (0 <? reposLength)%nat
  then Js.Math_round
         (inject_Z count / inject_Z (Z.of_nat reposLength) * 100)%Q
  else 0.

Definition polyglot : Language := mkLanguage "Polyglot" 1 100 "#FFFFFF".

Definition topLanguages (langMap : list (string * Z)) (reposLength : nat)
  : list Language :=
  let top :=
    map (fun entry : string * Z =>
           let '(name, count) := entry in
           mkLanguage name count (percentageOf count reposLength)
                      (orElse (lookupColor langColors name) "#A3A3A3"))
        (Js.slice0 (Js.sort byCountDesc langMap) 3) in
  if (List.length top =? 0)%nat then top ++ [polyglot] else top.

(** *** fetchUserStory: the report

    The computation that follows the network calls.  [user] holds the fields
    read from the profile, [calls] the repositories with the clock reading
    of their scoring, [yearData] the contribution days, [eventHours] the
    hours of the recent events, and the three counts come from the search
    API. *)

Record User := mkUser {
  login : string;
  avatar_url : string;
  user_followers : Z;
  user_following : Z;
  public_repos : Z
}.

(** types.ts: [GitStoryData]. *)
Record GitStoryData := mkGitStoryData {
  username : string;
  avatarUrl : string;
  year : Z;
  story_totalCommits : Z;
  longestStreak : Z;
  story_busiestDay : option string;
  story_topLanguages : list Language;
  story_topRepo : Repository;
  story_velocityData : list (Z * Z);
  story_weekdayStats : list Z;
  productivity : ProductivityData;
  archetype : string;
  contributionBreakdown : ContributionBreakdown;
  community : CommunityStats
}.

Definition buildStory (tz : Z) (user : User) (calls : list (Z * Repo))
  (yearData : list Day) (eventHours : list Z)
  (prCount issueCount reviewCount : Z) : GitStoryData :=
  let agg := aggregate tz yearData in
  let totalCommits := totalCommits agg in
  let weekdayStats := weekdayStats agg in
  let hourCounts := hourCountsOf eventHours in
  let contributionBreakdown :=
    mkBreakdown totalCommits prCount issueCount reviewCount in
  let sel := selectRepos calls in
  let topLanguages := topLanguages (langMap sel) (List.length calls) in
  let productivity := productivityOf hourCounts in
  let communityStats :=
    mkCommunity (user_followers user) (user_following user)
                (public_repos user) (totalStarsSoFar sel) in
  let archetype :=
    calculateArchetype contributionBreakdown communityStats totalCommits
                       productivity weekdayStats in
  mkGitStoryData (login user) (avatar_url user) 2025 totalCommits
                 (maxStreak agg) (busiestDay weekdayStats) topLanguages
                 (topRepo (bestRepo sel)) (velocityData agg) weekdayStats
                 productivity archetype contributionBreakdown communityStats.

End GithubService.

(** ** The API proxy route (second file of src/services/githubService.ts)

    The handlers read and write two module-level variables, [tokenIndex] and
    [cache]; they are threaded as a state.  [fetch] and the clock are the
    environment: the upstream call is a function of the URL and the request
    headers, and each [Date.now()] is a parameter. *)

Module ApiProxy.

Definition GITHUB_API_BASE : string := "https://api.github.com".

(** [[...].filter(Boolean) as string[]] over the four environment
    variables. *)
Definition GITHUB_TOKENS (env : list (option string)) : list string :=
  flat_map (fun v => match v with
                     | Some t => if Js.truthy (Some t) then [t] else []
                     | None => []
                     end) env.

(** [getNextToken]: the token handed out and the new [tokenIndex]. *)
Definition getNextToken (tokens : list string) (tokenIndex : nat)
  : option string * nat :=
  if (List.length tokens =? 0)%nat then (None, tokenIndex)
  else (Js.index tokens tokenIndex,
        ((tokenIndex + 1) mod List.length tokens)%nat).

Definition CACHE_TTL_MS : Z := 5 * 60 * 1000.

Record CacheEntry := mkCacheEntry {
  data : string;
  status : Z;
  timestamp : Z
}.

(** The [Map<string, ...>], as its entries in insertion order. *)
Definition Cache := list (string * CacheEntry).

Fixpoint cacheGet (cache : Cache) (k : string) : option CacheEntry :=
  match cache with
  | [] => None
  | (k', v) :: rest => if String.eqb k' k then Some v else cacheGet rest k
  end.

Fixpoint cacheSet (cache : Cache) (k : string) (v : CacheEntry) : Cache :=
  match cache with
  | [] => [(k, v)]
  | (k', v') :: rest =>
      if String.eqb k' k then (k', v) :: rest
      else (k', v') :: cacheSet rest k v
  end.

(** [cleanExpiredCache]: every entry older than the TTL is deleted. *)
Definition cleanExpiredCache (now : Z) (cache : Cache) : Cache :=
  filter (fun kv : string * CacheEntry =>
            negb (CACHE_TTL_MS <? now - timestamp (snd kv))) cache.

Record ProxyState := mkProxyState {
  cache : Cache;
  tokenIndex : nat
}.

(** What [fetch] and [response.json()] produce: they throw, or there is a
    response with its status, its parsed body and the two rate-limit
    headers. *)
Record Upstream := mkUpstream {
  up_status : Z;
  up_data : string;
  up_remaining : option string;
  up_reset : option string
}.

Inductive FetchResult :=
| Threw
| Responded (response : Upstream).

(** [response.ok]. *)
Definition ok (response : Upstream) : bool :=
  (200 <=? up_status response) && (up_status response <=? 299).

(** A [NextResponse.json(body, { status, headers })]. *)
Inductive Body :=
| Data (json : string)
| Error (message : string).

Record Response := mkResponse {
  body : Body;
  res_status : Z;
  headers : list (string * string)
}.

Definition orEmpty (s : option string) : string :=
  if Js.truthy s then match s with Some v => v | None => EmptyString end
  else EmptyString.

(** [GET]: [endpoint] is [searchParams.get('endpoint')], [authorization] the
    request's Authorization header, [now] the clock at the cache check and
    [nowSet] the clock when the response is stored. *)
Definition GET (tokens : list string)
  (fetch : string -> list (string * string) -> FetchResult)
  (now nowSet : Z) (endpoint authorization : option string)
  (st : ProxyState) : Response * ProxyState :=
  match endpoint with
  | None => (mkResponse (Error "Missing endpoint parameter") 400 [], st)
  | Some ep =>
      if negb (Js.truthy (Some ep))
      then (mkResponse (Error "Missing endpoint parameter") 400 [], st)
      else
        let userAuthHeader := Js.truthy authorization in
        let cacheKey :=
          (ep ++ ":" ++ (if userAuthHeader then "auth" else "public"))%string in
        let tokensAvailable := Js.String_of_nat (List.length tokens) in
        let cached :=
          if userAuthHeader then None
          else match cacheGet (cache st) cacheKey with
               | Some c =>
                   if now - timestamp c <? CACHE_TTL_MS then Some c else None
               | None => None
               end in
        match cached with
        | Some c =>
            (mkResponse (Data (data c)) (status c)
                        [("X-Cache", "HIT");
                         ("X-Tokens-Available", tokensAvailable)]%string,
             st)
        | None =>
            let base :=
              [("Accept", "application/vnd.github.v3+json");
               ("User-Agent", "GitStory-2025")]%string in
            let '(requestHeaders, tokenIndex') :=
              if userAuthHeader
              then (base ++ [("Authorization"%string, orEmpty authorization)],
                    tokenIndex st)
              else
                match getNextToken tokens (tokenIndex st) with
                | (Some serverToken, i) =>
                    if Js.truthy (Some serverToken)
                    then (base ++ [("Authorization",
                                    "Bearer " ++ serverToken)]%string, i)
                    else (base, i)
                | (None, i) => (base, i)
                end in
            match fetch (GITHUB_API_BASE ++ ep)%string requestHeaders with
            | Threw =>
                (mkResponse (Error "Failed to fetch from GitHub") 500 [],
                 mkProxyState (cache st) tokenIndex')
            | Responded response =>
                let cache' :=
                  if ok response && negb userAuthHeader
                  then cacheSet (cache st) cacheKey
                         (mkCacheEntry (up_data response)
                                       (up_status response) nowSet)
                  else cache st in
                (mkResponse (Data (up_data response)) (up_status response)
                   [("X-RateLimit-Remaining", orEmpty (up_remaining response));
                    ("X-RateLimit-Reset", orEmpty (up_reset response));
                    ("X-Cache", "MISS");
                    ("X-Tokens-Available", tokensAvailable)]%string,
                 mkProxyState cache' tokenIndex')
            end
        end
  end.

(** [setInterval(cleanExpiredCache, ...)] firing between two requests. *)
Definition tick (now : Z) (st : ProxyState) : ProxyState :=
  mkProxyState (cleanExpiredCache now (cache st)) (tokenIndex st).

End ApiProxy.

(** ** The two repository scorers in double arithmetic

    The scorers above add real numbers.  JavaScript adds IEEE 754 doubles
    and rounds after every operation, so the order of the additions
    matters.  The definitions below repeat both scorers on binary64
    floats, operation by operation and in the order of the source.
    [Math.log10] is implementation-approximated (ECMA-262, 21.3.2.21): it
    is the parameter [Math_log10] of both scorers. *)

Module JsNumber.

Local Open Scope float_scope.

(** The Number an integer of the JSON response is read as: the nearest
    double, the integer itself below 2^53. *)
Definition ofZ (z : Z) : float :=
  SF2Prim (binary_normalize prec emax z 0 false).

(** [Math.min(x, y)]: NaN when either is NaN, and -0 is below +0. *)
Definition Math_min (x y : float) : float :=
  if is_nan x || is_nan y then nan
  else if x <? y then x
  else if y <? x then y
  else if get_sign x then x else y.

(** [Math.max(x, y)]: NaN when either is NaN, and +0 is above -0. *)
Definition Math_max (x y : float) : float :=
  if is_nan x || is_nan y then nan
  else if x <? y then y
  else if y <? x then x
  else if get_sign x then y else x.

End JsNumber.

(** *** scoringAlgorithms.ts: calculateRepoScore *)

Module ScoringAlgorithmsDouble.

Local Open Scope float_scope.

(** [SCORING_CONFIG.repo], with [stars.maxPoints] and the like flattened. *)
Record RepoConfig := mkRepoConfig {
  stars_maxPoints : float;
  stars_logMultiplier : float;
  forks_maxPoints : float;
  forks_logMultiplier : float;
  recency_maxPoints : float;
  originalWork : float;
  hasDescription : float;
  hasTopics : float;
  hasLanguage : float;
  watchersMultiplier : float;
  watchersMax : float;
  archivedPenalty : float;
  sizeLogMultiplier : float;
  sizeMaxPoints : float;
  openIssuesLogMultiplier : float;
  openIssuesMaxPoints : float;
  createdIn2025Bonus : float
}.

Definition SCORING_CONFIG_repo : RepoConfig :=
  mkRepoConfig 35 12 20 6 0 20 2 2 3 0.5 5 (-20) 3 15 4 8 10.

Definition calculateRepoScore (Math_log10 : float -> float)
  (config : RepoConfig) (now : Z) (repo : Repo) : float :=
  let score := 0 in
  let score :=
    score + JsNumber.Math_min
              (Math_log10 (JsNumber.ofZ (stargazers_count repo) + 1)
               * stars_logMultiplier config)
              (stars_maxPoints config) in
  let score :=
    score + JsNumber.Math_min
              (Math_log10 (JsNumber.ofZ (forks_count repo) + 1)
               * forks_logMultiplier config)
              (forks_maxPoints config) in
  let score :=
    if (year2025Start <=? pushed_at repo)%Z
       && (0 <? recency_maxPoints config)
    then score + recency_maxPoints config else score in
  let score :=
    if negb (fork repo) then score + originalWork config else score in
  let score :=
    if hasLongDescription repo then score + hasDescription config
    else score in
  let score :=
    if hasTopicList repo then score + hasTopics config else score in
  let score :=
    if Js.truthy (language repo) then score + hasLanguage config
    else score in
  let score :=
    score + JsNumber.Math_min
              (JsNumber.ofZ (watchers_count repo) * watchersMultiplier config)
              (watchersMax config) in
  let score :=
    if archived repo then score + archivedPenalty config else score in
  let score :=
    if (0 <? size repo)%Z
    then score + JsNumber.Math_min
                   (Math_log10 (JsNumber.ofZ (size repo))
                    * sizeLogMultiplier config)
                   (sizeMaxPoints config)
    else score in
  let score :=
    if (0 <? open_issues_count repo)%Z
    then score + JsNumber.Math_min
                   (Math_log10 (JsNumber.ofZ (open_issues_count repo) + 1)
                    * openIssuesLogMultiplier config)
                   (openIssuesMaxPoints config)
    else score in
  let score :=
    if (year2025Start <=? created_at repo)%Z
    then score + createdIn2025Bonus config else score in
  score.

End ScoringAlgorithmsDouble.

(** *** githubService.ts: the local calculateRepoScore *)

Module GithubServiceDouble.

Local Open Scope float_scope.

Definition calculateRepoScore (Math_log10 : float -> float) (now : Z)
  (repo : Repo) : float :=
  let score := 0 in
  let score :=
    score + JsNumber.Math_min
              (Math_log10 (JsNumber.ofZ (stargazers_count repo) + 1) * 10)
              30 in
  let score :=
    score + JsNumber.Math_min
              (Math_log10 (JsNumber.ofZ (forks_count repo) + 1) * 5) 15 in
  let score :=
    if (year2025Start <=? pushed_at repo)%Z
    then
      let daysSincePush :=
        JsNumber.Math_max 0
          ((JsNumber.ofZ now - JsNumber.ofZ (pushed_at repo))
           / (1000 * 60 * 60 * 24)) in
      score + JsNumber.Math_max 0 (25 - daysSincePush / 15)
    else score in
  let score := if negb (fork repo) then score + 15 else score in
  let score := if hasLongDescription repo then score + 5 else score in
  let score := if hasTopicList repo then score + 5 else score in
  let score := if Js.truthy (language repo) then score + 3 else score in
  let score :=
    score + JsNumber.Math_min (JsNumber.ofZ (watchers_count repo) * 0.5) 5 in
  let score := if archived repo then score - 20 else score in
  score.

End GithubServiceDouble.

(** ** The specification's own wording

    Definitions written from the text of the specification, to be compared
    with the code above. *)

Module Spec.

(** Section 3: the closed enumeration of archetype labels, and the string
    the code returns for each. *)
Inductive Archetype :=
| PullRequestPro | Reviewer | WeekendWarrior | NightOwl | EarlyBird
| GridPainter | Consistent | Planner | CommunityStar | Tinkerer.

Definition label (a : Archetype) : string :=
  match a with
  | PullRequestPro => "The Pull Request Pro"
  | Reviewer => "The Reviewer"
  | WeekendWarrior => "The Weekend Warrior"
  | NightOwl => "The Night Owl"
  | EarlyBird => "The Early Bird"
  | GridPainter => "The Grid Painter"
  | Consistent => "The Consistent"
  | Planner => "The Planner"
  | CommunityStar => "The Community Star"
  | Tinkerer => "The Tinkerer"
  end.

(** Section 3: the time-of-day buckets, and the string the code uses. *)
Inductive Bucket := Morning | Afternoon | Evening | LateNight.

Definition bucketName (b : Bucket) : string :=
  match b with
  | Morning => "Morning"
  | Afternoon => "Afternoon"
  | Evening => "Evening"
  | LateNight => "Late Night"
  end.

(** Section 4.4: Morning = [5,12), Afternoon = [12,17), Evening = [17,22),
    LateNight = everything else. *)
Definition bucketOfHour (h : Z) : Bucket :=
  if (5 <=? h) && (h <? 12) then Morning
  else if (12 <=? h) && (h <? 17) then Afternoon
  else if (17 <=? h) && (h <? 22) then Evening
  else LateNight.

(** Section 4.5: the inputs of the classifier. *)
Record Metrics := mkMetrics {
  m_breakdown : ContributionBreakdown;
  m_community : CommunityStats;
  m_totalCommits : Z;
  m_bucket : string;
  m_histogram : list Z
}.

(** "Let totalActivity = commits+prs+issues+reviews; ratios computed against
    totalActivity default to 0 when totalActivity is 0." *)
Definition totalActivity (m : Metrics) : Z :=
  commits (m_breakdown m) + prs (m_breakdown m) + issues (m_breakdown m)
  + reviews (m_breakdown m).

Definition ratioOf (part : Z) (m : Metrics) : Q :=
  if totalActivity m =? 0 then 0%Q
  else (inject_Z part / inject_Z (totalActivity m))%Q.

(** "weekendRatio = (histogram[Sunday]+histogram[Saturday]) / totalCommits,
    defaulting to 0 when totalCommits is 0." *)
Definition weekendRatio (m : Metrics) : Q :=
  if m_totalCommits m =? 0 then 0%Q
  else (inject_Z (nth 0%nat (m_histogram m) 0%Z + nth 6%nat (m_histogram m) 0%Z)
        / inject_Z (m_totalCommits m))%Q.

(** Rules 1 to 9 of section 4.5, in the order of the text. *)
Definition rules : list ((Metrics -> bool) * Archetype) :=
  [ (fun m => Js.Qgtb (ratioOf (prs (m_breakdown m)) m) (20 # 100)
              && (20 <? prs (m_breakdown m)), PullRequestPro);
    (fun m => Js.Qgtb (ratioOf (reviews (m_breakdown m)) m) (10 # 100)
              && (10 <? reviews (m_breakdown m)), Reviewer);
    (fun m => Js.Qgtb (weekendRatio m) (35 # 100)
              && (50 <? m_totalCommits m), WeekendWarrior);
    (fun m => String.eqb (m_bucket m) (bucketName LateNight)
              && (50 <? m_totalCommits m), NightOwl);
    (fun m => String.eqb (m_bucket m) (bucketName Morning)
              && (50 <? m_totalCommits m), EarlyBird);
    (fun m => 1200 <? m_totalCommits m, GridPainter);
    (fun m => 400 <? m_totalCommits m, Consistent);
    (fun m => Js.Qgtb (ratioOf (issues (m_breakdown m)) m) (15 # 100),
     Planner);
    (fun m => (500 <? followers (m_community m))
              || (1000 <? totalStars (m_community m)), CommunityStar) ].

(** "The first satisfied rule determines the label, and evaluation stops";
    rule 10 is the default. *)
Fixpoint firstMatch (rs : list ((Metrics -> bool) * Archetype)) (m : Metrics)
  : Archetype :=
  match rs with
  | [] => Tinkerer
  | (satisfied, a) :: rs' => if satisfied m then a else firstMatch rs' m
  end.

Definition classify (m : Metrics) : Archetype := firstMatch rules m.

(** Glossary, "Streak: a run of consecutive days each having a non-zero
    contribution count": [run] is a block of consecutive entries of
    [counts], all positive. *)
Definition isRun (counts run : list Z) : Prop :=
  (exists pre post, counts = pre ++ run ++ post)
  /\ Forall (fun c => 0 < c) run.

(** [n] is the maximum length of a run of [counts]. *)
Definition isLongestRun (counts : list Z) (n : Z) : Prop :=
  (exists run, isRun counts run /\ Z.of_nat (List.length run) = n)
  /\ (forall run, isRun counts run -> Z.of_nat (List.length run) <= n).

(** Section 4.2: the diversity bonus of a language found in [repoCount]
    repositories. *)
Definition diversityBonusOf (repoCount : Z) : Q :=
  if 3 <=? repoCount then (inject_Z (repoCount - 3) * (1 # 2))%Q else 0%Q.

(** Section 4.1, first row of the table: stars, log10(stars+1) x 12,
    cap 35. *)
Definition starsTerm (stars : Z) : R :=
  Rmin (log10 (IZR (stars + 1)) * 12) 35.

(** Section 4.2: the repositories that count for a language are those that
    are not forks and have it as primary language. *)
Definition countsFor (lang : string) (r : Repo) : bool :=
  negb (fork r)
  && match language r with
     | Some l => String.eqb l lang
     | None => false
     end.

Definition repoCountOf (lang : string) (repos : list Repo) : Z :=
  Z.of_nat (List.length (filter (countsFor lang) repos)).

End Spec.

(** ** Sample inputs *)

(** A repository pushed at the first instant of 2025, with nothing else to
    score. *)
Definition pushedOnNewYear : Repo :=
  mkRepo "notes" None 0 0 0 0 0 None None true false 0 year2025Start
         EmptyString.

(** Fifteen days in milliseconds. *)
Definition fifteenDays : Z := 15 * (1000 * 60 * 60 * 24).

(** A Go repository last pushed at the epoch. *)
Definition goRepo : Repo :=
  mkRepo "tool" None 0 0 0 0 0 (Some "Go"%string) None false false 0 0
         EmptyString.

(** An archived fork with nothing to score, last pushed at the epoch. *)
Definition archivedFork : Repo :=
  mkRepo "mirror" None 0 0 0 0 0 None None true true 0 0 EmptyString.

(** The same archived fork, pushed at the first instant of 2025. *)
Definition recentArchivedFork : Repo :=
  mkRepo "mirror" None 0 0 0 0 0 None None true true 0 year2025Start
         EmptyString.

(** An original repository with 10 forks, of size 11 and with 10 open
    issues. *)
Definition busyRepo : Repo :=
  mkRepo "sandbox" None 0 10 0 11 10 None None false false 0 0 EmptyString.

(** An empty repository with one star, created and last pushed before
    2025. *)
Definition emptyStarredRepo : Repo :=
  mkRepo "placeholder" None 1 0 0 0 0 None None false false 0 0 EmptyString.

(** Three repositories that each get one of the terms scoringAlgorithms.ts
    adds after the archived penalty: the size term, the open-issue term,
    the created-in-2025 bonus. *)
Definition sizedRepo : Repo :=
  mkRepo "library" None 0 37 0 38 0 None None false false 0 0 EmptyString.

Definition reportedFork : Repo :=
  mkRepo "patches" None 0 52 0 0 52 None None true false 0 0 EmptyString.

Definition newRepo : Repo :=
  mkRepo "prototype" None 5 0 0 0 0 None None false false year2025Start 0
         EmptyString.

(** A [Math.log10] given by a table of its values: +0 at 1, as the standard
    has it, the listed value at a listed argument, and NaN at the
    arguments left out, which the examples do not reach. *)
Definition log10Table (entries : list (float * float)) (x : float) : float :=
  if (x =? 1)%float then 0%float
  else match find (fun entry => (fst entry =? x)%float) entries with
       | Some entry => snd entry
       | None => nan
       end.

(** The values the C library's log10 returns at 2, 6, 11, 38 and 53:
    0.3010299956639812, 0.7781512503836436, 1.041392685158225,
    1.5797835966168101 and 1.7242758696007892. *)
Definition sampleLog10 : float -> float :=
  log10Table [ (2, 0x1.34413509f79ffp-2); (6, 0x1.8e69d7377a7fep-1);
               (11, 0x1.0a98b6050c56ep+0); (38, 0x1.946cb2a239f9p+0);
               (53, 0x1.b96a24b537a44p+0) ]%float.

(** The seven doubles from 1.0413926851582243 to 1.0413926851582256: the
    value above, which is within one unit in the last place of log10 11,
    and the three doubles on each side of it. *)
Definition log10_11_candidates : list float :=
  [ 0x1.0a98b6050c56bp+0; 0x1.0a98b6050c56cp+0; 0x1.0a98b6050c56dp+0;
    0x1.0a98b6050c56ep+0; 0x1.0a98b6050c56fp+0; 0x1.0a98b6050c57p+0;
    0x1.0a98b6050c571p+0 ]%float.

(** ** Auxiliary definitions of the proofs *)

(** What the first loop does to an entry when it meets a repository of its
    language. *)
Definition bump (cfg : ScoringAlgorithms.LanguageConfig) (repo : Repo)
  (score : ScoringAlgorithms.LanguageScore) : ScoringAlgorithms.LanguageScore :=
  let isActiveIn2025 := year2025Start <=? pushed_at repo in
  ScoringAlgorithms.mkLanguageScore
    (ScoringAlgorithms.lang_name score)
    (ScoringAlgorithms.weight score
     + (ScoringAlgorithms.baseWeight cfg
        + (if isActiveIn2025 then ScoringAlgorithms.recentActivityBonus cfg
           else 0)))%Q
    (ScoringAlgorithms.repoCount score + 1)
    (if isActiveIn2025 then ScoringAlgorithms.recentCount score + 1
     else ScoringAlgorithms.recentCount score).

(** The entry of a language, or the fresh one the loop would insert. *)
Definition entryOrFresh (m : ScoringAlgorithms.LangMap) (lang : string)
  : ScoringAlgorithms.LanguageScore :=
  match ScoringAlgorithms.get m lang with
  | Some s => s
  | None => ScoringAlgorithms.mkLanguageScore lang 0 0 0
  end.

(** A positive daily count. *)
Definition positive (c : Z) : Prop := 0 < c.

(** The run that ends at the last day: [run] is a block of positive counts
    closing [counts], and the day before it, if any, is not positive. *)
Definition trailingRun (counts run : list Z) : Prop :=
  exists pre,
    counts = pre ++ run /\ Forall positive run
    /\ (pre = [] \/ exists pre' y, pre = pre' ++ [y] /\ y <= 0).

(** The state of the streak counters after the days [counts]. *)
Definition streakInv (counts : list Z) (cur mx : Z) : Prop :=
  (exists run, trailingRun counts run /\ Z.of_nat (List.length run) = cur)
  /\ Spec.isLongestRun counts mx.

(** Ascending date order. *)
Definition dateLe (a b : GithubService.Day) : Prop :=
  GithubService.date a <= GithubService.date b.

(** The score the loop over [repos] computes for a repository, at the clock
    reading of its call. *)
Definition scoreOf (call : Z * Repo) : R :=
  GithubService.calculateRepoScore (fst call) (snd call).

(** What the loop over [repos] knows after the calls [calls]: nothing is
    selected and no score exceeds -1, or the selected repository is the
    first of [calls] with the greatest score, which exceeds -1. *)
Definition selectionInv (calls : list (Z * Repo))
  (st : GithubService.Selection) : Prop :=
  (GithubService.bestRepo st = None
   /\ GithubService.bestScore st = (-1)%R
   /\ forall c, In c calls -> (scoreOf c <= -1)%R)
  \/ (exists pre c post,
        calls = pre ++ c :: post
        /\ GithubService.bestRepo st = Some (snd c)
        /\ GithubService.bestScore st = scoreOf c
        /\ (-1 < scoreOf c)%R
        /\ (forall d, In d pre -> (scoreOf d < scoreOf c)%R)
        /\ (forall d, In d post -> (scoreOf d <= scoreOf c)%R)).

(** ** Auxiliary definitions of the further properties *)

(** The proposition of a boolean comparator. *)
Definition leProp {A} (le : A -> A -> bool) (a b : A) : Prop :=
  le a b = true.

(** The repositories of a language that were pushed in 2025. *)
Definition recentCountOf (lang : string) (repos : list Repo) : Z :=
  Z.of_nat
    (List.length
       (filter (fun r => Spec.countsFor lang r
                         && (year2025Start <=? pushed_at r)) repos)).

(** The languages the first loop of [calculateLanguageScores] meets, in the
    order of the repositories. *)
Definition sightings (repos : list Repo) : list string :=
  flat_map (fun r => if fork r then []
                     else match language r with
                          | Some l => if Js.truthy (Some l) then [l] else []
                          | None => []
                          end) repos.

(** A list without its repetitions, each element at its first place. *)
Definition firstSeen (l : list string) : list string :=
  fold_left (fun seen x => if existsb (String.eqb x) seen then seen
                           else seen ++ [x]) l [].

(** The same record with another star count. *)
Definition with_stars (n : Z) (r : Repo) : Repo :=
  mkRepo (name r) (description r) n (forks_count r) (watchers_count r)
         (size r) (open_issues_count r) (language r) (topics r) (fork r)
         (archived r) (created_at r) (pushed_at r) (html_url r).

(** A starred, watched original repository created and pushed in 2025. *)
Definition popularRepo : Repo :=
  mkRepo "engine" (Some "A fast little engine"%string) 99 9 4 2048 3
         (Some "Rust"%string) (Some ["wasm"%string]) false false
         year2025Start year2025Start EmptyString.

(** [e] is the first entry of [entries] with the greatest count: the
    entries before it count less, those after it do not count more. *)
Definition firstMax {K} (entries : list (K * Z)) (e : K * Z) : Prop :=
  exists pre post,
    entries = pre ++ e :: post
    /\ (forall d, In d pre -> snd d < snd e)
    /\ (forall d, In d post -> snd d <= snd e).

(** [hourCounts[h] || 0]. *)
Fixpoint hourCount (hourCounts : list (Z * Z)) (h : Z) : Z :=
  match hourCounts with
  | [] => 0
  | (h', n) :: rest => if h' =? h then n else hourCount rest h
  end.

(** How many events fall in hour [h]. *)
Definition occurrences (eventHours : list Z) (h : Z) : Z :=
  Z.of_nat (count_occ Z.eq_dec eventHours h).

(** The loop of [calculateProductivity]: its two variables after the
    entries [entries]. *)
Definition productivityLoop (entries : list (Z * Z)) : Z * Z :=
  fold_left
    (fun (st : Z * Z) (e : Z * Z) =>
       let '(peakHour, maxCount) := st in
       let '(hour, count) := e in
       if maxCount <? count then (hour, count) else (peakHour, maxCount))
    entries (14, 0).

(** The keys of a histogram come in ascending order. *)
Definition keysAscending (m : list (Z * Z)) : Prop :=
  StronglySorted Z.lt (map fst m).

(** Hours as [getHours] returns them. *)
Definition validHours (eventHours : list Z) : Prop :=
  Forall (fun h => 0 <= h <= 23) eventHours.

(** The sum of a list of counts. *)
Definition total (l : list Z) : Z := fold_right Z.add 0 l.

(** [langMap[k] || 0]. *)
Fixpoint tallyCount (langMap : list (string * Z)) (k : string) : Z :=
  match langMap with
  | [] => 0
  | (k', n) :: rest => if String.eqb k' k then n else tallyCount rest k
  end.

(** The repositories, forks included, whose primary language is [lang]. *)
Definition hasPrimaryLanguage (lang : string) (call : Z * Repo) : bool :=
  match language (snd call) with
  | Some l => Js.truthy (Some l) && String.eqb l lang
  | None => false
  end.

Definition languageCountOf (lang : string) (calls : list (Z * Repo)) : Z :=
  Z.of_nat (List.length (filter (hasPrimaryLanguage lang) calls)).

(** The name and count of a report entry. *)
Definition entryOf (l : GithubService.Language) : string * Z :=
  (GithubService.l_name l, GithubService.l_count l).

(** [k] successive calls of [getNextToken] from index [i]: the tokens handed
    out and the index left. *)
Fixpoint rotate (tokens : list string) (i k : nat)
  : list (option string) * nat :=
  match k with
  | O => ([], i)
  | S k' =>
      let '(t, i') := ApiProxy.getNextToken tokens i in
      let '(ts, j) := rotate tokens i' k' in
      (t :: ts, j)
  end.

(** What the cache check of [GET] finds for a key at time [now]: the entry,
    if it is younger than the TTL. *)
Definition servable (now : Z) (cache : ApiProxy.Cache) (key : string)
  : option ApiProxy.CacheEntry :=
  match ApiProxy.cacheGet cache key with
  | Some c =>
      if now - ApiProxy.timestamp c <? ApiProxy.CACHE_TTL_MS then Some c
      else None
  | None => None
  end.

(** The cache key of an unauthenticated request. *)
Definition publicKey (endpoint : string) : string :=
  (endpoint ++ ":public")%string.

(** An upstream that always answers 200 with the URL as body. *)
Definition echoFetch (url : string) (requestHeaders : list (string * string))
  : ApiProxy.FetchResult :=
  ApiProxy.Responded (ApiProxy.mkUpstream 200 url None None).

(** * Properties *)

(** ** Archetype classification *)

Section ArchetypeFacts.

Lemma ltb_false_of_le (a b : Z) : b <= a -> (a <? b) = false.
Proof. intros H. apply Z.ltb_ge. exact H. Qed.

(** The code's guard [totalActivity > 0] and the text's "0 when
    totalActivity is 0" agree on non-negative totals. *)
Lemma ratio_agrees (part : Z) (m : Spec.Metrics) :
  0 <= Spec.totalActivity m ->
  GithubService.ratio part (Spec.totalActivity m) = Spec.ratioOf part m.
Proof.
  intros Hnn. unfold GithubService.ratio, Spec.ratioOf.
  destruct (Z.eqb_spec (Spec.totalActivity m) 0) as [E | E].
  - rewrite E. reflexivity.
  - replace (0 <? Spec.totalActivity m) with true
      by (symmetry; apply Z.ltb_lt; lia).
    reflexivity.
Qed.

Lemma weekendRatio_agrees (m : Spec.Metrics) :
  0 <= Spec.m_totalCommits m ->
  List.length (Spec.m_histogram m) = 7%nat ->
  GithubService.weekendRatio (Spec.m_histogram m) (Spec.m_totalCommits m)
  = Some (Spec.weekendRatio m).
Proof.
  intros Hnn Hlen.
  unfold GithubService.weekendRatio, Spec.weekendRatio,
    GithubService.weekendCommits, Js.index.
  destruct (Spec.m_histogram m)
    as [| d0 [| d1 [| d2 [| d3 [| d4 [| d5 [| d6 [| ? ?]]]]]]]];
    try discriminate Hlen.
  cbn [nth_error nth].
  destruct (Z.eqb_spec (Spec.m_totalCommits m) 0) as [E | E].
  - rewrite E. reflexivity.
  - replace (0 <? Spec.m_totalCommits m) with true
      by (symmetry; apply Z.ltb_lt; lia).
    reflexivity.
Qed.

(** githubService.ts's classifier is the ordered rule list of section 4.5:
    on well-formed input it returns the label of the first satisfied rule,
    the default when there is none. *)
Lemma githubService_archetype_first_match
  (stats : ContributionBreakdown) (community : CommunityStats)
  (totalCommits : Z) (productivity : ProductivityData) (weekdayStats : list Z) :
  0 <= commits stats -> 0 <= prs stats -> 0 <= issues stats ->
  0 <= reviews stats -> 0 <= totalCommits ->
  List.length weekdayStats = 7%nat ->
  GithubService.calculateArchetype stats community totalCommits productivity
                                   weekdayStats
  = Spec.label
      (Spec.classify
         (Spec.mkMetrics stats community totalCommits (timeOfDay productivity)
                         weekdayStats)).
Proof.
  intros Hc Hp Hi Hr Ht Hlen.
  set (m := Spec.mkMetrics stats community totalCommits (timeOfDay productivity)
                           weekdayStats).
  assert (Hact : 0 <= Spec.totalActivity m)
    by (unfold Spec.totalActivity; cbn; lia).
  unfold GithubService.calculateArchetype.
  change (commits stats + prs stats + issues stats + reviews stats)
    with (Spec.totalActivity m).
  rewrite !(ratio_agrees _ m Hact).
  change weekdayStats with (Spec.m_histogram m) at 1.
  change totalCommits with (Spec.m_totalCommits m) at 1.
  rewrite (weekendRatio_agrees m Ht Hlen).
  unfold Spec.classify, Spec.rules, Spec.firstMatch, GithubService.gtNaN.
  subst m.
  cbn [Spec.m_breakdown Spec.m_community Spec.m_totalCommits Spec.m_bucket
       Spec.bucketName].
  repeat match goal with
         | |- (if ?c then _ else _) = _ => destruct c; [reflexivity |]
         end.
  reflexivity.
Qed.

End ArchetypeFacts.

(** githubService.ts's classifier on the breakdown of the example: rule 1
    needs [prs > 20] besides the ratio, so five pull requests out of fifteen
    contributions do not fire it, and with no later rule satisfied the
    default label comes out. *)
Lemma githubService_archetype_small_pr_count
  (community : CommunityStats) (totalCommits : Z)
  (productivity : ProductivityData) (weekdayStats : list Z) :
  totalCommits <= 50 ->
  followers community <= 500 -> totalStars community <= 1000 ->
  Js.Qgtb (GithubService.ratio 5 (10 + 5 + 0 + 0)) (20 # 100) = true
  /\ GithubService.calculateArchetype (mkBreakdown 10 5 0 0) community
       totalCommits productivity weekdayStats
     = Spec.label Spec.Tinkerer.
Proof.
  intros Htc Hf Hs. split; [reflexivity |].
  unfold GithubService.calculateArchetype.
  cbn [prs commits issues reviews].
  rewrite (ltb_false_of_le 50 totalCommits) by exact Htc.
  rewrite (ltb_false_of_le 1200 totalCommits) by lia.
  rewrite (ltb_false_of_le 400 totalCommits) by lia.
  rewrite (ltb_false_of_le 500 _ Hf), (ltb_false_of_le 1000 _ Hs).
  rewrite !andb_false_r. reflexivity.
Qed.

(** githubService.ts's classifier returns the Night Owl label only for the
    Late Night bucket and more than fifty commits. *)
Lemma githubService_night_owl_only_if
  (stats : ContributionBreakdown) (community : CommunityStats)
  (totalCommits : Z) (productivity : ProductivityData) (weekdayStats : list Z) :
  GithubService.calculateArchetype stats community totalCommits productivity
                                   weekdayStats
  = Spec.label Spec.NightOwl ->
  timeOfDay productivity = Spec.bucketName Spec.LateNight /\ 50 < totalCommits.
Proof.
  unfold GithubService.calculateArchetype. cbn [Spec.label Spec.bucketName].
  destruct (Js.Qgtb _ _ && (20 <? prs stats)); [discriminate |].
  destruct (Js.Qgtb _ _ && (10 <? reviews stats)); [discriminate |].
  destruct (GithubService.gtNaN _ _ && _); [discriminate |].
  destruct (String.eqb_spec (timeOfDay productivity) "Late Night") as [E | E];
    cbn [andb].
  - destruct (Z.ltb_spec 50 totalCommits) as [L | L].
    + intros _. split; [exact E | exact L].
    + repeat match goal with
             | |- (if ?c then _ else _) = _ -> _ => destruct c
             end; discriminate.
  - repeat match goal with
           | |- (if ?c then _ else _) = _ -> _ => destruct c
           end; discriminate.
Qed.

(** githubService.ts's classifier tries the Weekend Warrior rule before the
    Night Owl rule: when rules 1 and 2 fail and both of them hold, the label
    is Weekend Warrior. *)
Lemma githubService_weekend_before_night
  (stats : ContributionBreakdown) (community : CommunityStats)
  (totalCommits : Z) (productivity : ProductivityData) (weekdayStats : list Z) :
  prs stats <= 20 -> reviews stats <= 10 ->
  GithubService.gtNaN (GithubService.weekendRatio weekdayStats totalCommits)
                      (35 # 100) = true ->
  timeOfDay productivity = Spec.bucketName Spec.LateNight ->
  50 < totalCommits ->
  GithubService.calculateArchetype stats community totalCommits productivity
                                   weekdayStats
  = Spec.label Spec.WeekendWarrior.
Proof.
  intros Hp Hr Hw _ Ht. unfold GithubService.calculateArchetype.
  rewrite (ltb_false_of_le 20 _ Hp), (ltb_false_of_le 10 _ Hr).
  rewrite !andb_false_r, Hw.
  replace (50 <? totalCommits) with true
    by (symmetry; apply Z.ltb_lt; exact Ht).
  reflexivity.
Qed.

(** C1. scoringAlgorithms.ts's classifier on the breakdown
    {commits:10, prs:5, issues:0, reviews:0}: its first rule is the
    percentage test alone, 5 of 15 is more than 20 percent, and the label is
    The Pull Request Pro whatever the other inputs are; githubService.ts's
    classifier, with the same inputs and a quiet profile, answers
    The Tinkerer. *)
Theorem scoringAlgorithms_archetype_ignores_pr_count :
  (forall community totalCommits peakHour weekdayStats,
     ScoringAlgorithms.calculateArchetype (mkBreakdown 10 5 0 0) community
       totalCommits peakHour weekdayStats
     = Spec.label Spec.PullRequestPro)
  /\ GithubService.calculateArchetype (mkBreakdown 10 5 0 0)
       (mkCommunity 0 0 0 0) 10 (mkProductivity "Afternoon" 14)
       [0; 0; 0; 0; 0; 0; 0]
     = Spec.label Spec.Tinkerer.
Proof. split; [intros; reflexivity | reflexivity]. Qed.

(** C4. scoringAlgorithms.ts's classifier does not follow the order of
    section 4.5: with sixty commits, all of them on week-end days, and peak
    hour 23 it answers The Night Owl where githubService.ts's classifier
    answers The Weekend Warrior; and it answers The Night Owl for peak
    hour 23 with no commit at all. *)
Theorem scoringAlgorithms_archetype_night_owl_first :
  ScoringAlgorithms.calculateArchetype (mkBreakdown 60 0 0 0)
    (mkCommunity 0 0 0 0) 60 23 [30; 0; 0; 0; 0; 0; 30]
  = Spec.label Spec.NightOwl
  /\ GithubService.calculateArchetype (mkBreakdown 60 0 0 0)
       (mkCommunity 0 0 0 0) 60 (mkProductivity "Late Night" 23)
       [30; 0; 0; 0; 0; 0; 30]
     = Spec.label Spec.WeekendWarrior
  /\ ScoringAlgorithms.calculateArchetype (mkBreakdown 0 0 0 0)
       (mkCommunity 0 0 0 0) 0 23 [0; 0; 0; 0; 0; 0; 0]
     = Spec.label Spec.NightOwl.
Proof. repeat split. Qed.

(** ** Time-of-day buckets *)

(** githubService.ts's [getProductivityTime] is the bucket mapping of
    section 4.4. *)
Lemma getProductivityTime_bucket (h : Z) :
  GithubService.getProductivityTime h = Spec.bucketName (Spec.bucketOfHour h).
Proof.
  unfold GithubService.getProductivityTime, Spec.bucketOfHour.
  repeat match goal with
         | |- (if ?c then _ else _) = _ => destruct c; [reflexivity |]
         end.
  reflexivity.
Qed.

(** For every hour of the day, [getProductivityTime] gives Morning exactly on
    [5,12), Afternoon on [12,17), Evening on [17,22) and Late Night on the
    rest. *)
Lemma getProductivityTime_intervals (h : Z) :
  0 <= h <= 23 ->
  (GithubService.getProductivityTime h = "Morning"%string <-> 5 <= h < 12)
  /\ (GithubService.getProductivityTime h = "Afternoon"%string
      <-> 12 <= h < 17)
  /\ (GithubService.getProductivityTime h = "Evening"%string <-> 17 <= h < 22)
  /\ (GithubService.getProductivityTime h = "Late Night"%string
      <-> (22 <= h < 24 \/ 0 <= h < 5)).
Proof.
  intros Hh. unfold GithubService.getProductivityTime.
  destruct (Z.leb_spec 5 h), (Z.ltb_spec h 12), (Z.leb_spec 12 h),
    (Z.ltb_spec h 17), (Z.leb_spec 17 h), (Z.ltb_spec h 22);
    cbn [andb]; try lia;
    repeat split; intros; try discriminate; try lia; try reflexivity.
Qed.

(** scoringAlgorithms.ts's bucket differs from [getProductivityTime] at hour
    21 and nowhere else. *)
Lemma bucketOf_differs_only_at_21 (h : Z) :
  ScoringAlgorithms.bucketOf h = GithubService.getProductivityTime h
  <-> h <> 21.
Proof.
  unfold ScoringAlgorithms.bucketOf, GithubService.getProductivityTime.
  destruct (Z.leb_spec 5 h), (Z.ltb_spec h 12), (Z.leb_spec 12 h),
    (Z.ltb_spec h 17), (Z.leb_spec 17 h), (Z.ltb_spec h 22),
    (Z.ltb_spec h 21);
    cbn [andb]; try lia; split; intros; try discriminate; try lia;
    try reflexivity.
Qed.

(** C3. scoringAlgorithms.ts's [calculateProductivity] ends Evening at 21:
    an hour histogram whose peak is hour 21 is put in the Late Night bucket,
    where the mapping of section 4.4, and [getProductivityTime], give
    Evening. *)
Theorem calculateProductivity_hour_21_late_night :
  ScoringAlgorithms.calculateProductivity [(21, 1)]
  = mkProductivity "Late Night" 21
  /\ Spec.bucketOfHour 21 = Spec.Evening
  /\ GithubService.getProductivityTime 21 = "Evening"%string.
Proof. repeat split. Qed.

(** ** Repository scores *)

Section RepoScores.

Local Open Scope R_scope.

Lemma ln_10_pos : 0 < ln 10.
Proof. rewrite <- ln_1. apply ln_increasing; lra. Qed.

Lemma log10_1 : log10 1 = 0.
Proof. unfold log10. rewrite ln_1. unfold Rdiv. apply Rmult_0_l. Qed.

Lemma log10_nonneg (x : R) : 1 <= x -> 0 <= log10 x.
Proof.
  intros Hx. unfold log10, Rdiv.
  apply Rmult_le_pos.
  - destruct Hx as [Hlt | Heq].
    + left. rewrite <- ln_1. apply ln_increasing; lra.
    + rewrite <- Heq, ln_1. lra.
  - left. apply Rinv_0_lt_compat, ln_10_pos.
Qed.

(** The flag only moves the penalty: every other test of the scorers reads
    a field that [with_archived] leaves alone. *)
Lemma scoringAlgorithms_archived_term (config : ScoringAlgorithms.RepoConfig)
  (now : Z) (repo : Repo) :
  ScoringAlgorithms.calculateRepoScore config now (with_archived true repo)
  = ScoringAlgorithms.calculateRepoScore config now (with_archived false repo)
    + ScoringAlgorithms.archivedPenalty config.
Proof.
  unfold ScoringAlgorithms.calculateRepoScore, ScoringAlgorithms.starsScore,
    ScoringAlgorithms.forksScore, hasLongDescription, hasTopicList,
    with_archived.
  cbn [name description stargazers_count forks_count watchers_count size
       open_issues_count language topics fork archived created_at pushed_at
       html_url].
  repeat match goal with
         | |- context [if ?c then _ else _] => destruct c
         end; lra.
Qed.

Lemma githubService_archived_term (now : Z) (repo : Repo) :
  GithubService.calculateRepoScore now (with_archived true repo)
  = GithubService.calculateRepoScore now (with_archived false repo) - 20.
Proof.
  unfold GithubService.calculateRepoScore, GithubService.recencyScore,
    hasLongDescription, hasTopicList, with_archived.
  cbn [name description stargazers_count forks_count watchers_count size
       open_issues_count language topics fork archived created_at pushed_at
       html_url].
  repeat match goal with
         | |- context [if ?c then _ else _] => destruct c
         end; lra.
Qed.

End RepoScores.

(** Without rounding, setting the archived flag of a record lowers its
    score by exactly 20: in scoringAlgorithms.ts under the default
    configuration, and in githubService.ts's local scorer at the same clock
    reading. *)
Lemma archived_score_is_20_less_without_rounding (now : Z) (repo : Repo) :
  (ScoringAlgorithms.calculateRepoScore ScoringAlgorithms.SCORING_CONFIG_repo
     now (with_archived true repo)
   = ScoringAlgorithms.calculateRepoScore
       ScoringAlgorithms.SCORING_CONFIG_repo now (with_archived false repo)
     - 20)%R
  /\ (GithubService.calculateRepoScore now (with_archived true repo)
      = GithubService.calculateRepoScore now (with_archived false repo) - 20)%R.
Proof.
  split.
  - rewrite scoringAlgorithms_archived_term.
    cbn [ScoringAlgorithms.archivedPenalty
         ScoringAlgorithms.SCORING_CONFIG_repo].
    lra.
  - apply githubService_archived_term.
Qed.


(** The same repository breaks the claim whichever of the seven doubles
    around log10 11 [Math.log10] returns there. *)
Lemma scoringAlgorithms_archived_score_not_20_less_near_log10 :
  Forall
    (fun l =>
       let score :=
         ScoringAlgorithmsDouble.calculateRepoScore (log10Table [(11%float, l)])
           ScoringAlgorithmsDouble.SCORING_CONFIG_repo 0 in
       let unarchived := score (with_archived false busyRepo) in
       let archived := score (with_archived true busyRepo) in
       (unarchived - 20 =? archived)%float = false
       /\ (unarchived - archived =? 20)%float = false)
    log10_11_candidates.
Proof.
  unfold log10_11_candidates.
  repeat (apply Forall_cons; [vm_compute; split; reflexivity |]).
  apply Forall_nil.
Qed.

(** Each of the three later terms is enough to break it: a repository that
    gets the size term only, one that gets the open-issue term only, and
    one that gets the created-in-2025 bonus only. *)
Lemma scoringAlgorithms_archived_score_each_later_term :
  let score :=
    ScoringAlgorithmsDouble.calculateRepoScore sampleLog10
      ScoringAlgorithmsDouble.SCORING_CONFIG_repo 0 in
  let breaks repo :=
    (score (with_archived false repo) + (-20)
     =? score (with_archived true repo))%float = false in
  (0 < size sizedRepo /\ open_issues_count sizedRepo <= 0
   /\ created_at sizedRepo < year2025Start /\ breaks sizedRepo)
  /\ (size reportedFork <= 0 /\ 0 < open_issues_count reportedFork
      /\ created_at reportedFork < year2025Start /\ breaks reportedFork)
  /\ (size newRepo <= 0 /\ open_issues_count newRepo <= 0
      /\ year2025Start <= created_at newRepo /\ breaks newRepo).
Proof. vm_compute. repeat split; discriminate. Qed.


(** An empty repository with one star scores 23.612359947967775 in
    scoringAlgorithms.ts, and 3.612359947967775 when archived. *)
Lemma scoringAlgorithms_empty_starred_scores :
  let score :=
    ScoringAlgorithmsDouble.calculateRepoScore sampleLog10
      ScoringAlgorithmsDouble.SCORING_CONFIG_repo 0 in
  score (with_archived false emptyStarredRepo) = 0x1.79cc39f1de6ep+4%float
  /\ score (with_archived true emptyStarredRepo) = 0x1.ce61cf8ef37p+1%float.
Proof. vm_compute. split; reflexivity. Qed.


(** C5. For a record with a non-negative star count, the stars term of
    scoringAlgorithms.ts's scorer under the default configuration is
    min(log10(stars + 1) * 12, 35), and it lies between 0 and 35. *)
Theorem stars_score_formula_and_bounds (repo : Repo) :
  0 <= stargazers_count repo ->
  (ScoringAlgorithms.starsScore ScoringAlgorithms.SCORING_CONFIG_repo repo
   = Spec.starsTerm (stargazers_count repo)
   /\ 0 <= ScoringAlgorithms.starsScore ScoringAlgorithms.SCORING_CONFIG_repo
             repo <= 35)%R.
Proof.
  intros Hstars.
  unfold ScoringAlgorithms.starsScore.
  cbn [ScoringAlgorithms.stars_logMultiplier ScoringAlgorithms.stars_maxPoints
       ScoringAlgorithms.SCORING_CONFIG_repo].
  split; [reflexivity |].
  assert (Hlog : (0 <= log10 (IZR (stargazers_count repo + 1)))%R).
  { apply log10_nonneg. apply IZR_le. lia. }
  split.
  - apply Rmin_glb; lra.
  - apply Rmin_r.
Qed.

(** A repository with no star: the term is 0. *)
Lemma stars_score_formula_and_bounds_witness :
  let repo :=
    mkRepo "dotfiles" None 0 0 0 0 0 None None false false 0 0 EmptyString in
  0 <= stargazers_count repo
  /\ (ScoringAlgorithms.starsScore ScoringAlgorithms.SCORING_CONFIG_repo repo
      = Spec.starsTerm (stargazers_count repo)
      /\ 0 <= ScoringAlgorithms.starsScore
                ScoringAlgorithms.SCORING_CONFIG_repo repo <= 35)%R.
Proof.
  intros repo. split.
  - cbn. lia.
  - apply (stars_score_formula_and_bounds repo). cbn. lia.
Defined.

(** The stars term is a summand of the score: under the default
    configuration the score of a record is its stars term plus the score of
    the same record with no star. *)
Lemma stars_score_is_a_summand (now : Z) (repo : Repo) :
  let config := ScoringAlgorithms.SCORING_CONFIG_repo in
  let noStars :=
    mkRepo (name repo) (description repo) 0 (forks_count repo)
           (watchers_count repo) (size repo) (open_issues_count repo)
           (language repo) (topics repo) (fork repo) (archived repo)
           (created_at repo) (pushed_at repo) (html_url repo) in
  (ScoringAlgorithms.calculateRepoScore config now repo
   = ScoringAlgorithms.starsScore config repo
     + ScoringAlgorithms.calculateRepoScore config now noStars)%R.
Proof.
  intros config noStars. subst config noStars.
  unfold ScoringAlgorithms.calculateRepoScore, ScoringAlgorithms.starsScore,
    ScoringAlgorithms.forksScore, hasLongDescription, hasTopicList.
  cbn [name description stargazers_count forks_count watchers_count size
       open_issues_count language topics fork archived created_at pushed_at
       html_url ScoringAlgorithms.stars_logMultiplier
       ScoringAlgorithms.stars_maxPoints ScoringAlgorithms.SCORING_CONFIG_repo].
  change (IZR (0 + 1)) with 1%R. rewrite log10_1.
  replace (Rmin (0 * 12) 35)%R with 0%R
    by (symmetry; rewrite Rmult_0_l; apply Rmin_left; lra).
  repeat match goal with
         | |- context [if ?c then _ else _] => destruct c
         end; lra.
Qed.

Lemma githubService_score_on_push_day :
  GithubService.calculateRepoScore year2025Start pushedOnNewYear = 25%R.
Proof.
  unfold GithubService.calculateRepoScore, GithubService.recencyScore,
    hasLongDescription, hasTopicList, pushedOnNewYear.
  cbn [name description stargazers_count forks_count watchers_count size
       open_issues_count language topics fork archived created_at pushed_at
       html_url Js.truthy negb].
  change (year2025Start <=? year2025Start) with true. cbv iota.
  change (IZR (0 + 1)) with 1%R. rewrite log10_1.
  change (IZR (year2025Start - year2025Start)) with 0%R.
  change (IZR 0) with 0%R.
  replace (0 / (1000 * 60 * 60 * 24))%R with 0%R by lra.
  rewrite (Rmax_left 0 0) by lra.
  replace (25 - 0 / 15)%R with 25%R by lra.
  rewrite (Rmax_right 0 25) by lra.
  rewrite (Rmin_left (0 * 10) 30), (Rmin_left (0 * 5) 15),
    (Rmin_left (0 * (1 / 2)) 5) by lra.
  lra.
Qed.

Lemma githubService_score_fifteen_days_later :
  GithubService.calculateRepoScore (year2025Start + fifteenDays)
                                   pushedOnNewYear = 24%R.
Proof.
  unfold GithubService.calculateRepoScore, GithubService.recencyScore,
    hasLongDescription, hasTopicList, pushedOnNewYear.
  cbn [name description stargazers_count forks_count watchers_count size
       open_issues_count language topics fork archived created_at pushed_at
       html_url Js.truthy negb].
  change (year2025Start <=? year2025Start) with true. cbv iota.
  change (IZR (0 + 1)) with 1%R. rewrite log10_1.
  change (IZR (year2025Start + fifteenDays - year2025Start))
    with (IZR 1296000000).
  replace (IZR 1296000000 / (1000 * 60 * 60 * 24))%R with 15%R by lra.
  rewrite (Rmax_right 0 15) by lra.
  replace (25 - 15 / 15)%R with 24%R by lra.
  rewrite (Rmax_right 0 24) by lra.
  rewrite (Rmin_left (0 * 10) 30), (Rmin_left (0 * 5) 15),
    (Rmin_left (0 * (1 / 2)) 5) by lra.
  lra.
Qed.

(** githubService.ts's local scorer reads the clock: the same record scored
    at two instants gets two scores. *)
Lemma githubService_score_depends_on_clock :
  GithubService.calculateRepoScore year2025Start pushedOnNewYear
  <> GithubService.calculateRepoScore (year2025Start + fifteenDays)
                                      pushedOnNewYear.
Proof.
  rewrite githubService_score_on_push_day,
    githubService_score_fifteen_days_later.
  lra.
Qed.

(** While the recency bonus of githubService.ts lasts, from the push to 375
    days after it, it gets strictly smaller as the clock advances. *)
Lemma recencyScore_strictly_decays (now1 now2 : Z) (repo : Repo) :
  pushed_at repo <= now1 ->
  now1 < now2 ->
  now1 < pushed_at repo + 375 * (1000 * 60 * 60 * 24) ->
  (GithubService.recencyScore now2 repo
   < GithubService.recencyScore now1 repo)%R.
Proof.
  intros Hpushed Hlater Hfresh.
  unfold GithubService.recencyScore.
  set (day := (1000 * 60 * 60 * 24)%R).
  assert (Hday : (day = 86400000)%R) by (unfold day; lra).
  assert (H0 : (0 <= IZR (now1 - pushed_at repo))%R)
    by (apply IZR_le; lia).
  assert (H1 : (IZR (now1 - pushed_at repo)
                < IZR (now2 - pushed_at repo))%R)
    by (apply IZR_lt; lia).
  assert (H2 : (IZR (now1 - pushed_at repo) < 375 * 86400000)%R).
  { assert (H : (IZR (now1 - pushed_at repo)
                 < IZR (375 * (1000 * 60 * 60 * 24)))%R)
      by (apply IZR_lt; lia).
    rewrite !mult_IZR in H. lra. }
  rewrite Hday.
  rewrite (Rmax_right 0 (IZR (now1 - pushed_at repo) / 86400000)) by lra.
  rewrite (Rmax_right 0 (IZR (now2 - pushed_at repo) / 86400000)) by lra.
  rewrite (Rmax_right 0 (25 - IZR (now1 - pushed_at repo) / 86400000 / 15))
    by lra.
  apply Rmax_lub_lt; lra.
Qed.

(** C2. scoringAlgorithms.ts's scorer is a function of the record and the
    configuration: the clock reading it takes is never used.
    githubService.ts's local scorer reads the clock in its recency term,
    which it adds for the records last pushed on or after 2025-01-01, and
    for those only.  Its score is independent of the clock for a record
    last pushed before 2025.  For a record last pushed later, scored at a
    time from the push to 375 days after it, every later scoring gives a
    strictly lower score.  So its score is the same at all times exactly
    for the records last pushed before 2025. *)
Theorem repo_score_clock_independence :
  (forall config now1 now2 repo,
     ScoringAlgorithms.calculateRepoScore config now1 repo
     = ScoringAlgorithms.calculateRepoScore config now2 repo)
  /\ (forall now1 now2 repo,
        pushed_at repo < year2025Start ->
        GithubService.calculateRepoScore now1 repo
        = GithubService.calculateRepoScore now2 repo)
  /\ (forall now1 now2 repo,
        year2025Start <= pushed_at repo ->
        pushed_at repo <= now1 ->
        now1 < now2 ->
        now1 < pushed_at repo + 375 * (1000 * 60 * 60 * 24) ->
        (GithubService.calculateRepoScore now2 repo
         < GithubService.calculateRepoScore now1 repo)%R)
  /\ (forall repo,
        (forall now1 now2,
           GithubService.calculateRepoScore now1 repo
           = GithubService.calculateRepoScore now2 repo)
        <-> pushed_at repo < year2025Start).
Proof.
  assert (Hbefore : forall now1 now2 repo,
             pushed_at repo < year2025Start ->
             GithubService.calculateRepoScore now1 repo
             = GithubService.calculateRepoScore now2 repo).
  { intros now1 now2 repo Hpushed.
    unfold GithubService.calculateRepoScore.
    rewrite (proj2 (Z.leb_gt year2025Start (pushed_at repo)) Hpushed).
    reflexivity. }
  assert (Hafter : forall now1 now2 repo,
             year2025Start <= pushed_at repo ->
             pushed_at repo <= now1 ->
             now1 < now2 ->
             now1 < pushed_at repo + 375 * (1000 * 60 * 60 * 24) ->
             (GithubService.calculateRepoScore now2 repo
              < GithubService.calculateRepoScore now1 repo)%R).
  { intros now1 now2 repo Hpushed Hnow Hlater Hfresh.
    pose proof (recencyScore_strictly_decays now1 now2 repo Hnow Hlater
                  Hfresh) as Hdecay.
    unfold GithubService.calculateRepoScore.
    rewrite (proj2 (Z.leb_le year2025Start (pushed_at repo)) Hpushed).
    repeat match goal with
           | |- context [if ?c then _ else _] => destruct c
           end; lra. }
  split; [| split; [| split]].
  - intros config now1 now2 repo. reflexivity.
  - exact Hbefore.
  - exact Hafter.
  - intros repo. split.
    + intros Hsame.
      destruct (Z.lt_ge_cases (pushed_at repo) year2025Start)
        as [Hlt | Hge]; [exact Hlt |].
      exfalso.
      assert (Hlower :
                (GithubService.calculateRepoScore (pushed_at repo + 1) repo
                 < GithubService.calculateRepoScore (pushed_at repo) repo)%R)
        by (apply Hafter; lia).
      rewrite (Hsame (pushed_at repo + 1) (pushed_at repo)) in Hlower.
      exact (Rlt_irrefl _ Hlower).
    + intros Hpushed now1 now2. apply Hbefore. exact Hpushed.
Qed.

(** The theorem at a repository last pushed at the epoch, scored at two
    instants of 2025, and at a repository pushed at the first instant of
    2025, scored then and fifteen days later. *)
Lemma repo_score_clock_independence_witness :
  let repo :=
    mkRepo "attic" None 3 1 3 0 0 None None false false 0 0 EmptyString in
  let later := year2025Start + fifteenDays in
  pushed_at repo < year2025Start
  /\ ScoringAlgorithms.calculateRepoScore
       ScoringAlgorithms.SCORING_CONFIG_repo year2025Start repo
     = ScoringAlgorithms.calculateRepoScore
         ScoringAlgorithms.SCORING_CONFIG_repo later repo
  /\ GithubService.calculateRepoScore year2025Start repo
     = GithubService.calculateRepoScore later repo
  /\ (year2025Start <= pushed_at pushedOnNewYear
      /\ pushed_at pushedOnNewYear <= year2025Start
      /\ year2025Start < later
      /\ year2025Start
         < pushed_at pushedOnNewYear + 375 * (1000 * 60 * 60 * 24))
  /\ (GithubService.calculateRepoScore later pushedOnNewYear
      < GithubService.calculateRepoScore year2025Start pushedOnNewYear)%R.
Proof.
  intros repo later.
  assert (Hpushed : pushed_at repo < year2025Start) by reflexivity.
  assert (H1 : year2025Start <= pushed_at pushedOnNewYear)
    by (vm_compute; discriminate).
  assert (H2 : pushed_at pushedOnNewYear <= year2025Start)
    by (vm_compute; discriminate).
  assert (H3 : year2025Start < later) by reflexivity.
  assert (H4 : year2025Start
               < pushed_at pushedOnNewYear + 375 * (1000 * 60 * 60 * 24))
    by reflexivity.
  split; [exact Hpushed |]. split; [| split; [| split]].
  - apply (proj1 repo_score_clock_independence).
  - apply (proj1 (proj2 repo_score_clock_independence)). exact Hpushed.
  - repeat split; assumption.
  - exact (proj1 (proj2 (proj2 repo_score_clock_independence))
             year2025Start later pushedOnNewYear H1 H2 H3 H4).
Defined.

(** ** Language scores *)

Module LanguageFacts.
Import ScoringAlgorithms.

Lemma get_set_same (m : LangMap) (k : string) (v : LanguageScore) :
  get (set m k v) k = Some v.
Proof.
  induction m as [| [k' v'] m IH]; cbn.
  - rewrite String.eqb_refl. reflexivity.
  - destruct (String.eqb_spec k' k) as [E | E]; cbn.
    + subst k'. rewrite String.eqb_refl. reflexivity.
    + rewrite (proj2 (String.eqb_neq k' k) E). exact IH.
Qed.

Lemma get_set_other (m : LangMap) (k k' : string) (v : LanguageScore) :
  k <> k' -> get (set m k v) k' = get m k'.
Proof.
  intros Hne. induction m as [| [k0 v0] m IH]; cbn.
  - rewrite (proj2 (String.eqb_neq k k') Hne). reflexivity.
  - destruct (String.eqb_spec k0 k) as [E | E]; cbn.
    + subst k0. rewrite (proj2 (String.eqb_neq k k') Hne). reflexivity.
    + destruct (String.eqb k0 k'); [reflexivity | exact IH].
Qed.

(** One step of the first loop, seen from one language. *)
Lemma visitRepo_get (cfg : LanguageConfig) (m : LangMap) (repo : Repo)
  (lang : string) :
  get (visitRepo cfg m repo) lang
  = if Spec.countsFor lang repo && negb (String.eqb lang EmptyString)
    then Some (bump cfg repo (entryOrFresh m lang))
    else get m lang.
Proof.
  unfold visitRepo, Spec.countsFor, entryOrFresh, has.
  destruct (fork repo); cbn [negb andb]; [reflexivity |].
  destruct (language repo) as [l |]; cbn [Js.truthy negb andb];
    [| reflexivity].
  destruct l as [| c l]; cbn [negb].
  - destruct (String.eqb_spec EmptyString lang) as [E | E]; cbn [andb].
    + subst lang. reflexivity.
    + reflexivity.
  - destruct (String.eqb_spec (String c l) lang) as [E | E]; cbn [andb].
    + subst lang. cbn [String.eqb negb].
      destruct (get m (String c l)) as [s |] eqn:Hget; cbn [negb].
      * rewrite Hget, get_set_same. reflexivity.
      * rewrite !get_set_same. reflexivity.
    + destruct (get m (String c l)) as [s |] eqn:Hget; cbn [negb].
      * rewrite Hget, get_set_other by exact E. reflexivity.
      * rewrite get_set_same, !get_set_other by exact E. reflexivity.
Qed.

Lemma accumulate_snoc (cfg : LanguageConfig) (repos : list Repo) (r : Repo) :
  accumulate cfg (repos ++ [r]) = visitRepo cfg (accumulate cfg repos) r.
Proof. unfold accumulate. rewrite fold_left_app. reflexivity. Qed.

Lemma repoCountOf_snoc (lang : string) (repos : list Repo) (r : Repo) :
  Spec.repoCountOf lang (repos ++ [r])
  = Spec.repoCountOf lang repos + (if Spec.countsFor lang r then 1 else 0).
Proof.
  unfold Spec.repoCountOf. rewrite filter_app, length_app. cbn [filter].
  destruct (Spec.countsFor lang r); cbn [List.length]; lia.
Qed.

Lemma repoCountOf_nonneg (lang : string) (repos : list Repo) :
  0 <= Spec.repoCountOf lang repos.
Proof. unfold Spec.repoCountOf. lia. Qed.

(** After the first loop, a language has an entry exactly when some
    repository counts for it, and the entry's [repoCount] is the number of
    those repositories. *)
Lemma accumulate_repoCount (cfg : LanguageConfig) (repos : list Repo)
  (lang : string) :
  lang <> EmptyString ->
  match get (accumulate cfg repos) lang with
  | Some s => repoCount s = Spec.repoCountOf lang repos /\ 0 < repoCount s
  | None => Spec.repoCountOf lang repos = 0
  end.
Proof.
  intros Hne. induction repos as [| r repos IH] using rev_ind.
  - reflexivity.
  - rewrite accumulate_snoc, visitRepo_get, repoCountOf_snoc.
    rewrite (proj2 (String.eqb_neq lang EmptyString) Hne).
    cbn [negb]. rewrite andb_true_r.
    pose proof (repoCountOf_nonneg lang repos) as Hnn.
    unfold entryOrFresh.
    destruct (Spec.countsFor lang r);
      destruct (get (accumulate cfg repos) lang) as [s |];
      cbn [bump repoCount]; lia.
Qed.

(** The empty string never gets an entry. *)
Lemma accumulate_no_empty_key (cfg : LanguageConfig) (repos : list Repo) :
  get (accumulate cfg repos) EmptyString = None.
Proof.
  induction repos as [| r repos IH] using rev_ind.
  - reflexivity.
  - rewrite accumulate_snoc, visitRepo_get. cbn [String.eqb negb].
    rewrite andb_false_r. exact IH.
Qed.

(** The second loop rewrites each entry in place. *)
Lemma get_after_second_loop (cfg : LanguageConfig) (repos : list Repo)
  (lang : string) :
  get (calculateLanguageScoresWith cfg repos) lang
  = option_map (addDiversity cfg) (get (accumulate cfg repos) lang).
Proof.
  unfold calculateLanguageScoresWith.
  induction (accumulate cfg repos) as [| [k v] m IH]; cbn.
  - reflexivity.
  - destruct (String.eqb k lang); [reflexivity | exact IH].
Qed.

(** With the default configuration the second loop adds the bonus of
    section 4.2 and nothing else. *)
Lemma addDiversity_default (score : LanguageScore) :
  let score' := addDiversity SCORING_CONFIG_language score in
  lang_name score' = lang_name score
  /\ repoCount score' = repoCount score
  /\ recentCount score' = recentCount score
  /\ (weight score'
      == weight score + Spec.diversityBonusOf (repoCount score))%Q.
Proof.
  unfold addDiversity, Spec.diversityBonusOf.
  cbn [diversityThreshold diversityBonus SCORING_CONFIG_language].
  destruct (3 <=? repoCount score); cbn; repeat split;
    try reflexivity.
  rewrite Qplus_0_r. reflexivity.
Qed.

End LanguageFacts.

(** C6. Language diversity scoring: after the two loops, the entry of a
    language counts the non-fork repositories having it as primary language;
    its weight is the weight accumulated by the first loop plus
    (repoCount - 3) * 0.5 when repoCount is at least 3, and plus nothing
    below 3.  The bonus is 0 for 3 repositories, 0.5 for 4 and 1 for 5. *)
Theorem diversity_bonus_after_full_pass (repos : list Repo) (lang : string) :
  match ScoringAlgorithms.get
          (ScoringAlgorithms.accumulate
             ScoringAlgorithms.SCORING_CONFIG_language repos) lang with
  | Some before =>
      ScoringAlgorithms.repoCount before = Spec.repoCountOf lang repos
      /\ exists after,
           ScoringAlgorithms.get
             (ScoringAlgorithms.calculateLanguageScores repos) lang
           = Some after
           /\ ScoringAlgorithms.repoCount after
              = ScoringAlgorithms.repoCount before
           /\ (3 <= ScoringAlgorithms.repoCount before ->
               (ScoringAlgorithms.weight after
                == ScoringAlgorithms.weight before
                   + inject_Z (ScoringAlgorithms.repoCount before - 3)
                     * (1 # 2))%Q)
           /\ (ScoringAlgorithms.repoCount before < 3 ->
               (ScoringAlgorithms.weight after
                == ScoringAlgorithms.weight before)%Q)
  | None =>
      ScoringAlgorithms.get
        (ScoringAlgorithms.calculateLanguageScores repos) lang = None
  end
  /\ (Spec.diversityBonusOf 3 == 0)%Q
  /\ (Spec.diversityBonusOf 4 == 1 # 2)%Q
  /\ (Spec.diversityBonusOf 5 == 1)%Q.
Proof.
  split; [| repeat split].
  unfold ScoringAlgorithms.calculateLanguageScores.
  rewrite LanguageFacts.get_after_second_loop.
  pose proof (LanguageFacts.accumulate_repoCount
                ScoringAlgorithms.SCORING_CONFIG_language repos lang) as Hcount.
  pose proof (LanguageFacts.accumulate_no_empty_key
                ScoringAlgorithms.SCORING_CONFIG_language repos) as Hempty.
  destruct (ScoringAlgorithms.get _ lang) as [before |] eqn:Hget;
    cbn [option_map]; [| reflexivity].
  assert (Hne : lang <> EmptyString).
  { intros ->. rewrite Hempty in Hget. discriminate Hget. }
  split; [exact (proj1 (Hcount Hne)) |].
  exists (ScoringAlgorithms.addDiversity
            ScoringAlgorithms.SCORING_CONFIG_language before).
  destruct (LanguageFacts.addDiversity_default before)
    as (_ & Hrc & _ & Hw).
  split; [reflexivity |]. split; [exact Hrc |].
  unfold Spec.diversityBonusOf in Hw. split; intros Hn.
  - rewrite (proj2 (Z.leb_le 3 _) Hn) in Hw. exact Hw.
  - rewrite (proj2 (Z.leb_gt 3 _) Hn), Qplus_0_r in Hw. exact Hw.
Qed.

(** Three, four and five Go repositories, none pushed in 2025: the weights
    are 3, 4.5 and 6, that is the count plus 0, 0.5 and 1. *)
Lemma diversity_bonus_examples :
  let weightOf n :=
    option_map ScoringAlgorithms.weight
      (ScoringAlgorithms.get
         (ScoringAlgorithms.calculateLanguageScores (repeat goRepo n))
         "Go") in
  match weightOf 3%nat, weightOf 4%nat, weightOf 5%nat with
  | Some w3, Some w4, Some w5 =>
      (w3 == 3 + 0)%Q /\ (w4 == 4 + (1 # 2))%Q /\ (w5 == 5 + 1)%Q
  | _, _, _ => False
  end.
Proof. cbn. repeat split. Qed.

(** ** Streaks *)

Module StreakFacts.
Import GithubService.

Lemma snoc_cases {A} (l : list A) : l = [] \/ exists l' x, l = l' ++ [x].
Proof.
  destruct l as [| a l] using rev_ind; [left | right]; eauto.
Qed.

(** A block of positive counts closing a list is no longer than the trailing
    run. *)
Lemma suffix_run_le_trailing (counts run p r : list Z) :
  trailingRun counts run -> counts = p ++ r -> Forall positive r ->
  (List.length r <= List.length run)%nat.
Proof.
  intros (pre & Hcounts & _ & Hpre) Hsplit Hr.
  rewrite Hcounts in Hsplit.
  destruct (app_eq_app _ _ _ _ Hsplit) as (l & [[Hp Hrun] | [Hp Hrun]]).
  - (* pre = p ++ l, r = l ++ run *)
    destruct (snoc_cases l) as [-> | (l' & z & ->)].
    + subst r. cbn. lia.
    + destruct Hpre as [-> | (pre' & y & -> & Hy)].
      * destruct p; destruct l'; discriminate Hp.
      * rewrite app_assoc in Hp. apply app_inj_tail in Hp.
        destruct Hp as [_ <-].
        subst r. rewrite Forall_app in Hr. destruct Hr as [Hl _].
        rewrite Forall_app in Hl. destruct Hl as [_ Hz].
        inversion Hz as [| ? ? Hpos _]. unfold positive in Hpos. lia.
  - (* p = pre ++ l, run = l ++ r *)
    subst run. rewrite length_app. lia.
Qed.

Lemma isRun_extend (counts run : list Z) (x : Z) :
  Spec.isRun counts run -> Spec.isRun (counts ++ [x]) run.
Proof.
  intros [(pre & post & ->) Hpos]. split; [| exact Hpos].
  exists pre, (post ++ [x]). rewrite <- !app_assoc. reflexivity.
Qed.

(** A run of [counts ++ [x]] is a run of [counts], or it is empty, or it
    ends with [x]. *)
Lemma isRun_snoc_cases (counts run : list Z) (x : Z) :
  Spec.isRun (counts ++ [x]) run ->
  Spec.isRun counts run \/ run = []
  \/ exists p r', run = r' ++ [x] /\ counts = p ++ r' /\ Forall positive r'
                  /\ 0 < x.
Proof.
  intros [(pre & post & Heq) Hpos].
  destruct (snoc_cases post) as [-> | (post' & z & ->)].
  - rewrite app_nil_r in Heq.
    destruct (snoc_cases run) as [-> | (r' & z & ->)]; [right; left; easy |].
    right; right. rewrite app_assoc in Heq. apply app_inj_tail in Heq.
    destruct Heq as [Hc <-]. rewrite Forall_app in Hpos.
    destruct Hpos as [Hr' Hx]. inversion Hx as [| ? ? Hxpos _].
    exists pre, r'. repeat split; assumption.
  - left. rewrite !app_assoc in Heq. apply app_inj_tail in Heq.
    destruct Heq as [Hc _]. split; [| exact Hpos].
    exists pre, post'. rewrite Hc, <- app_assoc. reflexivity.
Qed.

Lemma longest_nonneg (counts : list Z) (mx : Z) :
  Spec.isLongestRun counts mx -> 0 <= mx.
Proof. intros [(run & _ & <-) _]. lia. Qed.

Lemma trailing_isRun (counts run : list Z) :
  trailingRun counts run -> Spec.isRun counts run.
Proof.
  intros (pre & -> & Hpos & _). split; [| exact Hpos].
  exists pre, []. rewrite app_nil_r. reflexivity.
Qed.

(** One more day with a positive count. *)
Lemma streakInv_active (counts : list Z) (cur mx x : Z) :
  0 < x -> streakInv counts cur mx ->
  streakInv (counts ++ [x]) (cur + 1)
            (if mx <? cur + 1 then cur + 1 else mx).
Proof.
  intros Hx [(run & Htrail & Hlen) Hlongest].
  assert (Htrail' : trailingRun (counts ++ [x]) (run ++ [x])).
  { destruct Htrail as (pre & -> & Hpos & Hpre). exists pre.
    repeat split.
    - rewrite app_assoc. reflexivity.
    - apply Forall_app. split; [exact Hpos | repeat constructor; exact Hx].
    - exact Hpre. }
  assert (Hlen' : Z.of_nat (List.length (run ++ [x])) = cur + 1).
  { rewrite length_app. cbn [List.length]. lia. }
  split; [exists (run ++ [x]); split; assumption |].
  pose proof (longest_nonneg _ _ Hlongest) as Hnn.
  destruct Hlongest as [(best & Hbest & Hbestlen) Hmax].
  pose proof (Hmax run (trailing_isRun _ _ Htrail)) as Hcurmx.
  split.
  - destruct (Z.ltb_spec mx (cur + 1)).
    + exists (run ++ [x]). split; [apply trailing_isRun, Htrail' | exact Hlen'].
    + exists best. split; [apply isRun_extend, Hbest | exact Hbestlen].
  - intros r Hr.
    assert (Hbound : Z.of_nat (List.length r) <= Z.max mx (cur + 1)).
    { destruct (isRun_snoc_cases _ _ _ Hr)
        as [Hold | [-> | (p & r' & -> & Hsplit & Hpos & _)]].
      - specialize (Hmax r Hold). lia.
      - cbn. lia.
      - pose proof (suffix_run_le_trailing _ _ _ _ Htrail Hsplit Hpos).
        rewrite length_app. cbn [List.length]. lia. }
    destruct (Z.ltb_spec mx (cur + 1)); lia.
Qed.

(** One more day with no contribution. *)
Lemma streakInv_idle (counts : list Z) (cur mx x : Z) :
  x <= 0 -> streakInv counts cur mx -> streakInv (counts ++ [x]) 0 mx.
Proof.
  intros Hx [_ Hlongest]. split.
  - exists []. split; [| reflexivity].
    exists (counts ++ [x]). repeat split.
    + rewrite app_nil_r. reflexivity.
    + constructor.
    + right. exists counts, x. split; [reflexivity | exact Hx].
  - pose proof (longest_nonneg _ _ Hlongest) as Hnn.
    destruct Hlongest as [(best & Hbest & Hbestlen) Hmax]. split.
    + exists best. split; [apply isRun_extend, Hbest | exact Hbestlen].
    + intros r Hr.
      destruct (isRun_snoc_cases _ _ _ Hr)
        as [Hold | [-> | (p & r' & _ & _ & _ & Hpos)]].
      * exact (Hmax r Hold).
      * cbn. lia.
      * lia.
Qed.

Lemma streakInv_initial : streakInv [] 0 0.
Proof.
  split.
  - exists []. split; [| reflexivity]. exists []. repeat split.
    + constructor.
    + left. reflexivity.
  - split.
    + exists []. split; [| reflexivity]. split; [| constructor].
      exists [], []. reflexivity.
    + intros r [(pre & post & Heq) _].
      symmetry in Heq. apply app_eq_nil in Heq. destruct Heq as [_ Heq].
      apply app_eq_nil in Heq. destruct Heq as [-> _]. cbn. lia.
Qed.

(** The loop keeps the invariant, whatever the days are. *)
Lemma loop_streakInv (tz : Z) (days : list Day) :
  let st := fold_left (aggregateDay tz) days initialAggregate in
  streakInv (map count days) (currentStreak st) (maxStreak st).
Proof.
  induction days as [| d days IH] using rev_ind.
  - exact streakInv_initial.
  - cbn zeta in *. rewrite fold_left_app, map_app. cbn [fold_left map].
    set (st := fold_left (aggregateDay tz) days initialAggregate) in *.
    unfold aggregateDay.
    destruct (Z.ltb_spec 0 (count d)) as [Hpos | Hidle];
      cbn [currentStreak maxStreak].
    + apply streakInv_active; assumption.
    + apply (streakInv_idle _ (currentStreak st)); assumption.
Qed.

(** [sortByDate] puts the days in ascending date order and keeps them
    all. *)
Lemma insertDay_perm (d : Day) (l : list Day) :
  Permutation (d :: l) (insertDay d l).
Proof.
  induction l as [| e l IH]; cbn.
  - apply Permutation_refl.
  - destruct (date d <=? date e).
    + apply Permutation_refl.
    + eapply perm_trans; [apply perm_swap |].
      apply perm_skip. exact IH.
Qed.

Lemma sortByDate_perm (l : list Day) : Permutation l (sortByDate l).
Proof.
  induction l as [| d l IH]; cbn.
  - apply perm_nil.
  - eapply perm_trans; [apply perm_skip, IH | apply insertDay_perm].
Qed.

Lemma insertDay_sorted (d : Day) (l : list Day) :
  Sorted dateLe l -> Sorted dateLe (insertDay d l).
Proof.
  induction l as [| e l IH]; cbn; intros Hs.
  - repeat constructor.
  - destruct (Z.leb_spec (date d) (date e)) as [Hle | Hgt].
    + constructor; [exact Hs |]. constructor. exact Hle.
    + assert (Hed : dateLe e d) by (unfold dateLe; lia).
      inversion Hs as [| ? ? Hs' Hhd]; subst.
      constructor; [apply IH, Hs' |].
      destruct l as [| f l]; cbn.
      * constructor. exact Hed.
      * destruct (date d <=? date f).
        -- constructor. exact Hed.
        -- inversion Hhd; subst. constructor. assumption.
Qed.

Lemma sortByDate_sorted (l : list Day) : Sorted dateLe (sortByDate l).
Proof.
  induction l as [| d l IH]; cbn.
  - constructor.
  - apply insertDay_sorted, IH.
Qed.

(** When no day has a positive count, the only run is the empty one. *)
Lemma no_activity_no_streak (counts : list Z) (mx : Z) :
  Forall (fun c => c <= 0) counts -> Spec.isLongestRun counts mx -> mx = 0.
Proof.
  intros Hidle [(run & [(pre & post & ->) Hpos] & <-) _].
  destruct run as [| c run]; [reflexivity |].
  rewrite Forall_app in Hidle. destruct Hidle as [_ Hidle].
  rewrite Forall_app in Hidle. destruct Hidle as [Hidle _].
  inversion Hidle; subst. inversion Hpos; subst. lia.
Qed.

End StreakFacts.

(** C7. The longest streak computed by the loop of [fetchUserStory] is the
    maximum length of a run of consecutive days, in date order, each with a
    positive count; [1,0,1,1,0,1,1,1] gives 3 and a year of zeros gives 0. *)
Theorem longest_streak_is_longest_run :
  (forall (tz : Z) (yearData : list GithubService.Day),
     let sorted := GithubService.sortByDate yearData in
     Permutation yearData sorted
     /\ Sorted dateLe sorted
     /\ Spec.isLongestRun
          (map GithubService.count sorted)
          (GithubService.maxStreak (GithubService.aggregate tz yearData)))
  /\ (forall tz,
        GithubService.maxStreak
          (GithubService.aggregate tz
             (map (fun dc => GithubService.mkDay (fst dc) (snd dc))
                  [(1, 1); (2, 0); (3, 1); (4, 1); (5, 0); (6, 1); (7, 1);
                   (8, 1)])) = 3)
  /\ (forall (tz : Z) (dates : list Z),
        GithubService.maxStreak
          (GithubService.aggregate tz
             (map (fun t => GithubService.mkDay t 0) dates)) = 0).
Proof.
  split; [| split].
  - intros tz yearData sorted. split; [| split].
    + apply StreakFacts.sortByDate_perm.
    + apply StreakFacts.sortByDate_sorted.
    + apply (StreakFacts.loop_streakInv tz).
  - intros tz. reflexivity.
  - intros tz dates.
    set (yearData := map (fun t => GithubService.mkDay t 0) dates).
    apply (StreakFacts.no_activity_no_streak
             (map GithubService.count (GithubService.sortByDate yearData))).
    + apply Forall_map.
      apply (Permutation_Forall (StreakFacts.sortByDate_perm yearData)).
      subst yearData. apply Forall_map. apply Forall_forall.
      intros t _. cbn. lia.
    + apply (StreakFacts.loop_streakInv tz).
Qed.

(** ** Busiest weekday *)

Module WeekdayFacts.

Lemma fold_max_ge_init (xs : list Z) (x : Z) : x <= fold_left Z.max xs x.
Proof.
  revert x. induction xs as [| y xs IH]; intros x; cbn.
  - lia.
  - specialize (IH (Z.max x y)). lia.
Qed.

Lemma fold_max_upper (xs : list Z) (x y : Z) :
  In y xs -> y <= fold_left Z.max xs x.
Proof.
  revert x. induction xs as [| z xs IH]; intros x Hin; cbn.
  - destruct Hin.
  - destruct Hin as [-> | Hin].
    + pose proof (fold_max_ge_init xs (Z.max x y)). lia.
    + apply IH, Hin.
Qed.

Lemma fold_max_in (xs : list Z) (x : Z) :
  fold_left Z.max xs x = x \/ In (fold_left Z.max xs x) xs.
Proof.
  revert x. induction xs as [| z xs IH]; intros x; cbn.
  - left. reflexivity.
  - destruct (IH (Z.max x z)) as [E | Hin].
    + rewrite E. destruct (Z.max_spec x z) as [[_ ->] | [_ ->]]; auto.
    + right. right. exact Hin.
Qed.

(** [Math.max] of a non-empty array is one of its entries and bounds them
    all. *)
Lemma Math_max_spec (arr : list Z) (m : Z) :
  Js.Math_max arr = Some m -> In m arr /\ forall y, In y arr -> y <= m.
Proof.
  destruct arr as [| x xs]; cbn; [discriminate |].
  intros [= <-]. split.
  - destruct (fold_max_in xs x) as [-> | Hin]; [left | right]; auto.
  - intros y [-> | Hin].
    + apply fold_max_ge_init.
    + apply fold_max_upper, Hin.
Qed.

(** [indexOf] of a value the array holds is the first index holding it. *)
Lemma indexOf_spec (arr : list Z) (v : Z) :
  In v arr ->
  0 <= Js.indexOf arr v < Z.of_nat (List.length arr)
  /\ nth (Z.to_nat (Js.indexOf arr v)) arr 0 = v
  /\ forall j, 0 <= j < Js.indexOf arr v -> nth (Z.to_nat j) arr 0 <> v.
Proof.
  induction arr as [| x xs IH]; intros Hin; [destruct Hin |].
  cbn [Js.indexOf List.length].
  destruct (Z.eqb_spec x v) as [E | E].
  - repeat split; try lia. exact E.
  - destruct Hin as [Hx | Hin]; [contradiction |].
    destruct (IH Hin) as (Hrange & Hnth & Hfirst).
    rewrite (proj2 (Z.ltb_ge _ 0) (proj1 Hrange)).
    replace (Z.to_nat (Js.indexOf xs v + 1))
      with (S (Z.to_nat (Js.indexOf xs v))) by lia.
    repeat split; try lia.
    + exact Hnth.
    + intros j Hj. destruct (Z.eq_dec j 0) as [-> | Hj0]; [exact E |].
      replace (Z.to_nat j) with (S (Z.to_nat (j - 1))) by lia.
      apply Hfirst. lia.
Qed.

End WeekdayFacts.

(** C9. For a seven-slot weekday histogram, the busiest weekday is an index
    holding the maximum value, and every index before it holds a smaller
    value: ties go to the lowest index.  The histogram [5,0,0,0,0,0,5]
    resolves to index 0, Sundays. *)
Theorem busiest_day_is_first_maximum (weekdayStats : list Z) :
  List.length weekdayStats = 7%nat ->
  let i := GithubService.maxDayIndex weekdayStats in
  let slot j := nth (Z.to_nat j) weekdayStats 0 in
  0 <= i < 7
  /\ (forall j, 0 <= j < 7 -> slot j <= slot i)
  /\ (forall j, 0 <= j < i -> slot j < slot i)
  /\ GithubService.busiestDay weekdayStats
     = nth_error GithubService.days (Z.to_nat i)
  /\ GithubService.maxDayIndex [5; 0; 0; 0; 0; 0; 5] = 0
  /\ GithubService.busiestDay [5; 0; 0; 0; 0; 0; 5] = Some "Sundays"%string.
Proof.
  intros Hlen i slot. subst i slot.
  unfold GithubService.busiestDay, GithubService.maxDayIndex.
  destruct (Js.Math_max weekdayStats) as [m |] eqn:Hmax.
  2:{ destruct weekdayStats; [discriminate Hlen | discriminate Hmax]. }
  destruct (WeekdayFacts.Math_max_spec _ _ Hmax) as [Hin Hupper].
  destruct (WeekdayFacts.indexOf_spec _ _ Hin) as (Hrange & Hnth & Hfirst).
  rewrite Hlen in Hrange. rewrite Hnth.
  assert (Hslot : forall j, 0 <= j < 7 ->
                            In (nth (Z.to_nat j) weekdayStats 0) weekdayStats).
  { intros j Hj. apply nth_In. lia. }
  repeat split; try lia.
  - intros j Hj. apply Hupper, Hslot, Hj.
  - intros j Hj.
    assert (nth (Z.to_nat j) weekdayStats 0 <= m)
      by (apply Hupper, Hslot; lia).
    specialize (Hfirst j Hj). lia.
  - rewrite (proj2 (Z.ltb_ge _ 0) (proj1 Hrange)). reflexivity.
Qed.

(** The theorem on the histogram of the example. *)
Lemma busiest_day_is_first_maximum_witness :
  let weekdayStats := [5; 0; 0; 0; 0; 0; 5] in
  List.length weekdayStats = 7%nat
  /\ 0 <= GithubService.maxDayIndex weekdayStats < 7
  /\ GithubService.busiestDay weekdayStats
     = nth_error GithubService.days
         (Z.to_nat (GithubService.maxDayIndex weekdayStats)).
Proof.
  intros weekdayStats.
  pose proof (busiest_day_is_first_maximum weekdayStats eq_refl) as H.
  cbv zeta in H. destruct H as (Hrange & _ & _ & Hday & _).
  split; [reflexivity |]. split; [exact Hrange | exact Hday].
Defined.

(** ** Top repository *)

Module SelectionFacts.
Import GithubService.

Lemma selectRepos_snoc (calls : list (Z * Repo)) (call : Z * Repo) :
  selectRepos (calls ++ [call]) = visitRepo (selectRepos calls) call.
Proof. unfold selectRepos. rewrite fold_left_app. reflexivity. Qed.

(** What one call does to the selection. *)
Lemma visitRepo_best (st : Selection) (call : Z * Repo) :
  ((bestScore st < scoreOf call)%R
   /\ bestRepo (visitRepo st call) = Some (snd call)
   /\ bestScore (visitRepo st call) = scoreOf call)
  \/ ((scoreOf call <= bestScore st)%R
      /\ bestRepo (visitRepo st call) = bestRepo st
      /\ bestScore (visitRepo st call) = bestScore st).
Proof.
  destruct call as [now repo]. unfold visitRepo, scoreOf. cbn [fst snd].
  destruct (Rlt_dec (bestScore st) (calculateRepoScore now repo))
    as [Hlt | Hge];
    cbn [bestRepo bestScore]; [left | right]; repeat split; try assumption.
  lra.
Qed.

Lemma selectRepos_inv (calls : list (Z * Repo)) :
  selectionInv calls (selectRepos calls).
Proof.
  induction calls as [| x calls IH] using rev_ind.
  - left. cbn. repeat split. intros c [].
  - rewrite selectRepos_snoc. unfold selectionInv in *.
    destruct (visitRepo_best (selectRepos calls) x)
      as [(Hlt & -> & ->) | (Hge & -> & ->)].
    + right. exists calls, x, []. repeat split.
      * destruct IH as [(_ & Hb & _) | (pre & c & post & _ & _ & Hb & Hc & _)];
          rewrite Hb in Hlt; lra.
      * intros d Hd.
        destruct IH as [(_ & Hb & Hall)
                       | (pre & c & post & -> & _ & Hb & _ & Hpre & Hpost)];
          rewrite Hb in Hlt.
        -- specialize (Hall d Hd). lra.
        -- apply in_app_or in Hd. destruct Hd as [Hd | [<- | Hd]].
           ++ specialize (Hpre d Hd). lra.
           ++ exact Hlt.
           ++ specialize (Hpost d Hd). lra.
      * intros d [].
    + destruct IH as [(Hr & Hb & Hall)
                     | (pre & c & post & -> & Hr & Hb & Hc & Hpre & Hpost)].
      * left. repeat split; try assumption.
        intros c Hc. apply in_app_or in Hc. destruct Hc as [Hc | [<- | []]].
        -- apply Hall, Hc.
        -- rewrite Hb in Hge. exact Hge.
      * right. exists pre, c, (post ++ [x]). repeat split; try assumption.
        -- rewrite <- app_assoc. reflexivity.
        -- intros d Hd. apply in_app_or in Hd. destruct Hd as [Hd | [<- | []]].
           ++ apply Hpost, Hd.
           ++ rewrite Hb in Hge. exact Hge.
Qed.

(** The archived fork of the example scores -20 at any time. *)
Lemma archivedFork_score (now : Z) :
  calculateRepoScore now archivedFork = (-20)%R.
Proof.
  unfold calculateRepoScore, hasLongDescription, hasTopicList, archivedFork.
  cbn [name description stargazers_count forks_count watchers_count size
       open_issues_count language topics fork archived created_at pushed_at
       html_url Js.truthy negb].
  change (year2025Start <=? 0) with false. cbv iota.
  change (IZR (0 + 1)) with 1%R. rewrite log10_1.
  rewrite (Rmin_left (0 * 10) 30), (Rmin_left (0 * 5) 15),
    (Rmin_left (0 * (1 / 2)) 5) by lra.
  lra.
Qed.

(** The same fork pushed at the instant it is scored earns the full recency
    bonus: it scores 5 and is selected. *)
Lemma recentArchivedFork_selected :
  calculateRepoScore year2025Start recentArchivedFork = 5%R
  /\ bestRepo (selectRepos [(year2025Start, recentArchivedFork)])
     = Some recentArchivedFork.
Proof.
  assert (Hscore : calculateRepoScore year2025Start recentArchivedFork = 5%R).
  { unfold calculateRepoScore, recencyScore, hasLongDescription, hasTopicList,
      recentArchivedFork.
    cbn [name description stargazers_count forks_count watchers_count size
         open_issues_count language topics fork archived created_at pushed_at
         html_url Js.truthy negb].
    change (year2025Start <=? year2025Start) with true. cbv iota.
    change (IZR (0 + 1)) with 1%R. rewrite log10_1.
    change (IZR (year2025Start - year2025Start)) with 0%R.
    replace (0 / (1000 * 60 * 60 * 24))%R with 0%R by lra.
    rewrite (Rmax_left 0 0) by lra.
    replace (25 - 0 / 15)%R with 25%R by lra.
    rewrite (Rmax_right 0 25) by lra.
    rewrite (Rmin_left (0 * 10) 30), (Rmin_left (0 * 5) 15),
      (Rmin_left (0 * (1 / 2)) 5) by lra.
    lra. }
  split; [exact Hscore |].
  unfold selectRepos. cbn [fold_left]. unfold visitRepo.
  rewrite Hscore. cbn [bestScore initialSelection].
  destruct (Rlt_dec (-1) 5) as [_ | Hno]; [reflexivity | exfalso; lra].
Qed.

End SelectionFacts.

(** C10. Top-repository selection starts from best score -1 and replaces
    the selection on a strictly greater score.  For a non-empty collection
    whose scores are all at most -1 nothing is selected and the report shows
    the "No Public Repos" placeholder; an archived fork with nothing to
    score, not pushed in 2025, scores -20 and is such a collection.  When
    some score exceeds -1, the repository selected is the first one that
    attains the maximum score. *)
Theorem top_repo_selection (calls : list (Z * Repo)) :
  let selected := GithubService.bestRepo (GithubService.selectRepos calls) in
  (calls <> [] ->
   (forall c, In c calls -> (scoreOf c <= -1)%R) ->
   selected = None
   /\ GithubService.repo_name (GithubService.topRepo selected)
      = "No Public Repos"%string)
  /\ ((exists c, In c calls /\ (-1 < scoreOf c)%R) ->
      exists pre c post,
        calls = pre ++ c :: post
        /\ selected = Some (snd c)
        /\ (forall d, In d pre -> (scoreOf d < scoreOf c)%R)
        /\ (forall d, In d post -> (scoreOf d <= scoreOf c)%R))
  /\ (forall now,
        scoreOf (now, archivedFork) = (-20)%R
        /\ GithubService.topRepo
             (GithubService.bestRepo
                (GithubService.selectRepos [(now, archivedFork)]))
           = GithubService.mkRepository "No Public Repos"
               "Start coding to write history." 0 "N/A" [] EmptyString).
Proof.
  intros selected. subst selected.
  pose proof (SelectionFacts.selectRepos_inv calls) as Hinv.
  split; [| split].
  - intros _ Hall.
    destruct Hinv as [(Hr & _ & _) | (pre & c & post & -> & _ & _ & Hc & _)].
    + rewrite Hr. split; reflexivity.
    + specialize (Hall c (in_elt c pre post)). lra.
  - intros (c0 & Hin & Hc0).
    destruct Hinv as [(_ & _ & Hall)
                     | (pre & c & post & Hcalls & Hr & _ & _ & Hpre & Hpost)].
    + specialize (Hall c0 Hin). lra.
    + exists pre, c, post. repeat split; assumption.
  - intros now.
    assert (Hscore : scoreOf (now, archivedFork) = (-20)%R)
      by apply SelectionFacts.archivedFork_score.
    split; [exact Hscore |].
    destruct (SelectionFacts.selectRepos_inv [(now, archivedFork)])
      as [(Hr & _ & _) | (pre & c & post & Hcalls & _ & _ & Hc & _)].
    + rewrite Hr. reflexivity.
    + assert (Hin : In c [(now, archivedFork)])
        by (rewrite Hcalls; apply in_elt).
      destruct Hin as [<- | []]. rewrite Hscore in Hc. lra.
Qed.

(** The theorem on a collection of one archived fork, scored at the start of
    2025. *)
Lemma top_repo_selection_witness :
  let calls := [(year2025Start, archivedFork)] in
  calls <> []
  /\ (forall c, In c calls -> (scoreOf c <= -1)%R)
  /\ GithubService.bestRepo (GithubService.selectRepos calls) = None.
Proof.
  intros calls.
  assert (Hne : calls <> []) by discriminate.
  assert (Hall : forall c, In c calls -> (scoreOf c <= -1)%R).
  { intros c [<- | []]. unfold scoreOf. cbn [fst snd].
    rewrite SelectionFacts.archivedFork_score. lra. }
  split; [exact Hne |]. split; [exact Hall |].
  exact (proj1 (proj1 (top_repo_selection calls) Hne Hall)).
Defined.

(** The theorem on four Go repositories: the entry has count 4 and the second
    loop adds one half. *)
Lemma diversity_bonus_after_full_pass_witness :
  exists before after,
    ScoringAlgorithms.get
      (ScoringAlgorithms.accumulate ScoringAlgorithms.SCORING_CONFIG_language
         (repeat goRepo 4)) "Go" = Some before
    /\ ScoringAlgorithms.get
         (ScoringAlgorithms.calculateLanguageScores (repeat goRepo 4)) "Go"
       = Some after
    /\ 3 <= ScoringAlgorithms.repoCount before
    /\ (ScoringAlgorithms.weight after
        == ScoringAlgorithms.weight before + (1 # 2))%Q.
Proof.
  pose proof (diversity_bonus_after_full_pass (repeat goRepo 4) "Go") as H.
  destruct H as [H _].
  destruct (ScoringAlgorithms.get
              (ScoringAlgorithms.accumulate
                 ScoringAlgorithms.SCORING_CONFIG_language (repeat goRepo 4))
              "Go") as [before |] eqn:Hget; [| discriminate Hget].
  destruct H as (_ & after & Hafter & _ & Hbonus & _).
  injection Hget as <-.
  exists (ScoringAlgorithms.mkLanguageScore "Go" 4 4 0), after.
  repeat split.
  - exact Hafter.
  - cbn. lia.
  - apply Hbonus. cbn. lia.
Defined.

(** * Further properties of the code

    The functions the sections above leave out, and more about those they
    cover. *)

(** ** [Array.prototype.sort] with a total, transitive comparator *)

Section SortFacts.

Context {A : Type} (le : A -> A -> bool).
Hypothesis le_total : forall a b, le a b = true \/ le b a = true.
Hypothesis le_trans :
  forall a b c, le a b = true -> le b c = true -> le a c = true.

Lemma insertSorted_perm (x : A) (l : list A) :
  Permutation (x :: l) (Js.insertSorted le x l).
Proof.
  induction l as [| y l IH]; cbn.
  - apply Permutation_refl.
  - destruct (le x y).
    + apply Permutation_refl.
    + eapply perm_trans; [apply perm_swap | apply perm_skip, IH].
Qed.

Lemma sort_perm (l : list A) : Permutation l (Js.sort le l).
Proof.
  induction l as [| x l IH]; cbn.
  - apply perm_nil.
  - eapply perm_trans; [apply perm_skip, IH | apply insertSorted_perm].
Qed.

Lemma sort_length (l : list A) : List.length (Js.sort le l) = List.length l.
Proof. symmetry. apply Permutation_length, sort_perm. Qed.

Lemma insertSorted_sorted (x : A) (l : list A) :
  StronglySorted (leProp le) l ->
  StronglySorted (leProp le) (Js.insertSorted le x l).
Proof.
  induction l as [| y l IH]; cbn; intros Hs.
  - repeat constructor.
  - inversion Hs as [| ? ? Hl Hy]; subst.
    destruct (le x y) eqn:Hxy.
    + constructor; [exact Hs |]. constructor; [exact Hxy |].
      rewrite Forall_forall in *. intros z Hz.
      apply (le_trans x y z Hxy), Hy, Hz.
    + assert (Hyx : leProp le y x).
      { destruct (le_total x y) as [H | H]; [congruence | exact H]. }
      constructor; [apply IH, Hl |].
      apply (Permutation_Forall (insertSorted_perm x l)).
      constructor; assumption.
Qed.

Lemma sort_sorted (l : list A) : StronglySorted (leProp le) (Js.sort le l).
Proof.
  induction l as [| x l IH]; cbn.
  - constructor.
  - apply insertSorted_sorted, IH.
Qed.

(** The sort is stable: the elements selected by a predicate that cannot
    tell two elements apart unless the comparator orders them strictly keep
    their order. *)
Lemma insertSorted_filter (keep : A -> bool) (x : A) (l : list A) :
  (forall y, keep x = true -> keep y = true -> le x y = true) ->
  filter keep (Js.insertSorted le x l) = filter keep (x :: l).
Proof.
  intros Hkeep. induction l as [| y l IH]; [reflexivity |].
  cbn [Js.insertSorted]. destruct (le x y) eqn:Hxy; [reflexivity |].
  cbn [filter] in *. rewrite IH.
  destruct (keep x) eqn:Hx; [| reflexivity].
  destruct (keep y) eqn:Hy; [| reflexivity].
  rewrite (Hkeep y eq_refl Hy) in Hxy. discriminate Hxy.
Qed.

Lemma sort_filter (keep : A -> bool) (l : list A) :
  (forall x y, keep x = true -> keep y = true -> le x y = true) ->
  filter keep (Js.sort le l) = filter keep l.
Proof.
  intros Hkeep. induction l as [| x l IH]; [reflexivity |].
  cbn [Js.sort]. rewrite insertSorted_filter by (intros y; apply Hkeep).
  cbn [filter]. rewrite IH. reflexivity.
Qed.

(** The first element of the sorted array is the first element of the
    array that no other one precedes strictly. *)
Lemma sort_head (l : list A) (h : A) (t : list A) :
  Js.sort le l = h :: t ->
  exists pre post,
    l = pre ++ h :: post
    /\ (forall d, In d pre -> le d h = false)
    /\ (forall d, In d post -> le h d = true).
Proof.
  revert h t. induction l as [| x l IH]; intros h t Hsort; [discriminate |].
  cbn [Js.sort] in Hsort.
  destruct (Js.sort le l) as [| h' t'] eqn:Hl.
  - assert (l = []) as ->.
    { apply Permutation_nil. rewrite <- Hl. apply Permutation_sym, sort_perm. }
    cbn in Hsort. injection Hsort as <- <-.
    exists [], []. repeat split; intros d [].
  - destruct (IH h' t' eq_refl) as (pre & post & -> & Hpre & Hpost).
    cbn [Js.insertSorted] in Hsort. destruct (le x h') eqn:Hxh.
    + injection Hsort as <- <-.
      exists [], (pre ++ h' :: post). repeat split; [intros d [] |].
      intros d Hd. apply in_app_or in Hd. destruct Hd as [Hd | [<- | Hd]].
      * apply (le_trans x h' d Hxh).
        destruct (le_total h' d) as [H | H]; [exact H |].
        rewrite (Hpre d Hd) in H. discriminate H.
      * exact Hxh.
      * apply (le_trans x h' d Hxh), Hpost, Hd.
    + injection Hsort as <- <-.
      exists (x :: pre), post. repeat split.
      * intros d [<- | Hd]; [exact Hxh | apply Hpre, Hd].
      * exact Hpost.
Qed.

End SortFacts.

(** [slice(0, n)] is a prefix. *)
Lemma slice0_prefix {A} (l : list A) (n : Z) :
  exists rest, l = Js.slice0 l n ++ rest.
Proof.
  unfold Js.slice0. destruct (n <? 0);
    eexists; symmetry; apply firstn_skipn.
Qed.

Lemma slice0_length {A} (l : list A) (n : Z) :
  0 <= n -> List.length (Js.slice0 l n) = Nat.min (Z.to_nat n) (List.length l).
Proof.
  intros Hn. unfold Js.slice0.
  rewrite (proj2 (Z.ltb_ge n 0) Hn). apply length_firstn.
Qed.

Lemma StronglySorted_app_inv {A} (R : A -> A -> Prop) (l1 l2 : list A) :
  StronglySorted R (l1 ++ l2) ->
  StronglySorted R l1
  /\ StronglySorted R l2
  /\ forall a b, In a l1 -> In b l2 -> R a b.
Proof.
  induction l1 as [| x l1 IH]; cbn; intros Hs.
  - repeat split; [constructor | exact Hs | intros a b []].
  - inversion Hs as [| ? ? Hl Hx]; subst.
    destruct (IH Hl) as (H1 & H2 & Hcross).
    rewrite Forall_app in Hx. destruct Hx as [Hx1 Hx2].
    repeat split; [constructor; assumption | exact H2 |].
    intros a b [<- | Ha] Hb.
    + rewrite Forall_forall in Hx2. apply Hx2, Hb.
    + apply Hcross; assumption.
Qed.

(** ** getTopLanguages *)

Module TopLanguagesFacts.
Import ScoringAlgorithms.

Lemma byWeightDesc_total (a b : LanguageScore) :
  byWeightDesc a b = true \/ byWeightDesc b a = true.
Proof.
  unfold byWeightDesc. rewrite !Qle_bool_iff.
  destruct (Qlt_le_dec (weight a) (weight b)) as [H | H];
    [right; apply Qlt_le_weak, H | left; exact H].
Qed.

Lemma byWeightDesc_trans (a b c : LanguageScore) :
  byWeightDesc a b = true -> byWeightDesc b c = true ->
  byWeightDesc a c = true.
Proof.
  unfold byWeightDesc. rewrite !Qle_bool_iff. intros Hab Hbc.
  eapply Qle_trans; eassumption.
Qed.

End TopLanguagesFacts.

(** X1. [getTopLanguages] returns the heaviest entries, heaviest first: the
    result is in descending order of weight, it is the values of the map
    minus a remainder none of which outweighs a returned entry, and with the
    default [topN] it has min(3, size) entries. *)
Theorem getTopLanguages_heaviest_first
  (langMap : ScoringAlgorithms.LangMap) (topN : Z) :
  let top := ScoringAlgorithms.getTopLanguages langMap topN in
  StronglySorted
    (fun a b => (ScoringAlgorithms.weight b <= ScoringAlgorithms.weight a)%Q)
    top
  /\ (exists rest,
        Permutation (map snd langMap) (top ++ rest)
        /\ forall a b, In a top -> In b rest ->
             (ScoringAlgorithms.weight b <= ScoringAlgorithms.weight a)%Q)
  /\ List.length (ScoringAlgorithms.getTopLanguagesDefault langMap)
     = Nat.min 3 (List.length langMap).
Proof.
  intros top. subst top.
  unfold ScoringAlgorithms.getTopLanguagesDefault,
    ScoringAlgorithms.getTopLanguages.
  set (sorted := Js.sort ScoringAlgorithms.byWeightDesc (map snd langMap)).
  assert (Hsorted : StronglySorted (leProp ScoringAlgorithms.byWeightDesc)
                                   sorted).
  { apply sort_sorted.
    - apply TopLanguagesFacts.byWeightDesc_total.
    - apply TopLanguagesFacts.byWeightDesc_trans. }
  destruct (slice0_prefix sorted topN) as (rest & Hsplit).
  rewrite Hsplit in Hsorted.
  destruct (StronglySorted_app_inv _ _ _ Hsorted) as (Htop & _ & Hcross).
  assert (Hle : forall a b,
             leProp ScoringAlgorithms.byWeightDesc a b ->
             (ScoringAlgorithms.weight b <= ScoringAlgorithms.weight a)%Q).
  { intros a b H. apply Qle_bool_iff. exact H. }
  split; [| split].
  - eapply StronglySorted_ind with (P := StronglySorted _); try exact Htop.
    + constructor.
    + intros a l _ IH Hall. constructor; [exact IH |].
      eapply Forall_impl; [| exact Hall]. intros b. apply Hle.
  - exists rest. split.
    + rewrite <- Hsplit. apply sort_perm.
    + intros a b Ha Hb. apply Hle, Hcross; assumption.
  - rewrite slice0_length by lia. subst sorted.
    rewrite sort_length, length_map. reflexivity.
Qed.

(** X2. [getTopLanguages] breaks ties by insertion order: in the sorted
    array it cuts, the entries of any given weight come in the order the map
    lists them. *)
Theorem getTopLanguages_ties_keep_map_order
  (langMap : ScoringAlgorithms.LangMap) (topN : Z) (w : Q) :
  exists rest,
    filter (fun s => Qeq_bool (ScoringAlgorithms.weight s) w)
           (ScoringAlgorithms.getTopLanguages langMap topN ++ rest)
    = filter (fun s => Qeq_bool (ScoringAlgorithms.weight s) w)
             (map snd langMap)
    /\ Permutation (map snd langMap)
         (ScoringAlgorithms.getTopLanguages langMap topN ++ rest).
Proof.
  unfold ScoringAlgorithms.getTopLanguages.
  set (sorted := Js.sort ScoringAlgorithms.byWeightDesc (map snd langMap)).
  destruct (slice0_prefix sorted topN) as (rest & Hsplit).
  exists rest. rewrite <- Hsplit. split; [| apply sort_perm].
  apply sort_filter. intros x y Hx Hy.
  apply Qeq_bool_iff in Hx, Hy. unfold ScoringAlgorithms.byWeightDesc.
  apply Qle_bool_iff. rewrite Hx, Hy. apply Qle_refl.
Qed.

(** ** More on calculateLanguageScores *)

Module LanguageMoreFacts.
Import ScoringAlgorithms.

Lemma recentCountOf_snoc (lang : string) (repos : list Repo) (r : Repo) :
  recentCountOf lang (repos ++ [r])
  = recentCountOf lang repos
    + (if Spec.countsFor lang r && (year2025Start <=? pushed_at r)
       then 1 else 0).
Proof.
  unfold recentCountOf. rewrite filter_app, length_app. cbn [filter].
  destruct (Spec.countsFor lang r && _); cbn [List.length]; lia.
Qed.

Lemma recentCountOf_bounds (lang : string) (repos : list Repo) :
  0 <= recentCountOf lang repos <= Spec.repoCountOf lang repos.
Proof.
  unfold recentCountOf, Spec.repoCountOf. split; [lia |].
  apply inj_le. induction repos as [| r repos IH]; cbn [filter]; [lia |].
  destruct (Spec.countsFor lang r); cbn [andb].
  - destruct (year2025Start <=? pushed_at r); cbn [List.length]; lia.
  - exact IH.
Qed.

(** The entry of a language after the first loop, under the default
    configuration. *)
Lemma accumulate_entry (repos : list Repo) (lang : string) :
  lang <> EmptyString ->
  match get (accumulate SCORING_CONFIG_language repos) lang with
  | Some s =>
      lang_name s = lang
      /\ repoCount s = Spec.repoCountOf lang repos
      /\ recentCount s = recentCountOf lang repos
      /\ (weight s == inject_Z (repoCount s) + inject_Z (recentCount s))%Q
  | None => Spec.repoCountOf lang repos = 0
  end.
Proof.
  intros Hne. induction repos as [| r repos IH] using rev_ind.
  - reflexivity.
  - rewrite LanguageFacts.accumulate_snoc, LanguageFacts.visitRepo_get,
      LanguageFacts.repoCountOf_snoc, recentCountOf_snoc.
    rewrite (proj2 (String.eqb_neq lang EmptyString) Hne).
    cbn [negb]. rewrite andb_true_r.
    pose proof (LanguageFacts.repoCountOf_nonneg lang repos) as Hnn.
    pose proof (recentCountOf_bounds lang repos) as Hrec.
    unfold entryOrFresh.
    destruct (Spec.countsFor lang r); cbn [andb].
    + destruct (get (accumulate SCORING_CONFIG_language repos) lang)
        as [s |].
      * destruct IH as (Hname & Hrc & Hrecent & Hw).
        cbn [bump lang_name repoCount recentCount weight baseWeight
             recentActivityBonus SCORING_CONFIG_language].
        destruct (year2025Start <=? pushed_at r);
          (split; [exact Hname | split; [lia | split; [lia |]]]);
          rewrite Hw, !inject_Z_plus; cbn; ring.
      * cbn [bump lang_name repoCount recentCount weight baseWeight
             recentActivityBonus SCORING_CONFIG_language].
        assert (recentCountOf lang repos = 0) by lia.
        destruct (year2025Start <=? pushed_at r);
          (split; [reflexivity | split; [lia | split; [lia |]]]);
          reflexivity.
    + destruct (get (accumulate SCORING_CONFIG_language repos) lang)
        as [s |]; [| lia].
      destruct IH as (Hname & Hrc & Hrecent & Hw).
      split; [exact Hname | split; [lia | split; [lia | exact Hw]]].
Qed.

Lemma repoCountOf_pos_iff (lang : string) (repos : list Repo) :
  0 < Spec.repoCountOf lang repos
  <-> exists r, In r repos /\ fork r = false /\ language r = Some lang.
Proof.
  unfold Spec.repoCountOf. split.
  - intros Hpos.
    destruct (filter (Spec.countsFor lang) repos) as [| r l] eqn:Hf;
      [cbn in Hpos; lia |].
    assert (Hin : In r (filter (Spec.countsFor lang) repos))
      by (rewrite Hf; left; reflexivity).
    apply filter_In in Hin. destruct Hin as [Hin Hc].
    exists r. split; [exact Hin |].
    unfold Spec.countsFor in Hc. apply andb_prop in Hc.
    destruct Hc as [Hfork Hlang].
    split; [destruct (fork r); [discriminate | reflexivity] |].
    destruct (language r) as [l' |]; [| discriminate].
    apply String.eqb_eq in Hlang. subst l'. reflexivity.
  - intros (r & Hin & Hfork & Hlang).
    assert (Hf : In r (filter (Spec.countsFor lang) repos)).
    { apply filter_In. split; [exact Hin |].
      unfold Spec.countsFor. rewrite Hfork, Hlang, String.eqb_refl.
      reflexivity. }
    destruct (filter (Spec.countsFor lang) repos); [destruct Hf |].
    cbn [List.length]. lia.
Qed.

(** Keys of the map. *)
Lemma has_existsb (m : LangMap) (k : string) :
  has m k = existsb (String.eqb k) (map fst m).
Proof.
  unfold has. induction m as [| [k' v] m IH]; cbn; [reflexivity |].
  rewrite (String.eqb_sym k k').
  destruct (String.eqb k' k); [reflexivity | exact IH].
Qed.

Lemma keys_set (m : LangMap) (k : string) (v : LanguageScore) :
  map fst (set m k v)
  = if has m k then map fst m else map fst m ++ [k].
Proof.
  unfold has. induction m as [| [k' v'] m IH]; cbn; [reflexivity |].
  destruct (String.eqb k' k); cbn; [reflexivity |].
  rewrite IH. destruct (get m k); reflexivity.
Qed.

Lemma has_set_same (m : LangMap) (k : string) (v : LanguageScore) :
  has (set m k v) k = true.
Proof. unfold has. rewrite LanguageFacts.get_set_same. reflexivity. Qed.

Lemma keys_visitRepo (cfg : LanguageConfig) (m : LangMap) (repo : Repo) :
  map fst (visitRepo cfg m repo)
  = fold_left (fun seen x => if existsb (String.eqb x) seen then seen
                             else seen ++ [x])
              (sightings [repo]) (map fst m).
Proof.
  unfold visitRepo, sightings. cbn [flat_map]. rewrite app_nil_r.
  destruct (fork repo); [reflexivity |].
  destruct (language repo) as [l |]; [| reflexivity].
  destruct (Js.truthy (Some l)); cbn [negb fold_left]; [| reflexivity].
  rewrite <- has_existsb.
  destruct (has m l) eqn:Hhas; cbn [negb].
  - destruct (get m l) as [s |] eqn:Hget;
      [| unfold has in Hhas; rewrite Hget in Hhas; discriminate Hhas].
    rewrite keys_set, Hhas. reflexivity.
  - rewrite LanguageFacts.get_set_same, keys_set, has_set_same, keys_set,
      Hhas. reflexivity.
Qed.

Lemma keys_accumulate (cfg : LanguageConfig) (repos : list Repo) :
  map fst (accumulate cfg repos) = firstSeen (sightings repos).
Proof.
  unfold firstSeen. induction repos as [| r repos IH] using rev_ind.
  - reflexivity.
  - rewrite LanguageFacts.accumulate_snoc, keys_visitRepo, IH.
    unfold sightings. rewrite flat_map_app, fold_left_app. reflexivity.
Qed.

Lemma keys_after_second_loop (cfg : LanguageConfig) (m : LangMap) :
  map fst (map (fun kv => (fst kv, addDiversity cfg (snd kv))) m)
  = map fst m.
Proof. rewrite map_map. reflexivity. Qed.

Lemma firstSeen_step_NoDup (seen : list string) (l : list string) :
  NoDup seen ->
  NoDup (fold_left (fun seen x => if existsb (String.eqb x) seen then seen
                                  else seen ++ [x]) l seen).
Proof.
  revert seen. induction l as [| x l IH]; intros seen Hnd; [exact Hnd |].
  cbn [fold_left]. apply IH.
  destruct (existsb (String.eqb x) seen) eqn:Hex; [exact Hnd |].
  apply NoDup_app; [exact Hnd | repeat constructor; intros [] |].
  intros y Hy [-> | []].
  assert (existsb (String.eqb y) seen = true).
  { apply existsb_exists. exists y. split; [exact Hy | apply String.eqb_refl]. }
  congruence.
Qed.

End LanguageMoreFacts.

(** X3. [calculateLanguageScores] has an entry for a language exactly when
    some repository that is not a fork has that language, non-empty, as its
    primary language: forks and repositories without language leave no
    trace. *)
Theorem language_entry_iff_counted_repo (repos : list Repo) (lang : string) :
  (exists s,
     ScoringAlgorithms.get (ScoringAlgorithms.calculateLanguageScores repos)
                           lang = Some s)
  <-> lang <> EmptyString
      /\ exists r, In r repos /\ fork r = false /\ language r = Some lang.
Proof.
  unfold ScoringAlgorithms.calculateLanguageScores.
  rewrite LanguageFacts.get_after_second_loop.
  pose proof (LanguageFacts.accumulate_no_empty_key
                ScoringAlgorithms.SCORING_CONFIG_language repos) as Hempty.
  pose proof (LanguageFacts.accumulate_repoCount
                ScoringAlgorithms.SCORING_CONFIG_language repos lang) as Hcount.
  rewrite <- LanguageMoreFacts.repoCountOf_pos_iff.
  destruct (ScoringAlgorithms.get _ lang) as [s |] eqn:Hget; cbn [option_map].
  - assert (Hne : lang <> EmptyString).
    { intros ->. rewrite Hempty in Hget. discriminate Hget. }
    destruct (Hcount Hne) as [Hrc Hpos]. split.
    + intros _. split; [exact Hne | lia].
    + intros _. eexists. reflexivity.
  - split.
    + intros (s & Hs). discriminate Hs.
    + intros (Hne & Hpos). specialize (Hcount Hne). lia.
Qed.

(** X4. Under the default configuration the entry of a language carries its
    own name, the number of its non-fork repositories, the number of those
    pushed in 2025, and the weight repoCount + recentCount + diversity
    bonus; the recent count never exceeds the repository count, which is at
    least 1. *)
Theorem language_entry_contents (repos : list Repo) (lang : string)
  (s : ScoringAlgorithms.LanguageScore) :
  ScoringAlgorithms.get (ScoringAlgorithms.calculateLanguageScores repos) lang
  = Some s ->
  ScoringAlgorithms.lang_name s = lang
  /\ ScoringAlgorithms.repoCount s = Spec.repoCountOf lang repos
  /\ ScoringAlgorithms.recentCount s = recentCountOf lang repos
  /\ 0 <= ScoringAlgorithms.recentCount s <= ScoringAlgorithms.repoCount s
  /\ 1 <= ScoringAlgorithms.repoCount s
  /\ (ScoringAlgorithms.weight s
      == inject_Z (ScoringAlgorithms.repoCount s)
         + inject_Z (ScoringAlgorithms.recentCount s)
         + Spec.diversityBonusOf (ScoringAlgorithms.repoCount s))%Q.
Proof.
  unfold ScoringAlgorithms.calculateLanguageScores.
  rewrite LanguageFacts.get_after_second_loop.
  pose proof (LanguageFacts.accumulate_no_empty_key
                ScoringAlgorithms.SCORING_CONFIG_language repos) as Hempty.
  pose proof (LanguageMoreFacts.accumulate_entry repos lang) as Hentry.
  pose proof (LanguageFacts.accumulate_repoCount
                ScoringAlgorithms.SCORING_CONFIG_language repos lang) as Hcount.
  pose proof (LanguageMoreFacts.recentCountOf_bounds lang repos) as Hbounds.
  destruct (ScoringAlgorithms.get _ lang) as [before |] eqn:Hget;
    cbn [option_map]; [| discriminate].
  assert (Hne : lang <> EmptyString).
  { intros ->. rewrite Hempty in Hget. discriminate Hget. }
  intros [= <-].
  destruct (Hentry Hne) as (Hname & Hrc & Hrecent & Hw).
  destruct (Hcount Hne) as [_ Hpos].
  destruct (LanguageFacts.addDiversity_default before)
    as (Hname' & Hrc' & Hrecent' & Hw').
  cbv zeta in Hname', Hrc', Hrecent', Hw'.
  rewrite Hname', Hrc', Hrecent'.
  split; [exact Hname |]. split; [exact Hrc |]. split; [exact Hrecent |].
  split; [lia |]. split; [lia |].
  rewrite Hw', Hw. reflexivity.
Qed.

(** The theorem on four Go repositories: weight 4 + 0 + 1/2. *)
Lemma language_entry_contents_witness :
  exists s,
    ScoringAlgorithms.get
      (ScoringAlgorithms.calculateLanguageScores (repeat goRepo 4)) "Go"
    = Some s
    /\ ScoringAlgorithms.repoCount s = 4
    /\ (ScoringAlgorithms.weight s
        == inject_Z (ScoringAlgorithms.repoCount s)
           + inject_Z (ScoringAlgorithms.recentCount s)
           + Spec.diversityBonusOf (ScoringAlgorithms.repoCount s))%Q.
Proof.
  eexists. split; [reflexivity |].
  split; [reflexivity |].
  refine (proj2 (proj2 (proj2 (proj2 (proj2
            (language_entry_contents (repeat goRepo 4) "Go" _ eq_refl)))))).
Defined.

(** X5. The keys of the map [calculateLanguageScores] returns are the
    languages of the repositories that count, each once, in the order of
    their first sighting. *)
Theorem language_keys_in_first_sighting_order (repos : list Repo) :
  map fst (ScoringAlgorithms.calculateLanguageScores repos)
  = firstSeen (sightings repos)
  /\ NoDup (map fst (ScoringAlgorithms.calculateLanguageScores repos)).
Proof.
  unfold ScoringAlgorithms.calculateLanguageScores,
    ScoringAlgorithms.calculateLanguageScoresWith.
  rewrite LanguageMoreFacts.keys_after_second_loop,
    LanguageMoreFacts.keys_accumulate.
  split; [reflexivity |].
  apply LanguageMoreFacts.firstSeen_step_NoDup. constructor.
Qed.

(** ** More on the repository scorers *)

Section RepoScoreBounds.

Local Open Scope R_scope.

Lemma log10_le (x y : R) : 1 <= x -> x <= y -> log10 x <= log10 y.
Proof.
  intros Hx Hxy. unfold log10, Rdiv.
  apply Rmult_le_compat_r.
  - left. apply Rinv_0_lt_compat, ln_10_pos.
  - destruct Hxy as [Hlt | ->]; [| lra].
    left. apply ln_increasing; lra.
Qed.

(** A capped logarithmic term lies between 0 and its cap. *)
Lemma capped_log_bounds (n : Z) (multiplier cap : R) :
  (1 <= n)%Z -> 0 <= multiplier -> 0 <= cap ->
  0 <= Rmin (log10 (IZR n) * multiplier) cap <= cap.
Proof.
  intros Hn Hm Hc.
  assert (0 <= log10 (IZR n)) by (apply log10_nonneg, IZR_le; exact Hn).
  split; [apply Rmin_glb; nra | apply Rmin_r].
Qed.

Lemma capped_linear_bounds (n : Z) (multiplier cap : R) :
  (0 <= n)%Z -> 0 <= multiplier -> 0 <= cap ->
  0 <= Rmin (IZR n * multiplier) cap <= cap.
Proof.
  intros Hn Hm Hc.
  assert (0 <= IZR n) by (apply IZR_le; exact Hn).
  split; [apply Rmin_glb; nra | apply Rmin_r].
Qed.

Lemma recencyScore_bounds (now : Z) (repo : Repo) :
  0 <= GithubService.recencyScore now repo <= 25.
Proof.
  unfold GithubService.recencyScore.
  set (d := Rmax 0 (IZR (now - pushed_at repo) / (1000 * 60 * 60 * 24))).
  assert (0 <= d) by apply Rmax_l.
  split; [apply Rmax_l |].
  apply Rmax_lub; lra.
Qed.

End RepoScoreBounds.

(** X6. Under the default configuration, the score scoringAlgorithms.ts
    gives to a repository whose star, fork and watcher counts are not
    negative lies between -20 and 120. *)
Theorem scoringAlgorithms_score_bounds (now : Z) (repo : Repo) :
  0 <= stargazers_count repo -> 0 <= forks_count repo ->
  0 <= watchers_count repo ->
  (-20 <= ScoringAlgorithms.calculateRepoScore
            ScoringAlgorithms.SCORING_CONFIG_repo now repo <= 120)%R.
Proof.
  intros Hs Hf Hw.
  unfold ScoringAlgorithms.calculateRepoScore, ScoringAlgorithms.starsScore,
    ScoringAlgorithms.forksScore.
  cbn [ScoringAlgorithms.stars_maxPoints ScoringAlgorithms.stars_logMultiplier
       ScoringAlgorithms.forks_maxPoints ScoringAlgorithms.forks_logMultiplier
       ScoringAlgorithms.recency_maxPoints ScoringAlgorithms.originalWork
       ScoringAlgorithms.hasDescription ScoringAlgorithms.hasTopics
       ScoringAlgorithms.hasLanguage ScoringAlgorithms.watchersMultiplier
       ScoringAlgorithms.watchersMax ScoringAlgorithms.archivedPenalty
       ScoringAlgorithms.sizeLogMultiplier ScoringAlgorithms.sizeMaxPoints
       ScoringAlgorithms.openIssuesLogMultiplier
       ScoringAlgorithms.openIssuesMaxPoints
       ScoringAlgorithms.createdIn2025Bonus
       ScoringAlgorithms.SCORING_CONFIG_repo].
  pose proof (capped_log_bounds (stargazers_count repo + 1) 12 35) as Hstars.
  pose proof (capped_log_bounds (forks_count repo + 1) 6 20) as Hforks.
  pose proof (capped_linear_bounds (watchers_count repo) (1 / 2) 5) as Hwatch.
  pose proof (capped_log_bounds (size repo) 3 15) as Hsize.
  pose proof (capped_log_bounds (open_issues_count repo + 1) 4 8) as Hissues.
  specialize (Hstars ltac:(lia) ltac:(lra) ltac:(lra)).
  specialize (Hforks ltac:(lia) ltac:(lra) ltac:(lra)).
  specialize (Hwatch ltac:(lia) ltac:(lra) ltac:(lra)).
  destruct (Rlt_dec 0 0) as [Habs | _]; [exfalso; lra |].
  destruct (Z.ltb_spec 0 (size repo)) as [Hsz | _];
    [specialize (Hsize ltac:(lia) ltac:(lra) ltac:(lra)) | clear Hsize];
    (destruct (Z.ltb_spec 0 (open_issues_count repo)) as [Hoi | _];
     [specialize (Hissues ltac:(lia) ltac:(lra) ltac:(lra)) | clear Hissues]);
    repeat match goal with
           | |- context [if ?c then _ else _] => destruct c
           end; lra.
Qed.

(** The bounds on a repository with 99 stars. *)
Lemma scoringAlgorithms_score_bounds_witness :
  0 <= stargazers_count popularRepo
  /\ (-20 <= ScoringAlgorithms.calculateRepoScore
               ScoringAlgorithms.SCORING_CONFIG_repo year2025Start
               popularRepo <= 120)%R.
Proof.
  assert (H : 0 <= stargazers_count popularRepo) by (cbn; lia).
  split; [exact H |].
  apply (scoringAlgorithms_score_bounds year2025Start popularRepo H);
    cbn; lia.
Defined.

(** X7. Under the default configuration, more stars never lower the score of
    scoringAlgorithms.ts: two records that differ in their star count only
    score in the order of their stars. *)
Theorem scoringAlgorithms_score_monotone_in_stars (now : Z) (repo : Repo)
  (fewer more : Z) :
  0 <= fewer <= more ->
  (ScoringAlgorithms.calculateRepoScore ScoringAlgorithms.SCORING_CONFIG_repo
     now (with_stars fewer repo)
   <= ScoringAlgorithms.calculateRepoScore
        ScoringAlgorithms.SCORING_CONFIG_repo now (with_stars more repo))%R.
Proof.
  intros Hstars.
  rewrite (stars_score_is_a_summand now (with_stars fewer repo)),
    (stars_score_is_a_summand now (with_stars more repo)).
  cbv zeta. unfold with_stars at 2 4.
  cbn [name description stargazers_count forks_count watchers_count size
       open_issues_count language topics fork archived created_at pushed_at
       html_url].
  apply Rplus_le_compat_r.
  unfold ScoringAlgorithms.starsScore, with_stars.
  cbn [stargazers_count ScoringAlgorithms.stars_logMultiplier
       ScoringAlgorithms.stars_maxPoints ScoringAlgorithms.SCORING_CONFIG_repo].
  apply Rle_min_compat_r.
  apply Rmult_le_compat_r; [lra |].
  apply log10_le; [apply IZR_le; lia | apply IZR_le; lia].
Qed.

(** The theorem on 9 and 99 stars. *)
Lemma scoringAlgorithms_score_monotone_in_stars_witness :
  0 <= 9 <= 99
  /\ (ScoringAlgorithms.calculateRepoScore
        ScoringAlgorithms.SCORING_CONFIG_repo year2025Start
        (with_stars 9 popularRepo)
      <= ScoringAlgorithms.calculateRepoScore
           ScoringAlgorithms.SCORING_CONFIG_repo year2025Start
           (with_stars 99 popularRepo))%R.
Proof.
  assert (H : 0 <= 9 <= 99) by lia.
  split; [exact H |].
  exact (scoringAlgorithms_score_monotone_in_stars year2025Start popularRepo
           9 99 H).
Defined.

(** X8. The score of githubService.ts's local scorer lies between -20 and
    103 when the star, fork and watcher counts are not negative, whatever
    the clock says. *)
Theorem githubService_score_bounds (now : Z) (repo : Repo) :
  0 <= stargazers_count repo -> 0 <= forks_count repo ->
  0 <= watchers_count repo ->
  (-20 <= GithubService.calculateRepoScore now repo <= 103)%R.
Proof.
  intros Hs Hf Hw.
  unfold GithubService.calculateRepoScore.
  pose proof (capped_log_bounds (stargazers_count repo + 1) 10 30) as Hstars.
  pose proof (capped_log_bounds (forks_count repo + 1) 5 15) as Hforks.
  pose proof (capped_linear_bounds (watchers_count repo) (1 / 2) 5) as Hwatch.
  pose proof (recencyScore_bounds now repo) as Hrecency.
  specialize (Hstars ltac:(lia) ltac:(lra) ltac:(lra)).
  specialize (Hforks ltac:(lia) ltac:(lra) ltac:(lra)).
  specialize (Hwatch ltac:(lia) ltac:(lra) ltac:(lra)).
  repeat match goal with
         | |- context [if ?c then _ else _] => destruct c
         end; lra.
Qed.

(** The bounds on the repository with 99 stars. *)
Lemma githubService_score_bounds_witness :
  0 <= stargazers_count popularRepo
  /\ (-20 <= GithubService.calculateRepoScore year2025Start popularRepo
      <= 103)%R.
Proof.
  assert (H : 0 <= stargazers_count popularRepo) by (cbn; lia).
  split; [exact H |].
  apply (githubService_score_bounds year2025Start popularRepo H); cbn; lia.
Defined.

(** X9. The score of githubService.ts's local scorer never rises as time
    passes, and 375 days after the last push the recency bonus is gone. *)
Theorem githubService_score_decays (now later : Z) (repo : Repo) :
  now <= later ->
  (GithubService.calculateRepoScore later repo
   <= GithubService.calculateRepoScore now repo)%R
  /\ (pushed_at repo + 375 * (1000 * 60 * 60 * 24) <= now ->
      GithubService.recencyScore now repo = 0%R).
Proof.
  intros Hlater.
  assert (Hmono : (GithubService.recencyScore later repo
                   <= GithubService.recencyScore now repo)%R).
  { unfold GithubService.recencyScore.
    apply Rle_max_compat_l.
    assert ((Rmax 0 (IZR (now - pushed_at repo) / (1000 * 60 * 60 * 24))
             <= Rmax 0 (IZR (later - pushed_at repo)
                        / (1000 * 60 * 60 * 24)))%R).
    { apply Rle_max_compat_l.
      assert ((IZR (now - pushed_at repo) <= IZR (later - pushed_at repo))%R)
        by (apply IZR_le; lia).
      lra. }
    lra. }
  split.
  - unfold GithubService.calculateRepoScore.
    repeat match goal with
           | |- context [if ?c then _ else _] => destruct c
           end; lra.
  - intros Hold. unfold GithubService.recencyScore.
    assert (Hdays : (375 <= IZR (now - pushed_at repo)
                           / (1000 * 60 * 60 * 24))%R).
    { assert ((IZR (375 * (1000 * 60 * 60 * 24))
               <= IZR (now - pushed_at repo))%R) by (apply IZR_le; lia).
      rewrite mult_IZR in H. rewrite !mult_IZR in H. lra. }
    rewrite (Rmax_right 0 (IZR (now - pushed_at repo) / _)) by lra.
    apply Rmax_left. lra.
Qed.

(** The theorem fifteen days apart. *)
Lemma githubService_score_decays_witness :
  year2025Start <= year2025Start + fifteenDays
  /\ (GithubService.calculateRepoScore (year2025Start + fifteenDays)
        pushedOnNewYear
      <= GithubService.calculateRepoScore year2025Start pushedOnNewYear)%R.
Proof.
  assert (H : year2025Start <= year2025Start + fifteenDays)
    by (vm_compute; discriminate).
  split; [exact H |].
  exact (proj1 (githubService_score_decays year2025Start
                  (year2025Start + fifteenDays) pushedOnNewYear H)).
Defined.

(** ** More on the two classifiers *)

Lemma percentage_gt_20_of_ratio (part total : Z) :
  Js.Qgtb (GithubService.ratio part total) (20 # 100) = true ->
  Js.Qgtb (ScoringAlgorithms.percentage part total) 20 = true.
Proof.
  unfold Js.Qgtb, GithubService.ratio, ScoringAlgorithms.percentage.
  destruct (0 <? total); [| discriminate].
  set (x := (inject_Z part / inject_Z total)%Q).
  rewrite !negb_true_iff, <- !not_true_iff_false, !Qle_bool_iff.
  intros Hnot Hle. apply Hnot.
  destruct x as [p q]. unfold Qle in *. cbn in *. lia.
Qed.

Lemma percentage_gt_10_of_ratio (part total : Z) :
  Js.Qgtb (GithubService.ratio part total) (10 # 100) = true ->
  Js.Qgtb (ScoringAlgorithms.percentage part total) 10 = true.
Proof.
  unfold Js.Qgtb, GithubService.ratio, ScoringAlgorithms.percentage.
  destruct (0 <? total); [| discriminate].
  set (x := (inject_Z part / inject_Z total)%Q).
  rewrite !negb_true_iff, <- !not_true_iff_false, !Qle_bool_iff.
  intros Hnot Hle. apply Hnot.
  destruct x as [p q]. unfold Qle in *. cbn in *. lia.
Qed.

Ltac pick_label :=
  first [ exists Spec.PullRequestPro; reflexivity
        | exists Spec.Reviewer; reflexivity
        | exists Spec.WeekendWarrior; reflexivity
        | exists Spec.NightOwl; reflexivity
        | exists Spec.EarlyBird; reflexivity
        | exists Spec.GridPainter; reflexivity
        | exists Spec.Consistent; reflexivity
        | exists Spec.Planner; reflexivity
        | exists Spec.CommunityStar; reflexivity
        | exists Spec.Tinkerer; reflexivity ].

(** X10. Both classifiers are total over the closed set of labels: whatever
    the input, each returns the string of one of the ten archetypes. *)
Theorem archetype_is_one_of_ten
  (stats : ContributionBreakdown) (community : CommunityStats)
  (totalCommits : Z) (productivity : ProductivityData) (weekdayStats : list Z) :
  (exists a,
     GithubService.calculateArchetype stats community totalCommits
       productivity weekdayStats = Spec.label a)
  /\ (exists a,
        ScoringAlgorithms.calculateArchetype stats community totalCommits
          (peakHour productivity) weekdayStats = Spec.label a).
Proof.
  split.
  - unfold GithubService.calculateArchetype.
    repeat match goal with
           | |- context [if ?c then _ else _] => destruct c; [pick_label |]
           end.
    pick_label.
  - unfold ScoringAlgorithms.calculateArchetype.
    repeat match goal with
           | |- context [if ?c then _ else _] => destruct c; [pick_label |]
           end.
    pick_label.
Qed.

(** X11. githubService.ts's classifier is the stricter of the two on the
    first two rules: when it answers The Pull Request Pro, so does the
    classifier of scoringAlgorithms.ts, and when it answers The Reviewer
    the other answers The Pull Request Pro or The Reviewer, whatever peak
    hour and histogram the latter is given. *)
Theorem classifiers_agree_on_heavy_contributors
  (stats : ContributionBreakdown) (community : CommunityStats)
  (totalCommits : Z) (productivity : ProductivityData)
  (weekdayStats weekdayStats' : list Z) (peakHour : Z) :
  let gs := GithubService.calculateArchetype stats community totalCommits
              productivity weekdayStats in
  let sa := ScoringAlgorithms.calculateArchetype stats community totalCommits
              peakHour weekdayStats' in
  (gs = Spec.label Spec.PullRequestPro -> sa = Spec.label Spec.PullRequestPro)
  /\ (gs = Spec.label Spec.Reviewer ->
      sa = Spec.label Spec.PullRequestPro \/ sa = Spec.label Spec.Reviewer).
Proof.
  intros gs sa. subst gs sa.
  unfold GithubService.calculateArchetype,
    ScoringAlgorithms.calculateArchetype.
  cbn [Spec.label].
  set (total := commits stats + prs stats + issues stats + reviews stats).
  pose proof (percentage_gt_20_of_ratio (prs stats) total) as Hpr.
  pose proof (percentage_gt_10_of_ratio (reviews stats) total) as Hrev.
  destruct (Js.Qgtb (GithubService.ratio (prs stats) total) _) eqn:Hgpr;
    cbn [andb].
  - rewrite (Hpr eq_refl). split; [reflexivity | left; reflexivity].
  - destruct (Js.Qgtb (GithubService.ratio (reviews stats) total) _)
      eqn:Hgrev; cbn [andb].
    + rewrite (Hrev eq_refl).
      destruct (10 <? reviews stats).
      * split; [discriminate |]. intros _.
        destruct (Js.Qgtb (ScoringAlgorithms.percentage _ _) 20);
          [left | right]; reflexivity.
      * split;
          repeat match goal with
                 | |- (if ?c then _ else _) = _ -> _ => destruct c
                 end; discriminate.
    + split;
        repeat match goal with
               | |- (if ?c then _ else _) = _ -> _ => destruct c
               end; discriminate.
Qed.

(** The theorem on thirty pull requests out of forty contributions. *)
Lemma classifiers_agree_on_heavy_contributors_witness :
  let stats := mkBreakdown 10 30 0 0 in
  let community := mkCommunity 0 0 0 0 in
  GithubService.calculateArchetype stats community 10
    (mkProductivity "Afternoon" 14) [0; 0; 0; 0; 0; 0; 0]
  = Spec.label Spec.PullRequestPro
  /\ ScoringAlgorithms.calculateArchetype stats community 10 3 []
     = Spec.label Spec.PullRequestPro.
Proof.
  intros stats community.
  assert (H : GithubService.calculateArchetype stats community 10
                (mkProductivity "Afternoon" 14) [0; 0; 0; 0; 0; 0; 0]
              = Spec.label Spec.PullRequestPro) by reflexivity.
  split; [exact H |].
  exact (proj1 (classifiers_agree_on_heavy_contributors stats community 10
                  (mkProductivity "Afternoon" 14) [0; 0; 0; 0; 0; 0; 0] []
                  3) H).
Defined.

(** X12. githubService.ts's classifier keeps its volume labels for accounts
    with more than fifty commits: with fifty commits or fewer the label is
    The Pull Request Pro, The Reviewer, The Planner, The Community Star or
    The Tinkerer. *)
Theorem githubService_low_volume_labels
  (stats : ContributionBreakdown) (community : CommunityStats)
  (totalCommits : Z) (productivity : ProductivityData) (weekdayStats : list Z) :
  totalCommits <= 50 ->
  In (GithubService.calculateArchetype stats community totalCommits
        productivity weekdayStats)
     (map Spec.label
        [Spec.PullRequestPro; Spec.Reviewer; Spec.Planner;
         Spec.CommunityStar; Spec.Tinkerer]).
Proof.
  intros Htc. unfold GithubService.calculateArchetype.
  rewrite (ltb_false_of_le 50 totalCommits) by exact Htc.
  rewrite (ltb_false_of_le 1200 totalCommits) by lia.
  rewrite (ltb_false_of_le 400 totalCommits) by lia.
  rewrite !andb_false_r. cbn [map Spec.label In].
  repeat match goal with
         | |- context [if ?c then _ else _] => destruct c
         end; tauto.
Qed.

(** The theorem on an idle account. *)
Lemma githubService_low_volume_labels_witness :
  0 <= 50
  /\ In (GithubService.calculateArchetype (mkBreakdown 0 0 0 0)
           (mkCommunity 0 0 0 0) 0 (mkProductivity "Late Night" 23)
           [0; 0; 0; 0; 0; 0; 0])
        (map Spec.label
           [Spec.PullRequestPro; Spec.Reviewer; Spec.Planner;
            Spec.CommunityStar; Spec.Tinkerer]).
Proof.
  assert (H : 0 <= 50) by lia.
  split; [exact H |].
  exact (githubService_low_volume_labels (mkBreakdown 0 0 0 0)
           (mkCommunity 0 0 0 0) 0 (mkProductivity "Late Night" 23)
           [0; 0; 0; 0; 0; 0; 0] H).
Defined.

(** ** Peak hour *)

Module PeakFacts.

(** Two first maxima of the same entries are the same entry. *)
Lemma firstMax_unique {K} (entries : list (K * Z)) (e e' : K * Z) :
  firstMax entries e -> firstMax entries e' -> e = e'.
Proof.
  intros (pre & post & -> & Hpre & Hpost) (pre' & post' & Heq & Hpre' & Hpost').
  revert pre' Heq Hpre'. induction pre as [| x pre IH]; intros pre' Heq Hpre'.
  - destruct pre' as [| x' pre']; cbn in Heq.
    + injection Heq as He _. exact He.
    + injection Heq as He Heq. subst x'.
      assert (In e' post) by (rewrite Heq; apply in_elt).
      specialize (Hpost e' H). specialize (Hpre' e (or_introl eq_refl)). lia.
  - destruct pre' as [| x' pre']; cbn in Heq.
    + injection Heq as He Heq. subst x.
      assert (In e post') by (rewrite <- Heq; apply in_elt).
      specialize (Hpost' e H). specialize (Hpre e' (or_introl eq_refl)). lia.
    + injection Heq as He Heq. subst x'.
      apply (IH (fun d Hd => Hpre d (or_intror Hd)) pre' Heq).
      intros d Hd. apply Hpre'. right. exact Hd.
Qed.

Lemma byCountDesc_total {K} (a b : K * Z) :
  GithubService.byCountDesc a b = true \/ GithubService.byCountDesc b a = true.
Proof. unfold GithubService.byCountDesc. rewrite !Z.leb_le. lia. Qed.

Lemma byCountDesc_trans {K} (a b c : K * Z) :
  GithubService.byCountDesc a b = true ->
  GithubService.byCountDesc b c = true ->
  GithubService.byCountDesc a c = true.
Proof. unfold GithubService.byCountDesc. rewrite !Z.leb_le. lia. Qed.

(** The head of the array sorted by descending count is the first
    maximum. *)
Lemma sorted_head_firstMax {K} (entries : list (K * Z)) (h : K * Z)
  (t : list (K * Z)) :
  Js.sort GithubService.byCountDesc entries = h :: t -> firstMax entries h.
Proof.
  intros Hsort.
  destruct (sort_head GithubService.byCountDesc byCountDesc_total
              byCountDesc_trans entries h t Hsort)
    as (pre & post & -> & Hpre & Hpost).
  exists pre, post. split; [reflexivity |]. split.
  - intros d Hd. specialize (Hpre d Hd).
    unfold GithubService.byCountDesc in Hpre. apply Z.leb_gt in Hpre.
    exact Hpre.
  - intros d Hd. specialize (Hpost d Hd).
    unfold GithubService.byCountDesc in Hpost. apply Z.leb_le in Hpost.
    exact Hpost.
Qed.

Lemma loop_inv (entries : list (Z * Z)) :
  (productivityLoop entries = (14, 0) /\ forall e, In e entries -> snd e <= 0)
  \/ (firstMax entries (productivityLoop entries)
      /\ 0 < snd (productivityLoop entries)).
Proof.
  induction entries as [| [hour count] entries IH] using rev_ind.
  - left. split; [reflexivity | intros e []].
  - unfold productivityLoop in *. rewrite fold_left_app. cbn [fold_left].
    destruct (fold_left _ entries (14, 0)) as [peak mx] eqn:Hloop.
    destruct (Z.ltb_spec mx count) as [Hlt | Hge].
    + right.
      destruct IH as [[[= -> ->] Hall]
                     | [(pre & post & -> & Hpre & Hpost) Hpos]];
        cbn [snd] in *.
      * split; [| lia]. exists entries, []. split; [reflexivity |].
        split; [| intros d []]. intros d Hd. specialize (Hall d Hd).
        cbn [snd]. lia.
      * split; [| lia]. exists (pre ++ (peak, mx) :: post), [].
        split; [reflexivity |]. split; [| intros d []].
        intros d Hd. cbn [snd]. apply in_app_or in Hd.
        destruct Hd as [Hd | [<- | Hd]].
        -- specialize (Hpre d Hd). cbn [snd] in Hpre. lia.
        -- cbn [snd]. lia.
        -- specialize (Hpost d Hd). cbn [snd] in Hpost. lia.
    + destruct IH as [[[= -> ->] Hall]
                     | [(pre & post & -> & Hpre & Hpost) Hpos]].
      * left. split; [reflexivity |]. intros e He.
        apply in_app_or in He. destruct He as [He | [<- | []]].
        -- apply Hall, He.
        -- cbn [snd]. lia.
      * right. split; [| exact Hpos].
        exists pre, (post ++ [(hour, count)]). split.
        -- rewrite <- app_assoc. reflexivity.
        -- split; [exact Hpre |]. intros d Hd. apply in_app_or in Hd.
           destruct Hd as [Hd | [<- | []]].
           ++ apply Hpost, Hd.
           ++ cbn [snd] in *. lia.
Qed.

Lemma calculateProductivity_loop (entries : list (Z * Z)) :
  ScoringAlgorithms.calculateProductivity entries
  = mkProductivity (ScoringAlgorithms.bucketOf (fst (productivityLoop entries)))
                   (fst (productivityLoop entries)).
Proof.
  unfold ScoringAlgorithms.calculateProductivity, productivityLoop.
  destruct (fold_left _ entries (14, 0)) as [peak mx]. reflexivity.
Qed.

End PeakFacts.

(** X13. [calculateProductivity] reports the hour of the first entry with
    the greatest count when some count is positive, with the bucket of that
    hour; when no count is positive it reports hour 14, Afternoon. *)
Theorem calculateProductivity_first_peak (hourCounts : list (Z * Z)) :
  let p := ScoringAlgorithms.calculateProductivity hourCounts in
  ((forall e, In e hourCounts -> snd e <= 0) ->
   p = mkProductivity "Afternoon" 14)
  /\ ((exists e, In e hourCounts /\ 0 < snd e) ->
      exists e,
        firstMax hourCounts e /\ 0 < snd e
        /\ peakHour p = fst e
        /\ timeOfDay p = ScoringAlgorithms.bucketOf (fst e)).
Proof.
  intros p. subst p. rewrite PeakFacts.calculateProductivity_loop.
  destruct (PeakFacts.loop_inv hourCounts)
    as [[Hloop Hall] | [Hmax Hpos]].
  - rewrite Hloop. split; [reflexivity |].
    intros (e & Hin & He). specialize (Hall e Hin). lia.
  - split.
    + intros Hall. destruct Hmax as (pre & post & Heq & _).
      assert (Hin : In (productivityLoop hourCounts) hourCounts)
        by (rewrite Heq at 2; apply in_elt).
      specialize (Hall _ Hin). lia.
    + intros _. exists (productivityLoop hourCounts).
      repeat split; assumption.
Qed.

(** The theorem on a histogram with a tie between hours 9 and 21. *)
Lemma calculateProductivity_first_peak_witness :
  let hourCounts := [(3, 1); (9, 4); (21, 4)] in
  (exists e, In e hourCounts /\ 0 < snd e)
  /\ exists e,
       firstMax hourCounts e
       /\ peakHour (ScoringAlgorithms.calculateProductivity hourCounts)
          = fst e.
Proof.
  intros hourCounts.
  assert (H : exists e, In e hourCounts /\ 0 < snd e).
  { exists (3, 1). split; [left; reflexivity | reflexivity]. }
  split; [exact H |].
  destruct (proj2 (calculateProductivity_first_peak hourCounts) H)
    as (e & Hmax & _ & Hpeak & _).
  exists e. split; assumption.
Defined.

(** X14. On a histogram whose counts are all positive, the two files find
    the same peak hour, the loop of [calculateProductivity] and the sort of
    [fetchUserStory]; their buckets agree unless that hour is 21. *)
Theorem peak_hour_same_in_both_files (hourCounts : list (Z * Z)) :
  (forall e, In e hourCounts -> 0 < snd e) ->
  let sa := ScoringAlgorithms.calculateProductivity hourCounts in
  let gs := GithubService.productivityOf hourCounts in
  peakHour sa = peakHour gs
  /\ (peakHour gs <> 21 -> timeOfDay sa = timeOfDay gs).
Proof.
  intros Hpos sa gs. subst sa gs.
  assert (Hpeak : peakHour (ScoringAlgorithms.calculateProductivity hourCounts)
                  = GithubService.peakHourOf hourCounts).
  { rewrite PeakFacts.calculateProductivity_loop. cbn [peakHour].
    unfold GithubService.peakHourOf, GithubService.sortedHours.
    destruct (Js.sort GithubService.byCountDesc hourCounts) as [| h t] eqn:Hs.
    - assert (hourCounts = []) as ->.
      { apply Permutation_nil. rewrite <- Hs.
        apply Permutation_sym, sort_perm. }
      reflexivity.
    - pose proof (PeakFacts.sorted_head_firstMax _ _ _ Hs) as Hgs.
      destruct (PeakFacts.loop_inv hourCounts) as [[_ Hall] | [Hsa _]].
      + destruct Hgs as (pre & post & Heq & _).
        assert (Hin : In h hourCounts) by (rewrite Heq; apply in_elt).
        specialize (Hall h Hin). specialize (Hpos h Hin). lia.
      + rewrite (PeakFacts.firstMax_unique _ _ _ Hsa Hgs).
        destruct h. reflexivity. }
  split; [exact Hpeak |].
  rewrite PeakFacts.calculateProductivity_loop in *.
  cbn [peakHour timeOfDay GithubService.productivityOf] in *.
  intros Hne. rewrite Hpeak. apply bucketOf_differs_only_at_21. exact Hne.
Qed.

(** The theorem on the histogram with a tie. *)
Lemma peak_hour_same_in_both_files_witness :
  let hourCounts := [(3, 1); (9, 4); (21, 4)] in
  (forall e, In e hourCounts -> 0 < snd e)
  /\ peakHour (ScoringAlgorithms.calculateProductivity hourCounts)
     = peakHour (GithubService.productivityOf hourCounts).
Proof.
  intros hourCounts.
  assert (H : forall e, In e hourCounts -> 0 < snd e).
  { intros e [<- | [<- | [<- | []]]]; reflexivity. }
  split; [exact H |].
  exact (proj1 (peak_hour_same_in_both_files hourCounts H)).
Defined.

(** ** The hour histogram *)

Module HourFacts.
Import GithubService.

Lemma countHour_keys (m : list (Z * Z)) (h k : Z) :
  In k (map fst (countHour m h)) -> k = h \/ In k (map fst m).
Proof.
  induction m as [| [h' n] m IH]; cbn.
  - intros [<- | []]. left. reflexivity.
  - destruct (Z.eqb_spec h' h) as [-> | Hne]; cbn.
    + intros [<- | Hin]; [left; reflexivity | right; right; exact Hin].
    + destruct (h <? h'); cbn.
      * intros [<- | [<- | Hin]]; auto.
      * intros [<- | Hin]; [right; left; reflexivity |].
        destruct (IH Hin); auto.
Qed.

Lemma countHour_ascending (m : list (Z * Z)) (h : Z) :
  keysAscending m -> keysAscending (countHour m h).
Proof.
  unfold keysAscending. induction m as [| [h' n] m IH]; cbn; intros Hs.
  - repeat constructor.
  - inversion Hs as [| ? ? Hm Hall]; subst.
    destruct (Z.eqb_spec h' h) as [-> | Hne]; cbn; [exact Hs |].
    destruct (Z.ltb_spec h h') as [Hlt | Hge]; cbn.
    + constructor; [exact Hs |]. constructor; [exact Hlt |].
      eapply Forall_impl; [| exact Hall]. intros k Hk. lia.
    + constructor; [apply IH, Hm |].
      rewrite Forall_forall in *. intros k Hk.
      destruct (countHour_keys _ _ _ Hk) as [-> | Hin]; [lia |].
      apply Hall, Hin.
Qed.

Lemma hourCount_absent (m : list (Z * Z)) (h : Z) :
  ~ In h (map fst m) -> hourCount m h = 0.
Proof.
  induction m as [| [h' n] m IH]; cbn; intros Hnot; [reflexivity |].
  destruct (Z.eqb_spec h' h) as [-> | Hne]; [tauto |].
  apply IH. tauto.
Qed.

Lemma countHour_count (m : list (Z * Z)) (h k : Z) :
  keysAscending m ->
  hourCount (countHour m h) k = hourCount m k + (if k =? h then 1 else 0).
Proof.
  unfold keysAscending. induction m as [| [h' n] m IH]; cbn; intros Hs.
  - rewrite (Z.eqb_sym h k). destruct (k =? h); reflexivity.
  - inversion Hs as [| ? ? Hm Hall]; subst.
    destruct (Z.eqb_spec h' h) as [-> | Hne]; cbn.
    + rewrite (Z.eqb_sym h k). destruct (Z.eqb_spec k h); lia.
    + destruct (Z.ltb_spec h h') as [Hlt | Hge]; cbn.
      * rewrite (Z.eqb_sym h k).
        destruct (Z.eqb_spec k h) as [E | Hkh].
        -- subst k. destruct (Z.eqb_spec h' h); [lia |].
           rewrite hourCount_absent; [lia |].
           rewrite Forall_forall in Hall. intros Hin.
           specialize (Hall h Hin). lia.
        -- lia.
      * destruct (Z.eqb_spec h' k) as [E | Hk].
        -- destruct (Z.eqb_spec k h); lia.
        -- apply IH, Hm.
Qed.

Lemma countHour_positive (m : list (Z * Z)) (h : Z) :
  Forall (fun e => 0 < snd e) m -> Forall (fun e => 0 < snd e) (countHour m h).
Proof.
  induction m as [| [h' n] m IH]; cbn; intros Hall.
  - repeat constructor.
  - inversion Hall as [| ? ? Hn Hm]; subst. cbn [snd] in Hn.
    destruct (h' =? h); [constructor; [cbn; lia | exact Hm] |].
    destruct (h <? h').
    + constructor; [reflexivity | exact Hall].
    + constructor; [exact Hn | apply IH, Hm].
Qed.

Lemma occurrences_snoc (events : list Z) (x k : Z) :
  occurrences (events ++ [x]) k
  = occurrences events k + (if k =? x then 1 else 0).
Proof.
  unfold occurrences. rewrite count_occ_app. cbn [count_occ].
  destruct (Z.eq_dec x k) as [-> | Hne].
  - rewrite Z.eqb_refl. lia.
  - rewrite (proj2 (Z.eqb_neq k x)) by congruence. lia.
Qed.

Lemma hourCountsOf_snoc (events : list Z) (x : Z) :
  hourCountsOf (events ++ [x]) = countHour (hourCountsOf events) x.
Proof. unfold hourCountsOf. rewrite fold_left_app. reflexivity. Qed.

Lemma hourCountsOf_inv (events : list Z) :
  keysAscending (hourCountsOf events)
  /\ Forall (fun e => 0 < snd e) (hourCountsOf events)
  /\ forall h, hourCount (hourCountsOf events) h = occurrences events h.
Proof.
  induction events as [| x events (Hs & Hpos & Hcount)] using rev_ind.
  - repeat split; constructor.
  - rewrite hourCountsOf_snoc. split; [| split].
    + apply countHour_ascending, Hs.
    + apply countHour_positive, Hpos.
    + intros h. rewrite countHour_count, occurrences_snoc, Hcount by exact Hs.
      reflexivity.
Qed.

(** With ascending keys, an entry is what the lookup of its key gives. *)
Lemma entry_count (m : list (Z * Z)) (h n : Z) :
  keysAscending m -> In (h, n) m -> hourCount m h = n.
Proof.
  unfold keysAscending. induction m as [| [h' n'] m IH]; cbn;
    intros Hs Hin; [destruct Hin |].
  inversion Hs as [| ? ? Hm Hall]; subst.
  destruct Hin as [[= -> ->] | Hin].
  - rewrite Z.eqb_refl. reflexivity.
  - destruct (Z.eqb_spec h' h) as [-> | Hne]; [| apply IH; assumption].
    rewrite Forall_forall in Hall.
    assert (Hk : In h (map fst m)) by (apply (in_map fst _ _ Hin)).
    specialize (Hall h Hk). lia.
Qed.

Lemma count_entry (m : list (Z * Z)) (h : Z) :
  hourCount m h <> 0 -> In (h, hourCount m h) m.
Proof.
  induction m as [| [h' n] m IH]; cbn; intros Hne; [lia |].
  destruct (Z.eqb_spec h' h) as [-> | Hh]; [left; reflexivity |].
  right. apply IH, Hne.
Qed.

Lemma hourCountsOf_entries (eventHours : list Z) :
  keysAscending (hourCountsOf eventHours)
  /\ forall h n,
       In (h, n) (hourCountsOf eventHours)
       <-> 0 < n /\ n = occurrences eventHours h.
Proof.
  destruct (hourCountsOf_inv eventHours) as (Hs & Hpos & Hcount).
  split; [exact Hs |]. intros h n. split.
  - intros Hin. split.
    + rewrite Forall_forall in Hpos. exact (Hpos _ Hin).
    + rewrite <- Hcount. symmetry. apply entry_count; assumption.
  - intros [Hn ->]. rewrite <- Hcount in *.
    apply count_entry. lia.
Qed.

End HourFacts.

(** X15. The hour histogram built from the events lists the hours that
    occur, in ascending order, each with the number of events in that
    hour. *)
Theorem hourCounts_counts_events (eventHours : list Z) :
  validHours eventHours ->
  StronglySorted Z.lt (map fst (GithubService.hourCountsOf eventHours))
  /\ forall h n,
       In (h, n) (GithubService.hourCountsOf eventHours)
       <-> 0 < n /\ n = occurrences eventHours h.
Proof. intros _. apply HourFacts.hourCountsOf_entries. Qed.

(** The theorem on six events: hour 9 is listed with its three events. *)
Lemma hourCounts_counts_events_witness :
  let eventHours := [14; 9; 14; 9; 9; 14] in
  validHours eventHours
  /\ In (9, 3) (GithubService.hourCountsOf eventHours).
Proof.
  intros eventHours.
  assert (H : validHours eventHours) by (repeat constructor; lia).
  split; [exact H |].
  apply (proj2 (hourCounts_counts_events eventHours H)).
  split; reflexivity.
Defined.

(** X16. The peak hour [fetchUserStory] derives from the events is 14 when
    there is no event; otherwise it is an hour of some event, no hour has
    more events, and it is the lowest of the hours with as many. *)
Theorem peak_hour_is_lowest_busiest_hour (eventHours : list Z) :
  validHours eventHours ->
  let peak :=
    GithubService.peakHourOf (GithubService.hourCountsOf eventHours) in
  (eventHours = [] -> peak = 14)
  /\ (eventHours <> [] ->
      In peak eventHours
      /\ forall h,
           occurrences eventHours h <= occurrences eventHours peak
           /\ (In h eventHours ->
               occurrences eventHours h = occurrences eventHours peak ->
               peak <= h)).
Proof.
  intros _ peak. subst peak. split; [intros ->; reflexivity |].
  intros Hne.
  destruct (HourFacts.hourCountsOf_entries eventHours) as [Hs Hentries].
  unfold keysAscending in Hs.
  assert (Hocc : forall h, In h eventHours <-> 0 < occurrences eventHours h).
  { intros h. unfold occurrences.
    rewrite (count_occ_In Z.eq_dec). lia. }
  unfold GithubService.peakHourOf, GithubService.sortedHours.
  destruct (Js.sort GithubService.byCountDesc
                    (GithubService.hourCountsOf eventHours))
    as [| [p n] t] eqn:Hsort.
  - exfalso. destruct eventHours as [| x l]; [congruence |].
    assert (Hx : In (x, occurrences (x :: l) x)
                    (GithubService.hourCountsOf (x :: l))).
    { apply Hentries. split; [| reflexivity].
      apply Hocc. left. reflexivity. }
    assert (GithubService.hourCountsOf (x :: l) = []) as Hnil.
    { apply Permutation_nil. rewrite <- Hsort.
      apply Permutation_sym, sort_perm. }
    rewrite Hnil in Hx. destruct Hx.
  - destruct (PeakFacts.sorted_head_firstMax _ _ _ Hsort)
      as (pre & post & Heq & Hpre & Hpost).
    assert (Hp : In (p, n) (GithubService.hourCountsOf eventHours))
      by (rewrite Heq; apply in_elt).
    apply Hentries in Hp. destruct Hp as [Hn ->].
    split; [apply Hocc, Hn |].
    intros h.
    assert (Hcase : In h eventHours ->
                    occurrences eventHours h <= occurrences eventHours p
                    /\ (occurrences eventHours h = occurrences eventHours p ->
                        p <= h)).
    { intros Hin.
      assert (Hh : In (h, occurrences eventHours h)
                      (GithubService.hourCountsOf eventHours)).
      { apply Hentries. split; [apply Hocc, Hin | reflexivity]. }
      rewrite Heq in Hh, Hs. rewrite map_app in Hs. cbn [map fst] in Hs.
      apply in_app_or in Hh. destruct Hh as [Hh | [[= <-] | Hh]].
      - specialize (Hpre _ Hh). cbn [snd] in Hpre. split; lia.
      - split; lia.
      - specialize (Hpost _ Hh). cbn [snd] in Hpost. split; [lia |].
        intros _.
        destruct (StronglySorted_app_inv _ _ _ Hs) as (_ & Htail & _).
        inversion Htail as [| ? ? _ Hall]; subst.
        rewrite Forall_forall in Hall.
        specialize (Hall h (in_map fst _ _ Hh)). lia. }
    split.
    + destruct (in_dec Z.eq_dec h eventHours) as [Hin | Hout].
      * apply Hcase, Hin.
      * assert (occurrences eventHours h = 0).
        { unfold occurrences.
          rewrite (proj1 (count_occ_not_In Z.eq_dec eventHours h) Hout).
          reflexivity. }
        lia.
    + intros Hin. apply Hcase, Hin.
Qed.

(** The theorem on six events, three at 14 h and three at 9 h: the peak is
    an hour of the events. *)
Lemma peak_hour_is_lowest_busiest_hour_witness :
  let eventHours := [14; 9; 14; 9; 9; 14] in
  validHours eventHours /\ eventHours <> []
  /\ In (GithubService.peakHourOf (GithubService.hourCountsOf eventHours))
        eventHours.
Proof.
  intros eventHours.
  assert (Hv : validHours eventHours) by (repeat constructor; lia).
  assert (H : eventHours <> []) by discriminate.
  split; [exact Hv |]. split; [exact H |].
  exact (proj1 (proj2 (peak_hour_is_lowest_busiest_hour eventHours Hv) H)).
Defined.

(** ** More on the yearly aggregation *)

Module AggregateFacts.
Import GithubService.

Lemma fold_add (l : list Z) (a : Z) : fold_left Z.add l a = a + total l.
Proof.
  unfold total. revert a.
  induction l as [| x l IH]; intros a; cbn [fold_left fold_right]; [lia |].
  rewrite IH. lia.
Qed.

Lemma sum_total (l : list Z) : Js.sum l = total l.
Proof. unfold Js.sum. rewrite fold_add. lia. Qed.

Lemma total_app (l1 l2 : list Z) : total (l1 ++ l2) = total l1 + total l2.
Proof.
  unfold total.
  induction l1 as [| x l1 IH]; cbn [app fold_right]; [reflexivity |].
  rewrite IH. lia.
Qed.

Lemma total_one (x : Z) : total [x] = x.
Proof. unfold total. cbn. lia. Qed.

Lemma total_perm (l1 l2 : list Z) :
  Permutation l1 l2 -> total l1 = total l2.
Proof. unfold total. induction 1; cbn [fold_right]; lia. Qed.

Lemma addAt_length (arr : list Z) (i : nat) (c : Z) :
  List.length (addAt arr i c) = List.length arr.
Proof.
  revert i. induction arr as [| x arr IH]; intros [| i]; cbn; auto.
Qed.

Lemma addAt_total (arr : list Z) (i : nat) (c : Z) :
  (i < List.length arr)%nat -> total (addAt arr i c) = total arr + c.
Proof.
  unfold total.
  revert i. induction arr as [| x arr IH]; intros [| i];
    cbn [addAt fold_right List.length]; intros Hi; try lia.
  rewrite IH by lia. lia.
Qed.

Lemma getDay_lt_7 (tz t : Z) : (getDay tz t < 7)%nat.
Proof.
  unfold getDay.
  pose proof (Z.mod_pos_bound ((t + tz) / 86400000 + 4) 7 ltac:(lia)). lia.
Qed.

(** The loop over any days, in the order given. *)
Lemma loop_totals (tz : Z) (days : list Day) :
  let st := fold_left (aggregateDay tz) days initialAggregate in
  totalCommits st = total (map count days)
  /\ velocityData st = map (fun d => (date d, count d)) days
  /\ List.length (weekdayStats st) = 7%nat
  /\ total (weekdayStats st) = total (map (fun d => Z.max 0 (count d)) days)
  /\ 0 <= currentStreak st <= maxStreak st
  /\ maxStreak st <= Z.of_nat (List.length days).
Proof.
  induction days as [| d days IH] using rev_ind.
  - cbn. repeat split; lia.
  - cbn zeta in *. rewrite fold_left_app, !map_app, !total_app, length_app.
    cbn [fold_left map List.length]. rewrite !total_one.
    set (st := fold_left (aggregateDay tz) days initialAggregate) in *.
    destruct IH as (Htot & Hvel & Hlen & Hweek & Hcur & Hmax).
    unfold aggregateDay.
    destruct (Z.ltb_spec 0 (count d)) as [Hpos | Hidle];
      cbn [totalCommits velocityData weekdayStats currentStreak maxStreak].
    + rewrite addAt_length, addAt_total
        by (rewrite Hlen; apply getDay_lt_7).
      rewrite Hvel.
      destruct (Z.ltb_spec (maxStreak st) (currentStreak st + 1));
        repeat split; lia.
    + rewrite Hvel. repeat split; lia.
Qed.

(** Two date-sorted arrangements of the same days, no two of which share a
    date, are the same list. *)
Lemma sorted_perm_unique (l1 l2 : list Day) :
  StronglySorted dateLe l1 -> StronglySorted dateLe l2 ->
  Permutation l1 l2 -> NoDup (map date l1) -> l1 = l2.
Proof.
  revert l2. induction l1 as [| a l1 IH]; intros l2 Hs1 Hs2 Hperm Hnd.
  - apply Permutation_nil in Hperm. subst. reflexivity.
  - destruct l2 as [| b l2].
    + apply Permutation_sym, Permutation_nil in Hperm. discriminate.
    + inversion Hs1 as [| ? ? Hs1' Ha]; subst.
      inversion Hs2 as [| ? ? Hs2' Hb]; subst.
      inversion Hnd as [| ? ? Hnotin Hnd']; subst.
      rewrite Forall_forall in Ha, Hb.
      assert (Hab : a = b).
      { assert (Hina : In a (b :: l2))
          by (apply (Permutation_in _ Hperm); left; reflexivity).
        assert (Hinb : In b (a :: l1))
          by (apply (Permutation_in _ (Permutation_sym Hperm)); left;
              reflexivity).
        destruct Hina as [-> | Hina]; [reflexivity |].
        destruct Hinb as [-> | Hinb]; [reflexivity |].
        specialize (Ha b Hinb). specialize (Hb a Hina).
        unfold dateLe in *. exfalso. apply Hnotin.
        replace (date a) with (date b) by lia.
        apply in_map, Hinb. }
      subst b. f_equal.
      apply IH; try assumption.
      apply Permutation_cons_inv in Hperm. exact Hperm.
Qed.

Lemma dateLe_trans (a b c : Day) : dateLe a b -> dateLe b c -> dateLe a c.
Proof. unfold dateLe. lia. Qed.

Lemma sortByDate_strongly_sorted (l : list Day) :
  StronglySorted dateLe (sortByDate l).
Proof.
  apply Sorted_StronglySorted.
  - intros a b c. apply dateLe_trans.
  - apply StreakFacts.sortByDate_sorted.
Qed.

Lemma sortByDate_perm_invariant (l1 l2 : list Day) :
  Permutation l1 l2 -> NoDup (map date l1) -> sortByDate l1 = sortByDate l2.
Proof.
  intros Hperm Hnd. apply sorted_perm_unique.
  - apply sortByDate_strongly_sorted.
  - apply sortByDate_strongly_sorted.
  - eapply perm_trans; [apply Permutation_sym, StreakFacts.sortByDate_perm |].
    eapply perm_trans; [exact Hperm | apply StreakFacts.sortByDate_perm].
  - apply (Permutation_NoDup (l := map date l1)); [| exact Hnd].
    apply Permutation_map, StreakFacts.sortByDate_perm.
Qed.

End AggregateFacts.

(** X17. The aggregation loop totals the year: the total of commits is the
    sum of the daily counts, the velocity series has one entry per day, in
    date order, with that day's count, and the weekday histogram keeps its
    seven slots and holds in all the sum of the positive counts. *)
Theorem aggregate_totals (tz : Z) (yearData : list GithubService.Day) :
  let a := GithubService.aggregate tz yearData in
  GithubService.totalCommits a = total (map GithubService.count yearData)
  /\ GithubService.velocityData a
     = map (fun d => (GithubService.date d, GithubService.count d))
           (GithubService.sortByDate yearData)
  /\ List.length (GithubService.weekdayStats a) = 7%nat
  /\ Js.sum (GithubService.weekdayStats a)
     = total (map (fun d => Z.max 0 (GithubService.count d)) yearData).
Proof.
  intros a. subst a. unfold GithubService.aggregate.
  destruct (AggregateFacts.loop_totals tz (GithubService.sortByDate yearData))
    as (Htot & Hvel & Hlen & Hweek & _).
  pose proof (StreakFacts.sortByDate_perm yearData) as Hperm.
  repeat split.
  - rewrite Htot. symmetry.
    apply AggregateFacts.total_perm, Permutation_map, Hperm.
  - exact Hvel.
  - exact Hlen.
  - rewrite AggregateFacts.sum_total, Hweek. symmetry.
    apply AggregateFacts.total_perm, Permutation_map, Hperm.
Qed.

(** X18. The longest streak is at most the number of days, and it is zero
    exactly when no day has a positive count. *)
Theorem longest_streak_edges (tz : Z) (yearData : list GithubService.Day) :
  let a := GithubService.aggregate tz yearData in
  0 <= GithubService.maxStreak a <= Z.of_nat (List.length yearData)
  /\ (GithubService.maxStreak a = 0
      <-> forall d, In d yearData -> GithubService.count d <= 0).
Proof.
  intros a. subst a. unfold GithubService.aggregate.
  set (sorted := GithubService.sortByDate yearData).
  pose proof (StreakFacts.sortByDate_perm yearData) as Hperm.
  fold sorted in Hperm.
  destruct (AggregateFacts.loop_totals tz sorted)
    as (_ & _ & _ & _ & Hcur & Hmax).
  pose proof (StreakFacts.loop_streakInv tz sorted) as [_ Hlongest].
  cbv zeta in *. split.
  - rewrite (Permutation_length Hperm). lia.
  - split.
    + intros Hzero d Hd.
      destruct (Z.ltb_spec 0 (GithubService.count d)) as [Hpos | Hle];
        [| exact Hle].
      exfalso.
      assert (Hin : In d sorted) by (apply (Permutation_in _ Hperm), Hd).
      apply in_split in Hin. destruct Hin as (pre & post & Heq).
      destruct Hlongest as [_ Hbound].
      specialize (Hbound [GithubService.count d]).
      assert (Hrun : Spec.isRun (map GithubService.count sorted)
                                [GithubService.count d]).
      { split; [| repeat constructor; exact Hpos].
        exists (map GithubService.count pre), (map GithubService.count post).
        rewrite Heq, map_app. reflexivity. }
      specialize (Hbound Hrun). cbn in Hbound. lia.
    + intros Hidle.
      apply (StreakFacts.no_activity_no_streak
               (map GithubService.count sorted)); [| exact Hlongest].
      apply Forall_map, Forall_forall. intros d Hd. apply Hidle.
      apply (Permutation_in _ (Permutation_sym Hperm)), Hd.
Qed.

(** X19. The order in which the contribution days arrive does not matter
    when no two of them share a date: the aggregation of any rearrangement
    is the same. *)
Theorem aggregate_ignores_input_order (tz : Z)
  (yearData shuffled : list GithubService.Day) :
  Permutation yearData shuffled ->
  NoDup (map GithubService.date yearData) ->
  GithubService.aggregate tz shuffled = GithubService.aggregate tz yearData.
Proof.
  intros Hperm Hnd. unfold GithubService.aggregate.
  rewrite (AggregateFacts.sortByDate_perm_invariant _ _ Hperm Hnd).
  reflexivity.
Qed.

(** The theorem on three days given backwards. *)
Lemma aggregate_ignores_input_order_witness :
  let yearData :=
    [GithubService.mkDay 1 2; GithubService.mkDay 2 0;
     GithubService.mkDay 3 5] in
  Permutation yearData (rev yearData)
  /\ NoDup (map GithubService.date yearData)
  /\ GithubService.aggregate 0 (rev yearData)
     = GithubService.aggregate 0 yearData.
Proof.
  intros yearData.
  assert (Hperm : Permutation yearData (rev yearData))
    by apply Permutation_rev.
  assert (Hnd : NoDup (map GithubService.date yearData)).
  { cbn. repeat constructor; cbn; intuition discriminate. }
  split; [exact Hperm |]. split; [exact Hnd |].
  exact (aggregate_ignores_input_order 0 yearData (rev yearData) Hperm Hnd).
Defined.

(** ** The loop over the repositories: stars and language tally *)

Module TallyFacts.
Import GithubService.

Lemma tally_count (m : list (string * Z)) (k k' : string) :
  tallyCount (tally m k) k'
  = tallyCount m k' + (if String.eqb k' k then 1 else 0).
Proof.
  induction m as [| [k0 n] m IH]; cbn.
  - rewrite (String.eqb_sym k k'). destruct (String.eqb k' k); reflexivity.
  - destruct (String.eqb_spec k0 k) as [E | Hne]; cbn.
    + subst k0. rewrite (String.eqb_sym k k').
      destruct (String.eqb k' k); lia.
    + destruct (String.eqb_spec k0 k') as [E | Hk'].
      * subst k0. rewrite (proj2 (String.eqb_neq k' k) Hne). lia.
      * exact IH.
Qed.

Lemma tally_keys (m : list (string * Z)) (k k' : string) :
  In k' (map fst (tally m k)) -> k' = k \/ In k' (map fst m).
Proof.
  induction m as [| [k0 n] m IH]; cbn.
  - intros [<- | []]. left. reflexivity.
  - destruct (String.eqb_spec k0 k) as [E | Hne]; cbn.
    + intros [<- | Hin]; auto.
    + intros [<- | Hin]; auto. destruct (IH Hin); auto.
Qed.

Lemma tally_NoDup (m : list (string * Z)) (k : string) :
  NoDup (map fst m) -> NoDup (map fst (tally m k)).
Proof.
  induction m as [| [k0 n] m IH]; cbn; intros Hnd.
  - repeat constructor. intros [].
  - inversion Hnd as [| ? ? Hnotin Hnd']; subst.
    destruct (String.eqb_spec k0 k) as [E | Hne]; cbn; [exact Hnd |].
    constructor; [| apply IH, Hnd'].
    intros Hin. destruct (tally_keys _ _ _ Hin) as [E | Hin'];
      [congruence | contradiction].
Qed.

Lemma tally_positive (m : list (string * Z)) (k : string) :
  Forall (fun e => 0 < snd e) m -> Forall (fun e => 0 < snd e) (tally m k).
Proof.
  induction m as [| [k0 n] m IH]; cbn; intros Hall.
  - repeat constructor.
  - inversion Hall as [| ? ? Hn Hm]; subst. cbn [snd] in Hn.
    destruct (String.eqb k0 k).
    + constructor; [cbn; lia | exact Hm].
    + constructor; [exact Hn | apply IH, Hm].
Qed.

Lemma tally_total (m : list (string * Z)) (k : string) :
  total (map snd (tally m k)) = total (map snd m) + 1.
Proof.
  unfold total. induction m as [| [k0 n] m IH]; cbn; [reflexivity |].
  destruct (String.eqb k0 k); cbn; lia.
Qed.

Lemma entry_tallyCount (m : list (string * Z)) (k : string) (n : Z) :
  NoDup (map fst m) -> In (k, n) m -> tallyCount m k = n.
Proof.
  induction m as [| [k0 n0] m IH]; cbn; intros Hnd Hin; [destruct Hin |].
  inversion Hnd as [| ? ? Hnotin Hnd']; subst.
  destruct Hin as [[= -> ->] | Hin].
  - rewrite String.eqb_refl. reflexivity.
  - destruct (String.eqb_spec k0 k) as [E | Hne]; [| apply IH; assumption].
    subst k0. exfalso. apply Hnotin. apply (in_map fst _ _ Hin).
Qed.

Lemma tallyCount_entry (m : list (string * Z)) (k : string) :
  tallyCount m k <> 0 -> In (k, tallyCount m k) m.
Proof.
  induction m as [| [k0 n] m IH]; cbn; intros Hne; [lia |].
  destruct (String.eqb_spec k0 k) as [E | Hk]; [left; subst; reflexivity |].
  right. apply IH, Hne.
Qed.

Lemma selectRepos_snoc' (calls : list (Z * Repo)) (call : Z * Repo) :
  selectRepos (calls ++ [call]) = visitRepo (selectRepos calls) call.
Proof. unfold selectRepos. rewrite fold_left_app. reflexivity. Qed.

Lemma visitRepo_tally (st : Selection) (call : Z * Repo) :
  totalStarsSoFar (visitRepo st call)
  = totalStarsSoFar st + stargazers_count (snd call)
  /\ langMap (visitRepo st call)
     = match language (snd call) with
       | Some l => if Js.truthy (Some l) then tally (langMap st) l
                   else langMap st
       | None => langMap st
       end.
Proof.
  destruct call as [now repo]. unfold visitRepo. cbn [snd].
  destruct (Rlt_dec _ _); cbn [totalStarsSoFar langMap]; split; reflexivity.
Qed.

Lemma languageCountOf_snoc (lang : string) (calls : list (Z * Repo))
  (call : Z * Repo) :
  languageCountOf lang (calls ++ [call])
  = languageCountOf lang calls
    + (if hasPrimaryLanguage lang call then 1 else 0).
Proof.
  unfold languageCountOf. rewrite filter_app, length_app. cbn [filter].
  destruct (hasPrimaryLanguage lang call); cbn [List.length]; lia.
Qed.

Lemma selectRepos_tally (calls : list (Z * Repo)) :
  let st := selectRepos calls in
  totalStarsSoFar st = total (map (fun c => stargazers_count (snd c)) calls)
  /\ NoDup (map fst (langMap st))
  /\ Forall (fun e => 0 < snd e) (langMap st)
  /\ total (map snd (langMap st)) <= Z.of_nat (List.length calls)
  /\ forall lang, tallyCount (langMap st) lang = languageCountOf lang calls.
Proof.
  induction calls as [| call calls IH] using rev_ind.
  - cbn. repeat split; try constructor. reflexivity.
  - cbn zeta in *. rewrite selectRepos_snoc'.
    destruct (visitRepo_tally (selectRepos calls) call) as [-> ->].
    destruct IH as (Hstars & Hnd & Hpos & Htotal & Hcount).
    rewrite map_app, AggregateFacts.total_app, length_app.
    cbn [map List.length]. rewrite AggregateFacts.total_one.
    split; [lia |].
    assert (Hlangs : forall lang,
               languageCountOf lang (calls ++ [call])
               = languageCountOf lang calls
                 + match language (snd call) with
                   | Some l => if Js.truthy (Some l)
                               then (if String.eqb lang l then 1 else 0)
                               else 0
                   | None => 0
                   end).
    { intros lang. rewrite languageCountOf_snoc. unfold hasPrimaryLanguage.
      destruct (language (snd call)) as [l |]; [| reflexivity].
      rewrite (String.eqb_sym l lang).
      destruct (Js.truthy (Some l)); reflexivity. }
    destruct (language (snd call)) as [l |].
    + destruct (Js.truthy (Some l)).
      * split; [apply tally_NoDup, Hnd |].
        split; [apply tally_positive, Hpos |].
        split; [rewrite tally_total; lia |].
        intros lang. rewrite tally_count, Hlangs, Hcount. reflexivity.
      * repeat split; try assumption; try lia.
        intros lang. rewrite Hlangs, Hcount. lia.
    + repeat split; try assumption; try lia.
      intros lang. rewrite Hlangs, Hcount. lia.
Qed.

Lemma entry_le_total (m : list (string * Z)) (e : string * Z) :
  Forall (fun e => 0 < snd e) m -> In e m -> snd e <= total (map snd m).
Proof.
  unfold total. induction m as [| x m IH]; cbn; intros Hall Hin;
    [destruct Hin |].
  inversion Hall as [| ? ? Hx Hm]; subst.
  assert (0 <= fold_right Z.add 0 (map snd m)).
  { clear -Hm. induction m as [| y m IH]; cbn; [lia |].
    inversion Hm; subst. specialize (IH H2). lia. }
  destruct Hin as [-> | Hin]; [lia |].
  specialize (IH Hm Hin). lia.
Qed.

End TallyFacts.

(** X20. The loop over the repositories adds up all the stars, and tallies
    every repository, forks included, under its primary language: the entry
    of a language holds the number of repositories that have it. *)
Theorem repos_loop_counts_stars_and_languages (calls : list (Z * Repo)) :
  let st := GithubService.selectRepos calls in
  GithubService.totalStarsSoFar st
  = total (map (fun c => stargazers_count (snd c)) calls)
  /\ forall lang n,
       In (lang, n) (GithubService.langMap st)
       <-> 0 < n /\ n = languageCountOf lang calls.
Proof.
  intros st. subst st.
  destruct (TallyFacts.selectRepos_tally calls)
    as (Hstars & Hnd & Hpos & _ & Hcount).
  cbv zeta in *. split; [exact Hstars |].
  intros lang n. split.
  - intros Hin. split.
    + rewrite Forall_forall in Hpos. exact (Hpos _ Hin).
    + rewrite <- Hcount. symmetry.
      apply TallyFacts.entry_tallyCount; assumption.
  - intros [Hn ->]. rewrite <- Hcount in *.
    apply TallyFacts.tallyCount_entry. lia.
Qed.

(** ** Top languages of the report *)

Module TopFacts.
Import GithubService.

Lemma percentageOf_bounds (count : Z) (reposLength : nat) :
  0 <= count <= Z.of_nat reposLength ->
  0 <= percentageOf count reposLength <= 100.
Proof.
  intros Hcount. unfold percentageOf.
  destruct (Nat.ltb_spec 0 reposLength) as [Hpos | Hzero]; [| lia].
  unfold Js.Math_round.
  set (x := (inject_Z count / inject_Z (Z.of_nat reposLength) * 100)%Q).
  assert (Hn : (0 < inject_Z (Z.of_nat reposLength))%Q).
  { rewrite <- (Zlt_Qlt 0). lia. }
  assert (Hx0 : (0 <= x)%Q).
  { subst x. apply Qmult_le_0_compat; [| discriminate].
    apply Qle_shift_div_l; [exact Hn |].
    rewrite Qmult_0_l. rewrite <- (Zle_Qle 0). lia. }
  assert (Hx1 : (x <= 100)%Q).
  { subst x.
    setoid_replace (100 : Q) with (1 * 100)%Q at 2 by reflexivity.
    apply Qmult_le_compat_r; [| discriminate].
    apply Qle_shift_div_r; [exact Hn |].
    rewrite Qmult_1_l. rewrite <- Zle_Qle. lia. }
  split.
  - change 0 with (Qfloor (0 + (1 # 2))).
    apply Qfloor_resp_le. apply Qplus_le_l. exact Hx0.
  - change 100 with (Qfloor (100 + (1 # 2))).
    apply Qfloor_resp_le. apply Qplus_le_l. exact Hx1.
Qed.

Lemma slice0_3 {A} (l : list A) : Js.slice0 l 3 = firstn 3 l.
Proof. reflexivity. Qed.

(** The array before the placeholder test. *)
Lemma topLanguages_entries (m : list (string * Z)) (reposLength : nat) :
  m <> [] ->
  map entryOf (topLanguages m reposLength)
  = firstn 3 (Js.sort byCountDesc m).
Proof.
  intros Hne. unfold topLanguages. rewrite slice0_3.
  set (sorted := Js.sort byCountDesc m).
  assert (Hlen : List.length sorted = List.length m)
    by apply sort_length.
  destruct sorted as [| e sorted'] eqn:Hs.
  - destruct m; [congruence | discriminate Hlen].
  - cbn [firstn map List.length Nat.eqb].
    rewrite map_map. cbn [map]. f_equal.
    + destruct e. reflexivity.
    + rewrite <- (map_id (firstn 2 sorted')) at 2.
      apply map_ext. intros [k n]. reflexivity.
Qed.

End TopFacts.

(** X21. [topLanguages] is never empty and never longer than three.  With no
    language tallied it is the Polyglot placeholder alone; otherwise it
    holds the min(3, n) most frequent languages, most frequent first, and
    no language left out is more frequent than one that is listed. *)
Theorem topLanguages_shape (langMap : list (string * Z)) (reposLength : nat) :
  let top := GithubService.topLanguages langMap reposLength in
  (1 <= List.length top <= 3)%nat
  /\ (langMap = [] -> top = [GithubService.polyglot])
  /\ (langMap <> [] ->
      List.length top = Nat.min 3 (List.length langMap)
      /\ StronglySorted (fun a b => snd b <= snd a) (map entryOf top)
      /\ exists rest,
           Permutation langMap (map entryOf top ++ rest)
           /\ forall e r, In e (map entryOf top) -> In r rest ->
                          snd r <= snd e).
Proof.
  intros top. subst top.
  assert (Hempty : GithubService.topLanguages [] reposLength
                   = [GithubService.polyglot]) by reflexivity.
  assert (Hfull : langMap <> [] ->
            List.length (GithubService.topLanguages langMap reposLength)
            = Nat.min 3 (List.length langMap)
            /\ StronglySorted (fun a b => snd b <= snd a)
                 (map entryOf
                      (GithubService.topLanguages langMap reposLength))
            /\ exists rest,
                 Permutation langMap
                   (map entryOf
                        (GithubService.topLanguages langMap reposLength)
                    ++ rest)
                 /\ forall e r,
                      In e (map entryOf
                              (GithubService.topLanguages langMap
                                                          reposLength)) ->
                      In r rest -> snd r <= snd e).
  { intros Hne.
    pose proof (TopFacts.topLanguages_entries langMap reposLength Hne) as He.
    assert (Hsorted : StronglySorted (leProp GithubService.byCountDesc)
                        (Js.sort GithubService.byCountDesc langMap)).
    { apply sort_sorted.
      - apply PeakFacts.byCountDesc_total.
      - apply PeakFacts.byCountDesc_trans. }
    rewrite <- (firstn_skipn 3 (Js.sort _ langMap)) in Hsorted.
    destruct (StronglySorted_app_inv _ _ _ Hsorted) as (Htop & _ & Hcross).
    assert (Hle : forall a b : string * Z,
               leProp GithubService.byCountDesc a b -> snd b <= snd a).
    { intros a b H. apply Z.leb_le. exact H. }
    split; [| split].
    - rewrite <- (length_map entryOf), He, length_firstn, sort_length.
      reflexivity.
    - rewrite He.
      eapply StronglySorted_ind with (P := StronglySorted _); try exact Htop.
      + constructor.
      + intros a l _ IH Hall. constructor; [exact IH |].
        eapply Forall_impl; [| exact Hall]. intros b. apply Hle.
    - exists (skipn 3 (Js.sort GithubService.byCountDesc langMap)).
      rewrite He, firstn_skipn. split; [apply sort_perm |].
      intros e r Hin Hr. apply Hle, Hcross; assumption. }
  split; [| split; [intros ->; exact Hempty | exact Hfull]].
  destruct langMap as [| e m]; [rewrite Hempty; cbn; lia |].
  destruct (Hfull ltac:(discriminate)) as (Hlen & _).
  rewrite Hlen. cbn [List.length]. lia.
Qed.

(** The theorem on a tally of four languages. *)
Lemma topLanguages_shape_witness :
  let langMap :=
    [("Go", 2); ("C", 5); ("Rust", 2); ("Zig", 1)]%string in
  langMap <> []
  /\ List.length (GithubService.topLanguages langMap 10)
     = Nat.min 3 (List.length langMap).
Proof.
  intros langMap.
  assert (H : langMap <> []) by discriminate.
  split; [exact H |].
  exact (proj1 (proj2 (proj2 (topLanguages_shape langMap 10)) H)).
Defined.

(** X22. In the report every listed language has a count of at least 1 and
    a percentage between 0 and 100; the commits of the breakdown are the sum
    of the daily counts and the stars of the community block are the sum of
    the stars of the repositories. *)
Theorem report_is_consistent (tz : Z) (user : GithubService.User)
  (calls : list (Z * Repo)) (yearData : list GithubService.Day)
  (eventHours : list Z) (prCount issueCount reviewCount : Z) :
  let story :=
    GithubService.buildStory tz user calls yearData eventHours prCount
                             issueCount reviewCount in
  (forall l, In l (GithubService.story_topLanguages story) ->
             1 <= GithubService.l_count l
             /\ 0 <= GithubService.l_percentage l <= 100)
  /\ commits (GithubService.contributionBreakdown story)
     = total (map GithubService.count yearData)
  /\ GithubService.story_totalCommits story
     = commits (GithubService.contributionBreakdown story)
  /\ totalStars (GithubService.community story)
     = total (map (fun c => stargazers_count (snd c)) calls).
Proof.
  intros story. subst story. unfold GithubService.buildStory.
  cbn [GithubService.story_topLanguages GithubService.contributionBreakdown
       GithubService.story_totalCommits GithubService.community commits
       totalStars].
  destruct (TallyFacts.selectRepos_tally calls)
    as (Hstars & _ & Hpos & Htotal & _).
  destruct (AggregateFacts.loop_totals tz (GithubService.sortByDate yearData))
    as (Htot & _).
  cbv zeta in *. split; [| split; [| split; [reflexivity | exact Hstars]]].
  - intros l Hin.
    set (m := GithubService.langMap (GithubService.selectRepos calls)) in *.
    unfold GithubService.topLanguages in Hin.
    set (top := map _ (Js.slice0 (Js.sort GithubService.byCountDesc m) 3))
      in Hin.
    assert (Htop : forall l', In l' top ->
               1 <= GithubService.l_count l'
               /\ 0 <= GithubService.l_percentage l' <= 100).
    { intros l' Hl'. subst top. apply in_map_iff in Hl'.
      destruct Hl' as ([k n] & <- & He).
      cbn [GithubService.l_count GithubService.l_percentage].
      assert (Hm : In (k, n) m).
      { apply (Permutation_in _ (Permutation_sym
                 (sort_perm GithubService.byCountDesc m))).
        destruct (slice0_prefix (Js.sort GithubService.byCountDesc m) 3)
          as (rest & Hsplit).
        rewrite Hsplit. apply in_or_app. left. exact He. }
      assert (0 < n) by (rewrite Forall_forall in Hpos; exact (Hpos _ Hm)).
      pose proof (TallyFacts.entry_le_total m (k, n) Hpos Hm) as Hle.
      cbn [snd] in Hle.
      split; [lia |]. apply TopFacts.percentageOf_bounds. lia. }
    destruct (List.length top =? 0)%nat.
    + apply in_app_or in Hin. destruct Hin as [Hin | [<- | []]].
      * apply Htop, Hin.
      * cbn. lia.
    + apply Htop, Hin.
  - unfold GithubService.aggregate. rewrite Htot. symmetry.
    apply AggregateFacts.total_perm, Permutation_map,
      StreakFacts.sortByDate_perm.
Qed.

(** ** The API proxy *)

Module ProxyFacts.
Import ApiProxy.

Lemma getNextToken_step (tokens : list string) (i : nat) :
  tokens <> [] ->
  getNextToken tokens i
  = (Js.index tokens i, ((i + 1) mod List.length tokens)%nat).
Proof.
  intros Hne. unfold getNextToken.
  destruct tokens as [| t tokens]; [congruence | reflexivity].
Qed.

Lemma rotate_spec (tokens : list string) (k i : nat) :
  tokens <> [] -> (i < List.length tokens)%nat ->
  rotate tokens i k
  = (map (fun j => Js.index tokens ((i + j) mod List.length tokens)%nat)
         (seq 0 k),
     ((i + k) mod List.length tokens)%nat).
Proof.
  intros Hne. set (n := List.length tokens).
  assert (Hn : n <> 0%nat) by (subst n; destruct tokens; cbn; congruence).
  revert i. induction k as [| k IH]; intros i Hi.
  - cbn. rewrite Nat.add_0_r, Nat.mod_small by exact Hi. reflexivity.
  - cbn [rotate]. rewrite getNextToken_step by exact Hne. fold n.
    rewrite IH by (apply Nat.mod_upper_bound; exact Hn).
    cbn [seq map]. rewrite Nat.add_0_r, (Nat.mod_small i n) by exact Hi.
    f_equal.
    + f_equal. rewrite <- seq_shift, map_map. apply map_ext. intros j.
      rewrite Nat.Div0.add_mod_idemp_l.
      f_equal. f_equal. lia.
    + rewrite Nat.Div0.add_mod_idemp_l. f_equal. lia.
Qed.

Lemma cacheGet_set_same (cache : Cache) (k : string) (v : CacheEntry) :
  cacheGet (cacheSet cache k v) k = Some v.
Proof.
  induction cache as [| [k' v'] cache IH]; cbn.
  - rewrite String.eqb_refl. reflexivity.
  - destruct (String.eqb_spec k' k) as [E | E]; cbn.
    + rewrite E, String.eqb_refl. reflexivity.
    + rewrite (proj2 (String.eqb_neq k' k) E). exact IH.
Qed.

Lemma cacheGet_set_other (cache : Cache) (k k' : string) (v : CacheEntry) :
  k <> k' -> cacheGet (cacheSet cache k v) k' = cacheGet cache k'.
Proof.
  intros Hne. induction cache as [| [k0 v0] cache IH]; cbn.
  - rewrite (proj2 (String.eqb_neq k k') Hne). reflexivity.
  - destruct (String.eqb_spec k0 k) as [E | E]; cbn.
    + subst k0. rewrite (proj2 (String.eqb_neq k k') Hne). reflexivity.
    + destruct (String.eqb k0 k'); [reflexivity | exact IH].
Qed.

Lemma cacheGet_absent (cache : Cache) (k : string) :
  ~ In k (map fst cache) -> cacheGet cache k = None.
Proof.
  induction cache as [| [k' v] cache IH]; cbn; intros Hnot; [reflexivity |].
  destruct (String.eqb_spec k' k) as [E | E]; [tauto |].
  apply IH. tauto.
Qed.

Lemma clean_keys (now : Z) (cache : Cache) (k : string) :
  In k (map fst (cleanExpiredCache now cache)) -> In k (map fst cache).
Proof.
  unfold cleanExpiredCache. intros Hin. apply in_map_iff in Hin.
  destruct Hin as (e & <- & He). apply filter_In in He.
  apply in_map, He.
Qed.

(** With distinct keys, the cleanup at [t] leaves alone whatever a request
    at [now], not before [t], can be served. *)
Lemma servable_clean (t now : Z) (cache : Cache) (key : string) :
  NoDup (map fst cache) -> t <= now ->
  servable now (cleanExpiredCache t cache) key = servable now cache key.
Proof.
  intros Hnd Ht. unfold servable, cleanExpiredCache.
  induction cache as [| [k v] cache IH]; [reflexivity |].
  inversion Hnd as [| ? ? Hnotin Hnd']; subst.
  cbn [filter snd cacheGet].
  destruct (Z.ltb_spec CACHE_TTL_MS (t - timestamp v)) as [Hold | Hkeep];
    cbn [negb cacheGet].
  - destruct (String.eqb_spec k key) as [E | E]; [| apply IH, Hnd'].
    subst k.
    rewrite (cacheGet_absent (filter _ cache) key).
    + destruct (Z.ltb_spec (now - timestamp v) CACHE_TTL_MS); [lia |].
      reflexivity.
    + intros Hin. apply Hnotin. apply (clean_keys t). exact Hin.
  - destruct (String.eqb k key); [reflexivity | apply IH, Hnd'].
Qed.

(** [GET] in terms of [servable]. *)
Lemma GET_hit (tokens : list string)
  (fetch : string -> list (string * string) -> FetchResult)
  (now nowSet : Z) (ep : string) (authorization : option string)
  (st : ProxyState) (c : CacheEntry) :
  Js.truthy (Some ep) = true -> Js.truthy authorization = false ->
  servable now (cache st) (publicKey ep) = Some c ->
  GET tokens fetch now nowSet (Some ep) authorization st
  = (mkResponse (Data (data c)) (status c)
       [("X-Cache", "HIT");
        ("X-Tokens-Available", Js.String_of_nat (List.length tokens))]%string,
     st).
Proof.
  intros Hep Hauth Hserv. unfold GET.
  rewrite Hep, Hauth. cbn [negb].
  change (ep ++ ":" ++ "public")%string with (publicKey ep).
  change (match cacheGet (cache st) (publicKey ep) with
          | Some c0 =>
              if now - timestamp c0 <? CACHE_TTL_MS then Some c0 else None
          | None => None
          end) with (servable now (cache st) (publicKey ep)).
  rewrite Hserv. reflexivity.
Qed.

Lemma GET_miss (tokens : list string)
  (fetch : string -> list (string * string) -> FetchResult)
  (now nowSet : Z) (ep : string) (authorization : option string)
  (st : ProxyState) :
  Js.truthy (Some ep) = true -> Js.truthy authorization = false ->
  servable now (cache st) (publicKey ep) = None ->
  exists requestHeaders,
    GET tokens fetch now nowSet (Some ep) authorization st
    = match fetch (GITHUB_API_BASE ++ ep)%string requestHeaders with
      | Threw =>
          (mkResponse (Error "Failed to fetch from GitHub") 500 [],
           mkProxyState (cache st)
                        (snd (getNextToken tokens (tokenIndex st))))
      | Responded response =>
          (mkResponse (Data (up_data response)) (up_status response)
             [("X-RateLimit-Remaining", orEmpty (up_remaining response));
              ("X-RateLimit-Reset", orEmpty (up_reset response));
              ("X-Cache", "MISS");
              ("X-Tokens-Available",
               Js.String_of_nat (List.length tokens))]%string,
           mkProxyState
             (if ok response
              then cacheSet (cache st) (publicKey ep)
                     (mkCacheEntry (up_data response) (up_status response)
                                   nowSet)
              else cache st)
             (snd (getNextToken tokens (tokenIndex st))))
      end.
Proof.
  intros Hep Hauth Hserv. unfold GET.
  rewrite Hep, Hauth. cbn [negb].
  change (ep ++ ":" ++ "public")%string with (publicKey ep).
  change (match cacheGet (cache st) (publicKey ep) with
          | Some c0 =>
              if now - timestamp c0 <? CACHE_TTL_MS then Some c0 else None
          | None => None
          end) with (servable now (cache st) (publicKey ep)).
  rewrite Hserv.
  destruct (getNextToken tokens (tokenIndex st)) as [[t |] i]; cbn [snd].
  - destruct (Js.truthy (Some t));
      match goal with |- context [fetch ?u ?h] => exists h end;
      destruct (fetch _ _) as [| response]; try reflexivity;
      rewrite andb_true_r; reflexivity.
  - match goal with |- context [fetch ?u ?h] => exists h end.
    destruct (fetch _ _) as [| response]; try reflexivity.
    rewrite andb_true_r. reflexivity.
Qed.

End ProxyFacts.

(** X23. [getNextToken] hands the tokens out in rotation: from a valid
    index, the calls return the tokens at consecutive positions modulo the
    number of tokens, and after as many calls as there are tokens the index
    is back where it started. *)
Theorem getNextToken_round_robin (tokens : list string) (i k : nat) :
  tokens <> [] -> (i < List.length tokens)%nat ->
  rotate tokens i k
  = (map (fun j => Js.index tokens ((i + j) mod List.length tokens)%nat)
         (seq 0 k),
     ((i + k) mod List.length tokens)%nat)
  /\ snd (rotate tokens i (List.length tokens)) = i
  /\ Forall (fun t => t <> None) (fst (rotate tokens i k)).
Proof.
  intros Hne Hi.
  assert (Hn : List.length tokens <> 0%nat)
    by (destruct tokens; cbn; congruence).
  split; [apply ProxyFacts.rotate_spec; assumption |]. split.
  - rewrite ProxyFacts.rotate_spec by assumption. cbn [snd].
    rewrite <- (Nat.mul_1_l (List.length tokens)) at 1.
    rewrite Nat.Div0.mod_add. apply Nat.mod_small, Hi.
  - rewrite ProxyFacts.rotate_spec by assumption. cbn [fst].
    apply Forall_map, Forall_forall. intros j _. unfold Js.index.
    apply nth_error_Some. apply Nat.mod_upper_bound, Hn.
Qed.

(** The theorem on three tokens, starting from the last one. *)
Lemma getNextToken_round_robin_witness :
  let tokens := ["a"; "b"; "c"]%string in
  tokens <> [] /\ (2 < List.length tokens)%nat
  /\ snd (rotate tokens 2 (List.length tokens)) = 2%nat.
Proof.
  intros tokens.
  assert (Hne : tokens <> []) by discriminate.
  assert (Hi : (2 < List.length tokens)%nat) by (cbn; lia).
  split; [exact Hne |]. split; [exact Hi |].
  exact (proj1 (proj2 (getNextToken_round_robin tokens 2 0 Hne Hi))).
Defined.

(** X24. The periodic cleanup never changes an answer: with distinct cache
    keys, a request handled after a cleanup that ran at or before its own
    clock reading gets the response it would have got without the
    cleanup. *)
Theorem cleanup_is_transparent (tokens : list string)
  (fetch : string -> list (string * string) -> ApiProxy.FetchResult)
  (cleanedAt now nowSet : Z) (endpoint authorization : option string)
  (st : ApiProxy.ProxyState) :
  NoDup (map fst (ApiProxy.cache st)) -> cleanedAt <= now ->
  fst (ApiProxy.GET tokens fetch now nowSet endpoint authorization
         (ApiProxy.tick cleanedAt st))
  = fst (ApiProxy.GET tokens fetch now nowSet endpoint authorization st).
Proof.
  intros Hnd Ht. unfold ApiProxy.GET, ApiProxy.tick.
  cbn [ApiProxy.cache ApiProxy.tokenIndex].
  destruct endpoint as [ep |]; [| reflexivity].
  destruct (Js.truthy (Some ep)); cbn [negb]; [| reflexivity].
  destruct (Js.truthy authorization).
  - destruct (fetch _ _); reflexivity.
  - set (key := (ep ++ ":" ++ "public")%string).
    change (match ApiProxy.cacheGet
                    (ApiProxy.cleanExpiredCache cleanedAt (ApiProxy.cache st))
                    key with
            | Some c =>
                if now - ApiProxy.timestamp c <? ApiProxy.CACHE_TTL_MS
                then Some c else None
            | None => None
            end)
      with (servable now
              (ApiProxy.cleanExpiredCache cleanedAt (ApiProxy.cache st)) key).
    change (match ApiProxy.cacheGet (ApiProxy.cache st) key with
            | Some c =>
                if now - ApiProxy.timestamp c <? ApiProxy.CACHE_TTL_MS
                then Some c else None
            | None => None
            end)
      with (servable now (ApiProxy.cache st) key).
    rewrite ProxyFacts.servable_clean by assumption.
    destruct (servable now (ApiProxy.cache st) key); [reflexivity |].
    destruct (ApiProxy.getNextToken tokens (ApiProxy.tokenIndex st))
      as [[t |] i].
    + destruct (Js.truthy (Some t)); destruct (fetch _ _); reflexivity.
    + destruct (fetch _ _); reflexivity.
Qed.

(** The theorem on a cache holding one stale entry. *)
Lemma cleanup_is_transparent_witness :
  let st :=
    ApiProxy.mkProxyState
      [(publicKey "/users/octocat", ApiProxy.mkCacheEntry "{}" 200 0)] 0 in
  NoDup (map fst (ApiProxy.cache st))
  /\ fst (ApiProxy.GET ["a"%string] echoFetch 400000 400001
            (Some "/users/octocat"%string) None (ApiProxy.tick 400000 st))
     = fst (ApiProxy.GET ["a"%string] echoFetch 400000 400001
              (Some "/users/octocat"%string) None st).
Proof.
  intros st.
  assert (Hnd : NoDup (map fst (ApiProxy.cache st))).
  { cbn. repeat constructor. intros []. }
  split; [exact Hnd |].
  apply (cleanup_is_transparent ["a"%string] echoFetch 400000 400000 400001
           (Some "/users/octocat"%string) None st Hnd).
  lia.
Defined.

(** X25. A public response is served again from the cache: after an
    unauthenticated request that missed the cache and got an ok response,
    an unauthenticated request for the same endpoint less than five
    minutes after the store is answered with the same body and status,
    marked HIT, whatever the upstream would say now, and it changes neither
    the cache nor the token index. *)
Theorem public_response_is_cached (tokens : list string)
  (fetch fetch' : string -> list (string * string) -> ApiProxy.FetchResult)
  (now nowSet now' nowSet' : Z) (ep : string)
  (authorization authorization' : option string)
  (st : ApiProxy.ProxyState) (r : ApiProxy.Upstream) :
  Js.truthy (Some ep) = true ->
  Js.truthy authorization = false -> Js.truthy authorization' = false ->
  servable now (ApiProxy.cache st) (publicKey ep) = None ->
  (forall requestHeaders,
     fetch (ApiProxy.GITHUB_API_BASE ++ ep)%string requestHeaders
     = ApiProxy.Responded r) ->
  ApiProxy.ok r = true ->
  now' - nowSet < ApiProxy.CACHE_TTL_MS ->
  let st1 :=
    snd (ApiProxy.GET tokens fetch now nowSet (Some ep) authorization st) in
  ApiProxy.GET tokens fetch' now' nowSet' (Some ep) authorization' st1
  = (ApiProxy.mkResponse (ApiProxy.Data (ApiProxy.up_data r))
       (ApiProxy.up_status r)
       [("X-Cache", "HIT");
        ("X-Tokens-Available", Js.String_of_nat (List.length tokens))]%string,
     st1).
Proof.
  intros Hep Hauth Hauth' Hmiss Hfetch Hok Hfresh st1. subst st1.
  destruct (ProxyFacts.GET_miss tokens fetch now nowSet ep authorization st
              Hep Hauth Hmiss) as (requestHeaders & ->).
  rewrite Hfetch, Hok. cbn [snd].
  apply (ProxyFacts.GET_hit tokens fetch' now' nowSet' ep authorization' _
           (ApiProxy.mkCacheEntry (ApiProxy.up_data r) (ApiProxy.up_status r)
                                  nowSet) Hep Hauth').
  unfold servable. cbn [ApiProxy.cache].
  rewrite ProxyFacts.cacheGet_set_same. cbn [ApiProxy.timestamp].
  rewrite (proj2 (Z.ltb_lt _ _) Hfresh). reflexivity.
Qed.

(** The theorem on an empty cache, the second request one second after the
    first. *)
Lemma public_response_is_cached_witness :
  let st := ApiProxy.mkProxyState [] 0 in
  let ep := "/users/octocat"%string in
  let st1 :=
    snd (ApiProxy.GET ["a"%string] echoFetch 10 11 (Some ep) None st) in
  servable 10 (ApiProxy.cache st) (publicKey ep) = None
  /\ fst (ApiProxy.GET ["a"%string] (fun _ _ => ApiProxy.Threw) 1011 1012
            (Some ep) None st1)
     = ApiProxy.mkResponse
         (ApiProxy.Data "https://api.github.com/users/octocat") 200
         [("X-Cache", "HIT"); ("X-Tokens-Available", "1")]%string.
Proof.
  intros st ep st1.
  assert (Hmiss : servable 10 (ApiProxy.cache st) (publicKey ep) = None)
    by reflexivity.
  split; [exact Hmiss |]. subst st1.
  rewrite (public_response_is_cached ["a"%string] echoFetch
             (fun _ _ => ApiProxy.Threw) 10 11 1011 1012 ep None None st
             (ApiProxy.mkUpstream 200 (ApiProxy.GITHUB_API_BASE ++ ep) None
                                  None)
             eq_refl eq_refl eq_refl Hmiss (fun _ => eq_refl) eq_refl
             eq_refl).
  reflexivity.
Defined.

(** X26. A request that carries its own Authorization header stays outside
    the shared state: it is never answered from the cache, its response is
    never stored, and it consumes no server token; the upstream call
    carries the caller's header. *)
Theorem authenticated_request_bypasses_state (tokens : list string)
  (fetch : string -> list (string * string) -> ApiProxy.FetchResult)
  (now nowSet : Z) (ep userAuthHeader : string) (st : ApiProxy.ProxyState) :
  Js.truthy (Some ep) = true -> Js.truthy (Some userAuthHeader) = true ->
  ApiProxy.GET tokens fetch now nowSet (Some ep) (Some userAuthHeader) st
  = (match fetch (ApiProxy.GITHUB_API_BASE ++ ep)%string
             [("Accept", "application/vnd.github.v3+json");
              ("User-Agent", "GitStory-2025");
              ("Authorization", userAuthHeader)]%string with
     | ApiProxy.Threw =>
         ApiProxy.mkResponse (ApiProxy.Error "Failed to fetch from GitHub")
                             500 []
     | ApiProxy.Responded r =>
         ApiProxy.mkResponse (ApiProxy.Data (ApiProxy.up_data r))
           (ApiProxy.up_status r)
           [("X-RateLimit-Remaining",
             ApiProxy.orEmpty (ApiProxy.up_remaining r));
            ("X-RateLimit-Reset", ApiProxy.orEmpty (ApiProxy.up_reset r));
            ("X-Cache", "MISS");
            ("X-Tokens-Available",
             Js.String_of_nat (List.length tokens))]%string
     end, st).
Proof.
  intros Hep Hauth. unfold ApiProxy.GET. rewrite Hep, Hauth. cbn [negb].
  unfold ApiProxy.orEmpty at 1. rewrite Hauth. cbn [app].
  destruct st as [cache tokenIndex]. cbn [ApiProxy.cache ApiProxy.tokenIndex].
  destruct (fetch _ _) as [| r]; [reflexivity |].
  rewrite andb_false_r. reflexivity.
Qed.

(** The theorem on a request with a personal token. *)
Lemma authenticated_request_bypasses_state_witness :
  let st := ApiProxy.mkProxyState [] 0 in
  snd (ApiProxy.GET ["a"%string] echoFetch 10 11
         (Some "/user/repos"%string) (Some "Bearer xyz"%string) st) = st.
Proof.
  intros st.
  rewrite (authenticated_request_bypasses_state ["a"%string] echoFetch 10 11
             "/user/repos" "Bearer xyz" st eq_refl eq_refl).
  reflexivity.
Defined.


(** X28. [GET] keeps the token index valid: with at least one server token
    and an index below their number, the index after any request is still
    below their number. *)
Theorem token_index_stays_valid (tokens : list string)
  (fetch : string -> list (string * string) -> ApiProxy.FetchResult)
  (now nowSet : Z) (endpoint authorization : option string)
  (st : ApiProxy.ProxyState) :
  (ApiProxy.tokenIndex st < List.length tokens)%nat ->
  (ApiProxy.tokenIndex
     (snd (ApiProxy.GET tokens fetch now nowSet endpoint authorization st))
   < List.length tokens)%nat.
Proof.
  intros Hi. unfold ApiProxy.GET.
  assert (Hn : List.length tokens <> 0%nat) by lia.
  assert (Hnext : (snd (ApiProxy.getNextToken tokens (ApiProxy.tokenIndex st))
                   < List.length tokens)%nat).
  { unfold ApiProxy.getNextToken.
    destruct (List.length tokens =? 0)%nat; cbn [snd]; [exact Hi |].
    apply Nat.mod_upper_bound, Hn. }
  destruct endpoint as [ep |]; [| exact Hi].
  destruct (Js.truthy (Some ep)); cbn [negb]; [| exact Hi].
  destruct (Js.truthy authorization).
  - destruct (fetch _ _); exact Hi.
  - destruct (match ApiProxy.cacheGet (ApiProxy.cache st) _ with
              | Some c => _
              | None => None
              end); [exact Hi |].
    destruct (ApiProxy.getNextToken tokens (ApiProxy.tokenIndex st))
      as [[t |] i]; cbn [snd] in Hnext.
    + destruct (Js.truthy (Some t)); destruct (fetch _ _); exact Hnext.
    + destruct (fetch _ _); exact Hnext.
Qed.

(** The theorem on two tokens and a public request. *)
Lemma token_index_stays_valid_witness :
  let st := ApiProxy.mkProxyState [] 1 in
  (ApiProxy.tokenIndex st < 2)%nat
  /\ (ApiProxy.tokenIndex
        (snd (ApiProxy.GET ["a"; "b"]%string echoFetch 10 11
                (Some "/users/octocat"%string) None st)) < 2)%nat.
Proof.
  intros st.
  assert (H : (ApiProxy.tokenIndex st < 2)%nat) by (cbn; lia).
  split; [exact H |].
  exact (token_index_stays_valid ["a"; "b"]%string echoFetch 10 11
           (Some "/users/octocat"%string) None st H).
Defined.
